(** * Module-scoped question-paper generation: a shallow embedding

    The development embeds the question-generation core of the academic
    assistant ([app/models/__init__.py] and
    [app/agents/question_generator.py]) and proves properties of the
    syllabus parser, the module-content selector, the response repair,
    the paper validation and the orchestrator.  It goes on with the
    requests of the notes parser and of the summarizer, the endpoint of
    [app/routers/academic_router.py] that calls the generator, and the
    completion clients of [app/utils].

    Python values are represented as follows.
    - [str] is [string]; each [ascii] is read as the code point of the
      same number, so the texts covered are those whose code points are
      below 256.
    - [int] is [Z]; [float] is the primitive binary64 [float].
    - [list] is [list]; a [dict] is an association list in insertion
      order (Python dictionaries iterate in insertion order).
    - a raised exception is the left injection of a sum, carrying the
      text of [str(e)]. *)

From Stdlib Require Import ZArith List String Ascii Bool Lia.
From Stdlib Require Import Decimal DecimalString DecimalNat DecimalZ DecimalPos.
From Stdlib Require Import Floats.
Import ListNotations.

Set Warnings "-register-all,-inexact-float".

Local Open Scope list_scope.
Local Open Scope string_scope.

(** ** Python built-ins on [str] *)

Module PyStr.

Definition nl : ascii := "010"%char.
Definition dquote : ascii := "034"%char.

(** [str.isspace] on one character, which is also the class [\s] of
    [re] on [str] patterns: below 256 these are 9-13, 28-32, 133 and
    160. *)
Definition is_space (c : ascii) : bool :=
  let n := nat_of_ascii c in
  ((9 <=? n) && (n <=? 13) || (28 <=? n) && (n <=? 32)
   || (n =? 133) || (n =? 160))%nat.

(** The class [\d] of [re]: below 256 only the ASCII digits are
    decimal digits. *)
Definition is_digit (c : ascii) : bool :=
  let n := nat_of_ascii c in ((48 <=? n) && (n <=? 57))%nat.

(** [str.lower] on one character: A-Z, and the Latin-1 capitals
    192-222 apart from the multiplication sign 215. *)
Definition lower_char (c : ascii) : ascii :=
  let n := nat_of_ascii c in
  if ((65 <=? n) && (n <=? 90)
      || (192 <=? n) && (n <=? 222) && negb (n =? 215))%nat
  then ascii_of_nat (n + 32) else c.

Fixpoint lower (s : string) : string :=
  match s with
  | EmptyString => EmptyString
  | String c t => String (lower_char c) (lower t)
  end.

Fixpoint lstrip (s : string) : string :=
  match s with
  | EmptyString => EmptyString
  | String c t => if is_space c then lstrip t else s
  end.

Fixpoint rstrip (s : string) : string :=
  match s with
  | EmptyString => EmptyString
  | String c t =>
      match rstrip t with
      | EmptyString => if is_space c then EmptyString else String c EmptyString
      | t' => String c t'
      end
  end.

(** [s.strip()] *)
Definition strip (s : string) : string := rstrip (lstrip s).

(** [s.split(sep)] for a one-character separator. *)
Fixpoint split (sep : ascii) (s : string) : list string :=
  match s with
  | EmptyString => [EmptyString]
  | String c t =>
      if Ascii.eqb c sep then EmptyString :: split sep t
      else match split sep t with
           | l :: ls => String c l :: ls
           | [] => [String c EmptyString]
           end
  end.

(** [sep.join(l)] *)
Fixpoint join (sep : string) (l : list string) : string :=
  match l with
  | [] => EmptyString
  | [x] => x
  | x :: rest => x ++ sep ++ join sep rest
  end.

(** [s.find(c)]: the index of the first [c], or -1. *)
Fixpoint find (c : ascii) (s : string) : Z :=
  match s with
  | EmptyString => (-1)%Z
  | String d t =>
      if Ascii.eqb d c then 0%Z
      else let r := find c t in if (r <? 0)%Z then (-1)%Z else (r + 1)%Z
  end.

(** [s.rfind(c)]: the index of the last [c], or -1. *)
Fixpoint rfind (c : ascii) (s : string) : Z :=
  match s with
  | EmptyString => (-1)%Z
  | String d t =>
      let r := rfind c t in
      if (0 <=? r)%Z then (r + 1)%Z
      else if Ascii.eqb d c then 0%Z else (-1)%Z
  end.

(** [s[a:b]] for indices that are not negative. *)
Definition slice (s : string) (a b : Z) : string :=
  substring (Z.to_nat a) (Z.to_nat (b - a)) s.

(** [str(n)] for an [int]. *)
Definition str_of_int (z : Z) : string :=
  NilZero.string_of_int (Z.to_int z).

(** Truth value of a [str] and of a [list] in a condition. *)
Definition truthy (s : string) : bool :=
  match s with EmptyString => false | _ => true end.

Definition nonempty {A} (l : list A) : bool :=
  match l with [] => false | _ => true end.

(** [$] without [re.MULTILINE]: the end of the text, or just before a
    newline that ends it. *)
Definition at_dollar (s : string) : bool :=
  match s with
  | EmptyString => true
  | String c EmptyString => Ascii.eqb c nl
  | _ => false
  end.

End PyStr.
Import PyStr.

(** ** The regular expressions of the two source files

    [re] matches by backtracking: a repetition takes the longest run
    first, an alternation its first branch first, and an earlier choice is
    revised when what follows fails.  The matcher below does the same on
    the constructs that the patterns use. *)

Module Re.

(** The empty pattern, one character of a class, concatenation,
    alternation, the greedy repetition of a class, a capturing group and
    [$]. *)
Inductive regex :=
| Eps
| Chr (p : ascii -> bool)
| Cat (r1 r2 : regex)
| Alt (r1 r2 : regex)
| Star (p : ascii -> bool)
| Grp (r : regex)
| Eos.

(** The greedy repetition: the longest run is tried first, and a shorter
    one when what follows, [k], fails. *)
Fixpoint star {R} (p : ascii -> bool) (s : string) (k : string -> option R)
  : option R :=
  match s with
  | String c t =>
      if p c then
        match star p t k with
        | Some r => Some r
        | None => k s
        end
      else k s
  | EmptyString => k s
  end.

(** The text between the start of [s] and its suffix [s']. *)
Definition consumed (s s' : string) : string :=
  substring 0 (String.length s - String.length s') s.

(** Matching at the start of [s]: [k] is what remains to be matched; it
    receives the rest of the text and the groups closed so far. *)
Fixpoint run {R} (r : regex) (s : string) (groups : list string)
  (k : string -> list string -> option R) : option R :=
  match r with
  | Eps => k s groups
  | Chr p =>
      match s with
      | String c t => if p c then k t groups else None
      | EmptyString => None
      end
  | Cat r1 r2 => run r1 s groups (fun s' groups' => run r2 s' groups' k)
  | Alt r1 r2 =>
      match run r1 s groups k with
      | Some x => Some x
      | None => run r2 s groups k
      end
  | Star p => star p s (fun s' => k s' groups)
  | Grp r1 =>
      run r1 s groups
        (fun s' groups' => k s' (List.app groups' [consumed s s']))
  | Eos => if at_dollar s then k s groups else None
  end.

(** What a match returns when nothing remains to be matched: its groups
    and the text after it. *)
Definition done (rest : string) (groups : list string)
  : option (list string * string) := Some (groups, rest).

(** [re.match(r, s)]: the match at the start of [s].  A leading [^] adds
    nothing to it. *)
Definition match_ (r : regex) (s : string) : option (list string * string) :=
  run r s [] done.

(** The truth value of [re.match(r, s)]. *)
Definition matches (r : regex) (s : string) : bool :=
  match match_ r s with Some _ => true | None => false end.

(** [re.search(r, s)]: the match at the first position that has one. *)
Fixpoint search (r : regex) (s : string) : option (list string * string) :=
  match match_ r s with
  | Some m => Some m
  | None =>
      match s with
      | String _ t => search r t
      | EmptyString => None
      end
  end.

(** [m.group(n)], for a group that takes part in every match. *)
Definition group (n : nat) (m : list string * string) : string :=
  nth (n - 1) (fst m) EmptyString.

(** [re.sub(r, repl, s)] for a pattern that matches no empty text: the
    matches are taken from left to right and do not overlap, the text
    between them is copied.  [fuel] bounds the number of steps by the
    length of the text. *)
Fixpoint sub_fuel (fuel : nat) (r : regex) (repl : list string * string -> string)
  (s : string) : string :=
  match fuel with
  | O => s
  | S fuel' =>
      match s with
      | EmptyString => EmptyString
      | String c t =>
          match match_ r s with
          | Some m => repl m ++ sub_fuel fuel' r repl (snd m)
          | None => String c (sub_fuel fuel' r repl t)
          end
      end
  end.

Definition sub (r : regex) (repl : list string * string -> string) (s : string)
  : string :=
  sub_fuel (String.length s) r repl s.

(** *** Notation of patterns *)

Fixpoint seq (l : list regex) : regex :=
  match l with
  | [] => Eps
  | [r] => r
  | r :: l' => Cat r (seq l')
  end.

(** [c+] and [r?] *)
Definition plus (p : ascii -> bool) : regex := Cat (Chr p) (Star p).

Definition opt (r : regex) : regex := Alt r Eps.

(** Literal text, and literal lower-case text under [re.IGNORECASE]. *)
Fixpoint lit (s : string) : regex :=
  match s with
  | EmptyString => Eps
  | String c t => Cat (Chr (Ascii.eqb c)) (lit t)
  end.

Fixpoint lit_ci (s : string) : regex :=
  match s with
  | EmptyString => Eps
  | String c t => Cat (Chr (fun d => Ascii.eqb c (lower_char d))) (lit_ci t)
  end.

(** The classes [[:.\-]], [.] and [[1-9]]. *)
Definition is_sep (c : ascii) : bool :=
  Ascii.eqb c ":" || Ascii.eqb c "." || Ascii.eqb c "-".

Definition not_newline (c : ascii) : bool := negb (Ascii.eqb c nl).

Definition is_digit_1_9 (c : ascii) : bool :=
  is_digit c && negb (Ascii.eqb c "0").

(** *** The patterns *)

(** [module\s*(\d+)\s*[:.\-]?\s*] and a second group that takes the rest
    of the line with [.] repeated; with [chapter] and [unit] for the word,
    the third and the fourth header pattern. *)
Definition word_num (word : string) : regex :=
  seq [ lit word; Star is_space; Grp (plus is_digit); Star is_space;
        opt (Chr is_sep); Star is_space; Grp (Star not_newline) ].

(** [module\s*[:.\-]?\s*(\d+)\s*] and the group for the rest of the line. *)
Definition module_sep_num : regex :=
  seq [ lit "module"; Star is_space; opt (Chr is_sep); Star is_space;
        Grp (plus is_digit); Star is_space; Grp (Star not_newline) ].

(** [(\d+)\s*[:.\-]\s*] and the group for the rest of the line. *)
Definition num_sep : regex :=
  seq [ Grp (plus is_digit); Star is_space; Chr is_sep; Star is_space;
        Grp (Star not_newline) ].

(** [(\d+)] *)
Definition digits : regex := Grp (plus is_digit).

(** [^\d+$] *)
Definition digits_only : regex := seq [ plus is_digit; Eos ].

(** [^Module\s+([1-9]|10)$] *)
Definition module_1_10 : regex :=
  seq [ lit "Module"; plus is_space; Grp (Alt (Chr is_digit_1_9) (lit "10")); Eos ].

(** [module\s+(\d+)] under [re.IGNORECASE] *)
Definition module_ws_num : regex :=
  seq [ lit_ci "module"; plus is_space; Grp (plus is_digit) ].

End Re.

(** ** Decoded JSON, dictionaries and field validation *)

Module Json.

(** What [json.loads] returns: [None], a [bool], an [int], a [float], a
    [str], a [list] or a [dict] with [str] keys. *)
Inductive json :=
| JNull
| JBool (b : bool)
| JInt (z : Z)
| JFloat (x : float)
| JStr (s : string)
| JArr (items : list json)
| JObj (items : list (string * json)).

End Json.
Export Json.

Module Dict.

Section Defs.

Context {V : Type}.

Definition t := list (string * V).

(** [d.get(k)] *)
Fixpoint get (k : string) (d : t) : option V :=
  match d with
  | [] => None
  | (k', v) :: r => if String.eqb k' k then Some v else get k r
  end.

(** [k in d] *)
Definition mem (k : string) (d : t) : bool :=
  match get k d with Some _ => true | None => false end.

(** [d[k] = v]: the value of a key that is present is replaced where
    it stands, a new key goes to the end. *)
Fixpoint set (k : string) (v : V) (d : t) : t :=
  match d with
  | [] => [(k, v)]
  | (k', v') :: r =>
      if String.eqb k' k then (k', v) :: r else (k', v') :: set k v r
  end.

(** [d.setdefault(k, v)], for its effect on [d]. *)
Definition setdefault (k : string) (v : V) (d : t) : t :=
  if mem k d then d else set k v d.

(** [d.get(k, v)] *)
Definition get_or (k : string) (v : V) (d : t) : V :=
  match get k d with Some x => x | None => v end.

(** [list(d.keys())] *)
Definition keys (d : t) : list string := map fst d.

End Defs.

Arguments t : clear implicits.

End Dict.

Module Pydantic.

(** The validation of the scalar types is the library's: which decoded
    values an [int], a [str] or a [bool] field accepts, and the value
    it keeps, are parameters of the model. *)
Record scalars := {
  as_int : json -> option Z;
  as_str : json -> option string;
  as_bool : json -> option bool
}.

(** A validator that accepts at least the values of the exact type and
    keeps them unchanged. *)
Record accepts_exact (py : scalars) : Prop := {
  as_int_exact : forall z, as_int py (JInt z) = Some z;
  as_str_exact : forall s, as_str py (JStr s) = Some s;
  as_bool_exact : forall b, as_bool py (JBool b) = Some b
}.

(** The validator that accepts the values of the exact type only. *)
Definition strict : scalars := {|
  as_int := fun v => match v with JInt z => Some z | _ => None end;
  as_str := fun v => match v with JStr s => Some s | _ => None end;
  as_bool := fun v => match v with JBool b => Some b | _ => None end
|}.

(** A required field, [Field(...)]. *)
Definition required {A} (f : json -> option A) (name : string)
  (d : Dict.t json) : option A :=
  match Dict.get name d with
  | Some v => f v
  | None => None
  end.

(** An [Optional] field with default [None]. *)
Definition optional {A} (f : json -> option A) (name : string)
  (d : Dict.t json) : option (option A) :=
  match Dict.get name d with
  | None => Some None
  | Some JNull => Some None
  | Some v => option_map Some (f v)
  end.

(** [int] with [ge=lo] and, when given, [le=hi]. *)
Definition int_range (py : scalars) (lo : option Z) (hi : option Z)
  (v : json) : option Z :=
  match as_int py v with
  | Some z =>
      if match lo with Some l => (l <=? z)%Z | None => true end
         && match hi with Some h => (z <=? h)%Z | None => true end
      then Some z else None
  | None => None
  end.

(** [str] with [min_length=n]. *)
Definition str_min_length (py : scalars) (n : nat) (v : json)
  : option string :=
  match as_str py v with
  | Some s => if (n <=? String.length s)%nat then Some s else None
  | None => None
  end.

Fixpoint all_items {A} (f : json -> option A) (l : list json)
  : option (list A) :=
  match l with
  | [] => Some []
  | v :: r =>
      match f v, all_items f r with
      | Some a, Some ar => Some (a :: ar)
      | _, _ => None
      end
  end.

(** [List[A]] with [min_items=n]. *)
Definition list_min_items {A} (f : json -> option A) (n : nat) (v : json)
  : option (list A) :=
  match v with
  | JArr l => if (n <=? List.length l)%nat then all_items f l else None
  | _ => None
  end.

End Pydantic.

(** ** [app/models/__init__.py] *)

(** The test types supported by the question generator. *)
Inductive TestType := CAT1 | CAT2 | FAT.

Module TestTypeEnum.

Definition value (t : TestType) : string :=
  match t with CAT1 => "CAT-1" | CAT2 => "CAT-2" | FAT => "FAT" end.

(** Validation of a [TestType] field from a [str]: the member whose
    value it is. *)
Definition of_value (s : string) : option TestType :=
  if String.eqb s "CAT-1" then Some CAT1
  else if String.eqb s "CAT-2" then Some CAT2
  else if String.eqb s "FAT" then Some FAT
  else None.

Definition eqb (a b : TestType) : bool :=
  match a, b with
  | CAT1, CAT1 | CAT2, CAT2 | FAT, FAT => true
  | _, _ => false
  end.

End TestTypeEnum.

Module QuestionPart.
Record t := mk {
  label : option string;
  marks : Z;
  text : string;
  module : list string
}.

(** The construction of a [QuestionPart] from a decoded [dict];
    [None] stands for the [ValidationError]. *)
Definition validate (py : Pydantic.scalars) (v : json) : option t :=
  match v with
  | JObj d =>
      match Pydantic.optional (Pydantic.as_str py) "label" d,
            Pydantic.required
              (Pydantic.int_range py (Some 1%Z) (Some 10%Z)) "marks" d,
            Pydantic.required (Pydantic.str_min_length py 10) "text" d,
            Pydantic.required
              (Pydantic.list_min_items (Pydantic.as_str py) 0) "module" d
      with
      | Some l, Some m, Some x, Some ms => Some (mk l m x ms)
      | _, _, _, _ => None
      end
  | _ => None
  end.

End QuestionPart.

Module Question.
Record t := mk {
  q_no : Z;
  marks : Z;
  parts : list QuestionPart.t;
  instructions : option string
}.

Definition validate (py : Pydantic.scalars) (v : json) : option t :=
  match v with
  | JObj d =>
      match Pydantic.required (Pydantic.int_range py (Some 1%Z) None) "q_no" d,
            Pydantic.required
              (Pydantic.int_range py (Some 1%Z) (Some 10%Z)) "marks" d,
            Pydantic.required
              (Pydantic.list_min_items (QuestionPart.validate py) 1) "parts" d,
            Pydantic.optional (Pydantic.as_str py) "instructions" d
      with
      | Some n, Some m, Some ps, Some ins => Some (mk n m ps ins)
      | _, _, _, _ => None
      end
  | _ => None
  end.

End Question.

Module QuestionPaperMetadata.
Record t := mk {
  title : string;
  test_type : TestType;
  modules : list string;
  total_marks : Z;
  notes : option string
}.

Definition validate_test_type (v : json) : option TestType :=
  match v with
  | JStr s => TestTypeEnum.of_value s
  | _ => None
  end.

Definition validate (py : Pydantic.scalars) (v : json) : option t :=
  match v with
  | JObj d =>
      match Pydantic.required (Pydantic.str_min_length py 1) "title" d,
            Pydantic.required validate_test_type "test_type" d,
            Pydantic.required
              (Pydantic.list_min_items (Pydantic.as_str py) 1) "modules" d,
            Pydantic.required (Pydantic.int_range py (Some 1%Z) None)
              "total_marks" d,
            Pydantic.optional (Pydantic.as_str py) "notes" d
      with
      | Some ti, Some ty, Some ms, Some tm, Some n => Some (mk ti ty ms tm n)
      | _, _, _, _, _ => None
      end
  | _ => None
  end.

End QuestionPaperMetadata.

Module QuestionPaperValidation.
Record t := mk {
  total_marks_check : Z;
  unique_questions : bool
}.

Definition validate (py : Pydantic.scalars) (v : json) : option t :=
  match v with
  | JObj d =>
      match Pydantic.required (Pydantic.int_range py None None)
              "total_marks_check" d,
            Pydantic.required (Pydantic.as_bool py) "unique_questions" d
      with
      | Some c, Some u => Some (mk c u)
      | _, _ => None
      end
  | _ => None
  end.

End QuestionPaperValidation.

Module GeneratedQuestionPaper.
Record t := mk {
  metadata : QuestionPaperMetadata.t;
  paper : list Question.t;
  validation : QuestionPaperValidation.t
}.

(** The construction of a [GeneratedQuestionPaper] with the entries of
    [parsed_data] as keyword arguments: the three fields are required,
    keys that name no field are ignored. *)
Definition validate (py : Pydantic.scalars) (parsed_data : Dict.t json)
  : option t :=
  match Pydantic.required (QuestionPaperMetadata.validate py)
          "metadata" parsed_data,
        Pydantic.required (Pydantic.list_min_items (Question.validate py) 0)
          "paper" parsed_data,
        Pydantic.required (QuestionPaperValidation.validate py)
          "validation" parsed_data
  with
  | Some m, Some p, Some v => Some (mk m p v)
  | _, _, _ => None
  end.

End GeneratedQuestionPaper.

Module QuestionGenerationRequest.

Record t := mk {
  syllabus_text : string;
  test_type : TestType;
  modules : list string
}.

(** The body of the loop of [validate_modules] for one entry that is
    not blank: the normalised label, or the [ValueError]. *)
Definition normalize_module (module : string) : string + string :=
  let module_normalized :=
    Re.sub Re.module_ws_num (fun m => "Module " ++ Re.group 1 m) module in
  let module_normalized :=
    if Re.matches Re.digits_only module then "Module " ++ module
    else module_normalized in
  if negb (Re.matches Re.module_1_10 module_normalized)
  then inl ("Invalid module: " ++ module
            ++ ". Must be Module 1 through Module 10")
  else inr module_normalized.

Fixpoint validate_modules_loop (v validated_modules : list string)
  : string + list string :=
  match v with
  | [] => inr validated_modules
  | module :: rest =>
      let module := strip module in
      if negb (truthy module) then validate_modules_loop rest validated_modules
      else match normalize_module module with
           | inl e => inl e
           | inr m => validate_modules_loop rest (validated_modules ++ [m])%list
           end
  end.

(** [validate_modules], the validator of the field [modules].  It runs
    after the field's own validation, so [v] is a list of [str] here
    and the branch for a comma-separated [str] is never taken. *)
Definition validate_modules (v : list string) : string + list string :=
  match validate_modules_loop v [] with
  | inl e => inl e
  | inr validated_modules =>
      if negb (nonempty validated_modules)
      then inl "At least one module must be selected"
      else inr validated_modules
  end.

(** What the construction of a request reports for a field. *)
Inductive field_error :=
| StringTooShort (field : string) (min_length : nat)
| EnumValue (field : string)
| TooShort (field : string) (min_items : nat)
| TooLong (field : string) (max_items : nat)
| ValueError (field : string) (msg : string).

Definition check_syllabus_text (s : string) : list field_error :=
  if (String.length s <? 10)%nat then [StringTooShort "syllabus_text" 10] else [].

Definition check_modules (v : list string) : list field_error + list string :=
  if (List.length v <? 1)%nat then inl [TooShort "modules" 1]
  else if (10 <? List.length v)%nat then inl [TooLong "modules" 10]
  else match validate_modules v with
       | inl e => inl [ValueError "modules" e]
       | inr ms => inr ms
       end.

(** [QuestionGenerationRequest(syllabus_text=..., test_type=...,
    modules=...)]: every field is validated ([min_length=10]; a
    [TestType] value; [min_items=1], [max_items=10], then
    [validate_modules]) and the errors of all fields are reported
    together. *)
Definition new (syllabus_text test_type : string) (modules : list string)
  : list field_error + t :=
  let e1 := check_syllabus_text syllabus_text in
  match TestTypeEnum.of_value test_type, check_modules modules with
  | Some ty, inr ms =>
      match e1 with
      | [] => inr (mk syllabus_text ty ms)
      | _ => inl e1
      end
  | Some _, inl e3 => inl (e1 ++ e3)%list
  | None, inr _ => inl (e1 ++ [EnumValue "test_type"])%list
  | None, inl e3 => inl (e1 ++ [EnumValue "test_type"] ++ e3)%list
  end.

End QuestionGenerationRequest.

Module QuestionGenerationResponse.
Record t := mk {
  success : bool;
  message : string;
  question_paper : option GeneratedQuestionPaper.t;
  processing_time : float;
  agent_used : string
}.
End QuestionGenerationResponse.

(** ** [app/agents/question_generator.py] *)

Module QuestionPaperGenerator.

Definition NL : string := String nl EmptyString.

(** A text given by its lines. *)
Definition text_of_lines (l : list string) : string := join NL l.

Record test_config := {
  count : Z;
  marks_each : Z;
  total : Z
}.

(** [self.question_limits] *)
Definition question_limits (t : TestType) : test_config :=
  match t with
  | CAT1 => {| count := 5; marks_each := 10; total := 50 |}
  | CAT2 => {| count := 5; marks_each := 10; total := 50 |}
  | FAT => {| count := 10; marks_each := 10; total := 100 |}
  end.

(** *** [_parse_all_modules_from_syllabus] *)

(** The header patterns, in the order in which a line is tried against
    them. *)
Definition module_patterns : list Re.regex :=
  [ Re.word_num "module";
    Re.module_sep_num;
    Re.word_num "chapter";
    Re.word_num "unit";
    Re.num_sep ].

(** The loop over the patterns: group 1 of the first match. *)
Fixpoint first_match (patterns : list Re.regex) (line_lower : string)
  : option string :=
  match patterns with
  | [] => None
  | pattern :: rest =>
      match Re.match_ pattern line_lower with
      | Some m => Some (Re.group 1 m)
      | None => first_match rest line_lower
      end
  end.

(** The variables of the loop. *)
Record parse_state := {
  modules : Dict.t string;
  current_module : option string;
  current_content : list string
}.

Definition parse_init : parse_state :=
  {| modules := []; current_module := None; current_content := [] |}.

(** [if current_module and current_content:
      modules[current_module] = '\n'.join(current_content)] *)
Definition save_current (st : parse_state) : Dict.t string :=
  match current_module st with
  | Some m =>
      if truthy m && nonempty (current_content st)
      then Dict.set m (join NL (current_content st)) (modules st)
      else modules st
  | None => modules st
  end.

(** One turn of the loop over the lines. *)
Definition parse_line (st : parse_state) (line : string) : parse_state :=
  let line_stripped := strip line in
  if negb (truthy line_stripped) then st
  else
    let line_lower := lower line_stripped in
    match first_match module_patterns line_lower with
    | Some module_num =>
        {| modules := save_current st;
           current_module := Some ("Module " ++ module_num);
           current_content := [line_stripped] |}
    | None =>
        match current_module st with
        | Some m =>
            if truthy m
            then {| modules := modules st;
                    current_module := current_module st;
                    current_content :=
                      (current_content st ++ [line_stripped])%list |}
            else st
        | None => st
        end
    end.

Definition parse_lines (lines : list string) : Dict.t string :=
  save_current (fold_left parse_line lines parse_init).

Definition _parse_all_modules_from_syllabus (syllabus_text : string)
  : Dict.t string :=
  parse_lines (split nl syllabus_text).

(** *** [_extract_module_number], [_create_error_response],
    [_extract_module_content] *)

Definition _extract_module_number (module_name : string) : option string :=
  match Re.search Re.digits module_name with
  | Some m => Some (Re.group 1 m)
  | None => None
  end.

Definition quoted (s : string) : string :=
  String dquote s ++ String dquote EmptyString.

Definition _create_error_response (selected_modules available_modules
  : list string) : string :=
  text_of_lines
    [ EmptyString;
      "ERROR: Cannot generate questions for the selected modules.";
      EmptyString;
      "SELECTED MODULES: " ++ join ", " selected_modules;
      "AVAILABLE MODULES IN SYLLABUS: " ++ join ", " available_modules;
      EmptyString;
      "Please check that the module names are correct and exist in the uploaded syllabus.";
      "Supported formats: " ++ quoted "Module 1" ++ ", "
        ++ quoted "Module 2" ++ ", etc.";
      EmptyString ].

Definition same_number (module_num : string) (key : string) : bool :=
  match _extract_module_number key with
  | Some n => String.eqb n module_num
  | None => false
  end.

(** The content that one requested name selects: that of the key equal
    to it, or else that of the first key with the same number. *)
Definition resolve (all_modules : Dict.t string) (module_name : string)
  : option string :=
  if Dict.mem module_name all_modules then Dict.get module_name all_modules
  else
    match _extract_module_number module_name with
    | Some module_num =>
        if truthy module_num then
          match List.find (same_number module_num) (Dict.keys all_modules) with
          | Some key => Dict.get key all_modules
          | None => None
          end
        else None
    | None => None
    end.

(** One turn of the loop over [selected_modules], on the pair
    ([selected_content], [found_modules]). *)
Definition select_module (all_modules : Dict.t string)
  (acc : list string * list string) (module_name : string)
  : list string * list string :=
  match resolve all_modules module_name with
  | Some content =>
      (List.app (fst acc)
         [ NL ++ "=== " ++ module_name ++ " CONTENT ONLY ===";
           content; EmptyString ],
       List.app (snd acc) [module_name])
  | None => acc
  end.

Definition strict_content (selected_modules found_modules : list string)
  (result : string) : string :=
  text_of_lines
    [ EmptyString;
      "ULTRA STRICT INSTRUCTION: You MUST generate questions ONLY from the specific module content below.";
      EmptyString;
      "SELECTED MODULES: " ++ join ", " selected_modules;
      "AVAILABLE CONTENT: " ++ join ", " found_modules;
      EmptyString;
      "=== MODULE-SPECIFIC CONTENT ===";
      result;
      EmptyString;
      "CRITICAL RULES:";
      "1. Generate questions ONLY from the content above";
      "2. DO NOT use any knowledge outside this content";
      "3. Each question must relate to topics mentioned in the selected modules";
      "4. Tag each question with the correct module name from: "
        ++ join ", " selected_modules;
      "5. IGNORE all other syllabus content not shown above";
      "6. DO NOT mention any concepts, terms, or topics not explicitly listed in the content above";
      "7. STICK STRICTLY to the topics shown: only use words and concepts that appear in the content above";
      EmptyString;
      "FORBIDDEN: Questions about topics not explicitly mentioned in the selected module content above.";
      "ABSOLUTELY FORBIDDEN: Using your general knowledge about any subject beyond the provided content." ].

(** The [try] block of [_extract_module_content] once the syllabus is
    parsed. *)
Definition select_content (all_modules : Dict.t string)
  (selected_modules : list string) : string :=
  let (selected_content, found_modules) :=
    fold_left (select_module all_modules) selected_modules ([], []) in
  if negb (nonempty found_modules)
  then _create_error_response selected_modules (Dict.keys all_modules)
  else strict_content selected_modules found_modules
         (join NL selected_content).

(** On [str] arguments no statement of the [try] block raises, so the
    [except] branch, which answers with [_create_error_response] as
    well, is not reached and the function always returns a [str]. *)
Definition _extract_module_content (syllabus_text : string)
  (selected_modules : list string) : string :=
  select_content (_parse_all_modules_from_syllabus syllabus_text) selected_modules.

(** *** [_validate_question_paper] *)

Inductive log_level := LogInfo | LogWarning | LogError.

(** A call of the logger, by its level and its message. *)
Record log_record := {
  level : log_level;
  event : string
}.

Definition sum_marks (paper : list Question.t) : Z :=
  fold_left (fun acc q => (acc + Question.marks q)%Z) paper 0%Z.

(** The loop that checks the marks of each question: the message of
    the first question that deviates. *)
Fixpoint check_each_marks (cfg : test_config) (paper : list Question.t)
  : option string :=
  match paper with
  | [] => None
  | q :: rest =>
      if negb (Question.marks q =? marks_each cfg)%Z
      then Some ("Question " ++ str_of_int (Question.q_no q) ++ " has "
                 ++ str_of_int (Question.marks q) ++ " marks, expected "
                 ++ str_of_int (marks_each cfg))
      else check_each_marks cfg rest
  end.

(** The elements of the set [covered_modules]. *)
Definition covered_modules (paper : list Question.t) : list string :=
  flat_map (fun question =>
              flat_map QuestionPart.module (Question.parts question)) paper.

Definition contains (l : list string) (x : string) : bool :=
  existsb (String.eqb x) l.

(** [covered_modules.intersection(requested_modules)] is not empty. *)
Definition covers_requested (covered requested : list string) : bool :=
  existsb (contains requested) covered.

(** The [ValueError] raised, or the calls of the logger of a run that
    returns. *)
Definition _validate_question_paper (question_paper : GeneratedQuestionPaper.t)
  (request : QuestionGenerationRequest.t) : string + list log_record :=
  let test_config := question_limits (QuestionGenerationRequest.test_type request) in
  let paper := GeneratedQuestionPaper.paper question_paper in
  let n := Z.of_nat (List.length paper) in
  if negb (n =? count test_config)%Z
  then inl ("Expected " ++ str_of_int (count test_config)
            ++ " questions, got " ++ str_of_int n)
  else
    let actual_total := sum_marks paper in
    if negb (actual_total =? total test_config)%Z
    then inl ("Expected " ++ str_of_int (total test_config)
              ++ " total marks, got " ++ str_of_int actual_total)
    else
      match check_each_marks test_config paper with
      | Some e => inl e
      | None =>
          let covered := covered_modules paper in
          let requested := QuestionGenerationRequest.modules request in
          let warnings :=
            if negb (covers_requested covered requested)
            then [ {| level := LogWarning;
                      event := "Generated questions don't cover any requested modules" |} ]
            else [] in
          inr (List.app warnings
                 [ {| level := LogInfo;
                      event := "Question paper validation passed" |} ])
      end.

(** *** [_parse_and_validate_response] *)

(** The prompt is the fixed template of [_create_generation_prompt]
    filled with these values.  The literal text of the template has
    characters above 255 and is not reproduced. *)
Record prompt := {
  prompt_test_type : string;
  prompt_config : test_config;
  prompt_modules_str : string;
  prompt_rules : string;
  prompt_module_content : string;
  prompt_modules : list string;
  prompt_first_module : string
}.

(** The exceptions that leave the [try] block, by the [except] clause
    that catches them. *)
Inductive raised :=
| JSONDecodeError (msg : string)
| OtherException (msg : string).

(** What the module uses and does not define: the validation of scalar
    fields, [json.loads] on a text (the decoded [dict], or the
    exception raised: a [JSONDecodeError], or another one, as the
    [ValueError] of an integer of too many digits and the
    [RecursionError] of a nesting too deep), the text [str(v)] of a
    decoded value in an f-string, the text of the [ValidationError]
    that the construction of a paper raises, and the completion client
    (the reply, or the text of its exception). *)
Record runtime := {
  pydantic : Pydantic.scalars;
  json_loads : string -> raised + Dict.t json;
  format_value : json -> string;
  validation_error_str : Dict.t json -> string;
  generate_completion : prompt -> string -> float -> Z -> string + string
}.

(** [str] of an [int] is its decimal numeral. *)
Definition formats_int (rt : runtime) : Prop :=
  forall z, format_value rt (JInt z) = str_of_int z.

Definition is_dict (v : json) : bool :=
  match v with JObj _ => true | _ => false end.

Definition is_list (v : json) : bool :=
  match v with JArr _ => true | _ => false end.

(** The defaults of one entry of [question['parts']]. *)
Definition default_part (rt : runtime) (request : QuestionGenerationRequest.t)
  (test_config : test_config) (question : Dict.t json) (i : nat)
  (part : json) : json :=
  match part with
  | JObj part =>
      let part := Dict.setdefault "label" JNull part in
      let part :=
        Dict.setdefault "marks"
          (Dict.get_or "marks" (JInt (marks_each test_config)) question) part in
      let part :=
        Dict.setdefault "text"
          (JStr ("Question "
                 ++ format_value rt
                      (Dict.get_or "q_no" (JInt (Z.of_nat i + 1)) question)
                 ++ " content")) part in
      let part :=
        Dict.setdefault "module"
          (JArr (map JStr (firstn 1 (QuestionGenerationRequest.modules request))))
          part in
      JObj part
  | _ => part
  end.

(** The defaults of the fields of a question, [parts] included: the
    first statements of the loop over [enumerate(parsed_data['paper'])]. *)
Definition default_question_fields (test_config : test_config) (i : nat)
  (question : Dict.t json) : Dict.t json :=
  let question := Dict.setdefault "q_no" (JInt (Z.of_nat i + 1)) question in
  let question :=
    Dict.setdefault "marks" (JInt (marks_each test_config)) question in
  let question := Dict.setdefault "instructions" JNull question in
  match Dict.get "parts" question with
  | Some (JArr _) => question
  | _ => Dict.set "parts" (JArr []) question
  end.

(** The body of that loop: an entry that is no [dict] is passed over. *)
Definition default_question (rt : runtime) (request : QuestionGenerationRequest.t)
  (test_config : test_config) (i : nat) (question : json) : json :=
  match question with
  | JObj question =>
      let question := default_question_fields test_config i question in
      match Dict.get "parts" question with
      | Some (JArr parts) =>
          JObj (Dict.set "parts"
                  (JArr (map (default_part rt request test_config question i) parts))
                  question)
      | _ => JObj question
      end
  | _ => question
  end.

Fixpoint default_questions (rt : runtime) (request : QuestionGenerationRequest.t)
  (test_config : test_config) (i : nat) (paper : list json) : list json :=
  match paper with
  | [] => []
  | question :: rest =>
      default_question rt request test_config i question
      :: default_questions rt request test_config (S i) rest
  end.

Definition default_metadata (request : QuestionGenerationRequest.t)
  (test_config : test_config) (metadata : Dict.t json) : Dict.t json :=
  let value := TestTypeEnum.value (QuestionGenerationRequest.test_type request) in
  let metadata := Dict.setdefault "title" (JStr (value ++ " Question Paper")) metadata in
  let metadata := Dict.setdefault "test_type" (JStr value) metadata in
  let metadata :=
    Dict.setdefault "modules"
      (JArr (map JStr (QuestionGenerationRequest.modules request))) metadata in
  let metadata := Dict.setdefault "total_marks" (JInt (total test_config)) metadata in
  Dict.setdefault "notes" (JStr "Generated based on provided syllabus") metadata.

Definition default_validation (test_config : test_config)
  (validation : Dict.t json) : Dict.t json :=
  let validation :=
    Dict.setdefault "total_marks_check" (JInt (total test_config)) validation in
  Dict.setdefault "unique_questions" (JBool true) validation.

(** [d[k]] when it is a [dict], the empty [dict] otherwise. *)
Definition dict_or_empty (k : string) (d : Dict.t json) : Dict.t json :=
  match Dict.get k d with
  | Some (JObj o) => o
  | _ => []
  end.

(** The block "create fallback data if AI response is incomplete": the
    state of [parsed_data] after it. *)
Definition create_fallback_data (rt : runtime)
  (request : QuestionGenerationRequest.t) (parsed_data : Dict.t json)
  : Dict.t json :=
  match Dict.get "paper" parsed_data with
  | Some (JArr paper) =>
      let test_config := question_limits (QuestionGenerationRequest.test_type request) in
      let parsed_data :=
        Dict.set "metadata"
          (JObj (default_metadata request test_config
                   (dict_or_empty "metadata" parsed_data))) parsed_data in
      let parsed_data :=
        Dict.set "validation"
          (JObj (default_validation test_config
                   (dict_or_empty "validation" parsed_data))) parsed_data in
      Dict.set "paper"
        (JArr (default_questions rt request test_config 0 paper)) parsed_data
  | _ => parsed_data
  end.

Definition required_fields : list string := ["metadata"; "paper"; "validation"].

(** [str] of a list of these field names. *)
Definition repr_fields (l : list string) : string :=
  "[" ++ join ", " (map (fun f => "'" ++ f ++ "'") l) ++ "]".

(** The [try] block up to the construction of the paper: the slice from
    the first opening brace to the last closing one is decoded, the
    three top-level keys are required, the defaults are filled in and
    the typed paper is constructed. *)
Definition materialize_paper (rt : runtime) (raw_response : string)
  (request : QuestionGenerationRequest.t) : raised + GeneratedQuestionPaper.t :=
  let json_start := find "{" raw_response in
  let json_end := (rfind "}" raw_response + 1)%Z in
  if (json_start =? -1)%Z || (json_end =? 0)%Z
  then inl (OtherException "No valid JSON found in response")
  else
    let clean_json := slice raw_response json_start json_end in
    match json_loads rt clean_json with
    | inl e => inl e
    | inr parsed_data =>
        let missing_fields :=
          filter (fun field => negb (Dict.mem field parsed_data)) required_fields in
        if nonempty missing_fields
        then inl (OtherException ("Missing required top-level fields: "
                                  ++ repr_fields missing_fields))
        else
          let parsed_data := create_fallback_data rt request parsed_data in
          match GeneratedQuestionPaper.validate (pydantic rt) parsed_data with
          | None => inl (OtherException (validation_error_str rt parsed_data))
          | Some question_paper => inr question_paper
          end
    end.

(** The whole [try] block: the paper is validated and returned. *)
Definition parse_and_validate_body (rt : runtime) (raw_response : string)
  (request : QuestionGenerationRequest.t) : raised + GeneratedQuestionPaper.t :=
  match materialize_paper rt raw_response request with
  | inl e => inl e
  | inr question_paper =>
      match _validate_question_paper question_paper request with
      | inl e => inl (OtherException e)
      | inr _ => inr question_paper
      end
  end.

(** The paper, or the text of the [ValueError] raised. *)
Definition _parse_and_validate_response (rt : runtime) (raw_response : string)
  (request : QuestionGenerationRequest.t) : string + GeneratedQuestionPaper.t :=
  match parse_and_validate_body rt raw_response request with
  | inr question_paper => inr question_paper
  | inl (JSONDecodeError e) => inl ("Invalid JSON response: " ++ e)
  | inl (OtherException e) => inl ("Response validation failed: " ++ e)
  end.

(** *** [_get_test_type_rules], [_create_generation_prompt],
    [_generate_with_ollama], [generate_question_paper] *)

Definition _get_test_type_rules (test_type : TestType) : string :=
  match test_type with
  | CAT1 =>
      text_of_lines
        [ EmptyString;
          "CAT-1 RULES:";
          "- Level 1: Generate one opinion-based general question from syllabus scenario";
          "- Level 2: Generate one 10-mark no-subdivision question based on basic module knowledge  ";
          "- Level 3: Generate one or two derivation-based or solving-based 10-mark no-subdivision questions";
          "- Level 4: Generate one or two questions with 2+ subdivisions, each logically connected and formula-based";
          "- All questions must be directly based on the syllabus content provided";
          "- Focus on practical application scenarios from the modules";
          EmptyString ]
  | CAT2 =>
      text_of_lines
        [ EmptyString;
          "CAT-2 RULES:";
          "- Level 1: Generate one or two real-world scenario-based questions without specifying algorithms/methods";
          "- Level 2: For coding modules, generate complex coding scenarios requiring lengthy solutions";
          "- Level 3: Generate two scenario-based questions with 2-3 subdivisions requiring deep logical analysis";
          "- Questions should force students to think about what concepts to apply";
          "- Higher-order thinking and analytical skills required";
          "- Scenarios must be realistic and challenging";
          EmptyString ]
  | FAT =>
      text_of_lines
        [ EmptyString;
          "FAT RULES:";
          "- 7 out of 10 questions must follow CAT-1 rules and be syllabus-based";
          "- Remaining 3 questions must follow CAT-2 rules requiring deeper logical thinking";
          "- Mix of basic knowledge, derivations, and advanced analytical questions";
          "- Comprehensive coverage of all selected modules";
          "- Balance between theoretical knowledge and practical application";
          EmptyString ]
  end.

Definition _create_generation_prompt (request : QuestionGenerationRequest.t)
  : prompt :=
  let test_type := QuestionGenerationRequest.test_type request in
  let modules := QuestionGenerationRequest.modules request in
  {| prompt_test_type := TestTypeEnum.value test_type;
     prompt_config := question_limits test_type;
     prompt_modules_str := join ", " modules;
     prompt_rules := _get_test_type_rules test_type;
     prompt_module_content :=
       _extract_module_content
         (QuestionGenerationRequest.syllabus_text request) modules;
     prompt_modules := modules;
     prompt_first_module :=
       match modules with m :: _ => m | [] => "Module 1" end |}.

Definition system_message : string :=
  "You are an expert exam question generator. Respond ONLY with valid JSON format. No explanations, no additional text, just the JSON object as requested.".

Definition _generate_with_ollama (rt : runtime) (p : prompt)
  (test_type : TestType) : string + string :=
  match generate_completion rt p system_message 0.3%float 4000%Z with
  | inr response => inr (strip response)
  | inl e => inl ("Question generation failed: " ++ e)
  end.

(** The [try] block of [generate_question_paper]. *)
Definition generation_pipeline (rt : runtime)
  (request : QuestionGenerationRequest.t) : string + GeneratedQuestionPaper.t :=
  let p := _create_generation_prompt request in
  match _generate_with_ollama rt p (QuestionGenerationRequest.test_type request) with
  | inl e => inl e
  | inr raw_response => _parse_and_validate_response rt raw_response request
  end.

(** [start_time] is the reading of the clock on entry, [end_time] the
    reading taken where the response is built. *)
Definition generate_question_paper (rt : runtime) (start_time end_time : float)
  (request : QuestionGenerationRequest.t) : QuestionGenerationResponse.t :=
  match generation_pipeline rt request with
  | inr question_paper =>
      {| QuestionGenerationResponse.success := true;
         QuestionGenerationResponse.message := "Question paper generated successfully";
         QuestionGenerationResponse.question_paper := Some question_paper;
         QuestionGenerationResponse.processing_time := (end_time - start_time)%float;
         QuestionGenerationResponse.agent_used := "ollama_question_generator" |}
  | inl e =>
      {| QuestionGenerationResponse.success := false;
         QuestionGenerationResponse.message := "Generation failed: " ++ e;
         QuestionGenerationResponse.question_paper := None;
         QuestionGenerationResponse.processing_time := (end_time - start_time)%float;
         QuestionGenerationResponse.agent_used := "none" |}
  end.

End QuestionPaperGenerator.

(** * The notions of the statements

    Predicates, readings of the parser's input as blocks, and the data
    of the examples. *)

(** ** The patterns read from left to right

    In each pattern a repetition is followed by a character that the
    repetition cannot take, or by a rest that always matches; the
    backtracking matcher then agrees with a reading of the text from
    left to right, which the matchers of this module do. *)

Module Compiled.

(** The longest prefix whose characters are of the class [p], and what
    follows it. *)
Fixpoint span (p : ascii -> bool) (s : string) : string * string :=
  match s with
  | EmptyString => (EmptyString, EmptyString)
  | String c t =>
      if p c then let (a, b) := span p t in (String c a, b)
      else (EmptyString, s)
  end.

(** The text after the literal prefix [pre]. *)
Fixpoint strip_prefix (pre s : string) : option string :=
  match pre with
  | EmptyString => Some s
  | String c pre' =>
      match s with
      | String d s' => if Ascii.eqb c d then strip_prefix pre' s' else None
      | EmptyString => None
      end
  end.

(** The same, a character of [s] being taken when its lower case is the
    (lower-case) character of [pre]. *)
Fixpoint strip_prefix_ci (pre s : string) : option string :=
  match pre with
  | EmptyString => Some s
  | String c pre' =>
      match s with
      | String d s' =>
          if Ascii.eqb c (lower_char d) then strip_prefix_ci pre' s' else None
      | EmptyString => None
      end
  end.

Definition digits_after (s : string) : option string :=
  let (d, _) := span is_digit s in
  if truthy d then Some d else None.

(** Group 1 of [Re.word_num word]: the word, white space, and the digits
    of the group; what follows the digits always matches. *)
Definition match_word_num (word s : string) : option string :=
  match strip_prefix word s with
  | Some r => digits_after (snd (span is_space r))
  | None => None
  end.

(** Group 1 of [Re.module_sep_num]. *)
Definition match_module_sep_num (s : string) : option string :=
  match strip_prefix "module" s with
  | Some r =>
      let r1 := snd (span is_space r) in
      let r2 := match r1 with
                | String c t => if Re.is_sep c then t else r1
                | EmptyString => r1
                end in
      digits_after (snd (span is_space r2))
  | None => None
  end.

(** Group 1 of [Re.num_sep]. *)
Definition match_num_sep (s : string) : option string :=
  let (d, r) := span is_digit s in
  if truthy d then
    match snd (span is_space r) with
    | String c _ => if Re.is_sep c then Some d else None
    | EmptyString => None
    end
  else None.

(** Group 1 of the search for [Re.digits]: the first run of digits. *)
Fixpoint search_digits (s : string) : option string :=
  match s with
  | EmptyString => None
  | String c t =>
      if is_digit c then Some (fst (span is_digit s)) else search_digits t
  end.

(** Whether [Re.digits_only] matches. *)
Definition match_digits_only (s : string) : bool :=
  let (d, r) := span is_digit s in truthy d && at_dollar r.

(** Whether [Re.module_1_10] matches. *)
Definition match_module_1_10 (s : string) : bool :=
  match strip_prefix "Module" s with
  | Some r =>
      let (ws, r1) := span is_space r in
      truthy ws &&
      match r1 with
      | String c t =>
          (is_digit c && negb (Ascii.eqb c "0") && at_dollar t)
          || match strip_prefix "10" r1 with
             | Some t' => at_dollar t'
             | None => false
             end
      | EmptyString => false
      end
  | None => false
  end.

(** The match of [Re.module_ws_num] at the start of [s]: group 1 and the
    text after the match. *)
Definition match_module_ws_num (s : string) : option (string * string) :=
  match strip_prefix_ci "module" s with
  | Some r =>
      let (ws, r1) := span is_space r in
      let (d, r2) := span is_digit r1 in
      if truthy ws && truthy d then Some (d, r2) else None
  | None => None
  end.

(** The substitution of [Module] and group 1 for the matches of
    [Re.module_ws_num]. *)
Fixpoint sub_module_fuel (fuel : nat) (s : string) : string :=
  match fuel with
  | O => s
  | S fuel' =>
      match s with
      | EmptyString => EmptyString
      | String c t =>
          match match_module_ws_num s with
          | Some (d, rest) => "Module " ++ d ++ sub_module_fuel fuel' rest
          | None => String c (sub_module_fuel fuel' t)
          end
      end
  end.

Definition sub_module (s : string) : string :=
  sub_module_fuel (String.length s) s.

(** Group 1 of the first header pattern that matches. *)
Definition first_header_number (line_lower : string) : option string :=
  match match_word_num "module" line_lower with
  | Some n => Some n
  | None =>
      match match_module_sep_num line_lower with
      | Some n => Some n
      | None =>
          match match_word_num "chapter" line_lower with
          | Some n => Some n
          | None =>
              match match_word_num "unit" line_lower with
              | Some n => Some n
              | None => match_num_sep line_lower
              end
          end
      end
  end.

(** The body of [normalize_module] on these readings. *)
Definition normalize (module : string) : string + string :=
  let module_normalized :=
    if match_digits_only module then "Module " ++ module
    else sub_module module in
  if negb (match_module_1_10 module_normalized)
  then inl ("Invalid module: " ++ module
            ++ ". Must be Module 1 through Module 10")
  else inr module_normalized.

End Compiled.
Import Compiled.

Section Vocabulary.

Import QuestionPaperGenerator.

(** ** Texts *)

Fixpoint all_chars (p : ascii -> bool) (s : string) : bool :=
  match s with
  | EmptyString => true
  | String c t => p c && all_chars p t
  end.

(** The text does not start with a character of the class [p]. *)
Definition stops (p : ascii -> bool) (s : string) : Prop :=
  match s with
  | EmptyString => True
  | String c _ => p c = false
  end.

Fixpoint last_char (s : string) : option ascii :=
  match s with
  | EmptyString => None
  | String c EmptyString => Some c
  | String _ t => last_char t
  end.

(** ** The validation of a paper and the responses *)

(** The three deviations that make the validation raise. *)
Definition deviates (cfg : test_config) (paper : list Question.t) : Prop :=
  Z.of_nat (List.length paper) <> count cfg
  \/ (exists q, In q paper /\ Question.marks q <> marks_each cfg)
  \/ sum_marks paper <> total cfg.

Definition coverage_warning : log_record :=
  {| level := LogWarning;
     event := "Generated questions don't cover any requested modules" |}.

Definition validation_passed : log_record :=
  {| level := LogInfo; event := "Question paper validation passed" |}.

Definition failure_response (e : string) (start_time end_time : float)
  : QuestionGenerationResponse.t :=
  {| QuestionGenerationResponse.success := false;
     QuestionGenerationResponse.message := "Generation failed: " ++ e;
     QuestionGenerationResponse.question_paper := None;
     QuestionGenerationResponse.processing_time := (end_time - start_time)%float;
     QuestionGenerationResponse.agent_used := "none" |}.

Definition success_response (qp : GeneratedQuestionPaper.t)
  (start_time end_time : float) : QuestionGenerationResponse.t :=
  {| QuestionGenerationResponse.success := true;
     QuestionGenerationResponse.message := "Question paper generated successfully";
     QuestionGenerationResponse.question_paper := Some qp;
     QuestionGenerationResponse.processing_time := (end_time - start_time)%float;
     QuestionGenerationResponse.agent_used := "ollama_question_generator" |}.

(** ** The selector *)

Definition resolves (all_modules : Dict.t string) (name : string) : bool :=
  match resolve all_modules name with Some _ => true | None => false end.

(** ** The lines of a syllabus as blocks *)

(** The number that the parser extracts from a line, when the line is a
    header: group 1 of the first pattern that matches the stripped,
    lower-case line. *)
Definition header_number (line : string) : option string :=
  first_match module_patterns (lower (strip line)).

Definition not_header (line : string) : Prop := header_number line = None.

(** The lines that a run of lines adds to a module: stripped, the
    blank ones left out. *)
Definition kept_lines (lines : list string) : list string :=
  filter truthy (map strip lines).

(** A block is a header line and the lines up to the next header. *)
Definition block : Type := string * list string.

Definition block_lines (b : block) : list string := fst b :: snd b.

Definition block_label (b : block) : string :=
  "Module " ++ match header_number (fst b) with
               | Some n => n
               | None => EmptyString
               end.

Definition block_content (b : block) : string :=
  join NL (strip (fst b) :: kept_lines (snd b)).

Definition well_formed (b : block) : Prop :=
  header_number (fst b) <> None /\ Forall not_header (snd b).

Definition store (d : Dict.t string) (b : block) : Dict.t string :=
  Dict.set (block_label b) (block_content b) d.

(** The last block of a label among [blocks]. *)
Definition last_of (blocks : list block) (b : block) : Prop :=
  exists before after,
    blocks = List.app before (b :: after)
    /\ forall b', In b' after -> block_label b' <> block_label b.

(** ** Module labels *)

(** A normalised label: [Module N] with one space and N from 1 to 10. *)
Definition is_label (m : string) : Prop :=
  exists n, (1 <= n <= 10)%Z /\ m = "Module " ++ str_of_int n.

Definition not_capital_m (c : ascii) : bool := negb (Ascii.eqb c "M").

(** The two forms in which the validation accepts a label of the number
    [n]: the numeral alone, or the word [module] in any letter case,
    white space and the numeral. *)
Definition accepted_form (module : string) (n : Z) : Prop :=
  module = str_of_int n
  \/ exists w ws,
       module = w ++ ws ++ str_of_int n
       /\ lower w = "module"
       /\ ws <> EmptyString /\ all_chars is_space ws = true.

(** The label that the validation keeps for an entry of the list:
    [Module N], for the number N from 1 to 10 that the stripped entry
    holds in one of the two forms. *)
Definition label_of_entry (entry label : string) : Prop :=
  exists n, (1 <= n <= 10)%Z
            /\ accepted_form (strip entry) n
            /\ label = "Module " ++ str_of_int n.

(** ** Replies that the repair can heal *)

(** The list that [question['parts']] holds when the loop over the
    parts starts. *)
Definition parts_or_empty (question : Dict.t json) : list json :=
  match Dict.get "parts" question with
  | Some (JArr parts) => parts
  | _ => []
  end.

Definition if_present (k : string) (ok : json -> bool) (d : Dict.t json) : bool :=
  match Dict.get k d with
  | Some v => ok v
  | None => true
  end.

Definition int_in (lo hi : option Z) (v : json) : bool :=
  match v with
  | JInt z =>
      match lo with Some l => (l <=? z)%Z | None => true end
      && match hi with Some h => (z <=? h)%Z | None => true end
  | _ => false
  end.

Definition null_or_str (v : json) : bool :=
  match v with JNull | JStr _ => true | _ => false end.

Definition str_of_length (n : nat) (v : json) : bool :=
  match v with
  | JStr s => (n <=? String.length s)%nat
  | _ => false
  end.

Definition is_str (v : json) : bool :=
  match v with JStr _ => true | _ => false end.

Definition is_bool (v : json) : bool :=
  match v with JBool _ => true | _ => false end.

Definition str_list (n : nat) (v : json) : bool :=
  match v with
  | JArr l => (n <=? List.length l)%nat && forallb is_str l
  | _ => false
  end.

Definition test_type_value (v : json) : bool :=
  match v with
  | JStr s => match TestTypeEnum.of_value s with Some _ => true | None => false end
  | _ => false
  end.

(** A part that is an object whose fields, where present, hold values
    of their types within their bounds. *)
Definition part_shape (v : json) : bool :=
  match v with
  | JObj p =>
      if_present "label" null_or_str p
      && if_present "marks" (int_in (Some 1%Z) (Some 10%Z)) p
      && if_present "text" (str_of_length 10) p
      && if_present "module" (str_list 0) p
  | _ => false
  end.

(** A question that is an object with at least one part, every part
    being as above, and whose other fields are valid where present. *)
Definition question_shape (v : json) : bool :=
  match v with
  | JObj q =>
      if_present "q_no" (int_in (Some 1%Z) None) q
      && if_present "marks" (int_in (Some 1%Z) (Some 10%Z)) q
      && if_present "instructions" null_or_str q
      && match Dict.get "parts" q with
         | Some (JArr parts) => nonempty parts && forallb part_shape parts
         | _ => false
         end
  | _ => false
  end.

(** [metadata] is no object (it is then replaced by the defaults), or
    its fields are valid where present. *)
Definition metadata_shape (parsed_data : Dict.t json) : bool :=
  match Dict.get "metadata" parsed_data with
  | Some (JObj m) =>
      if_present "title" (str_of_length 1) m
      && if_present "test_type" test_type_value m
      && if_present "modules" (str_list 1) m
      && if_present "total_marks" (int_in (Some 1%Z) None) m
      && if_present "notes" null_or_str m
  | _ => true
  end.

Definition validation_shape (parsed_data : Dict.t json) : bool :=
  match Dict.get "validation" parsed_data with
  | Some (JObj v) =>
      if_present "total_marks_check" (int_in None None) v
      && if_present "unique_questions" is_bool v
  | _ => true
  end.

(** A decoded reply in which nothing but defaulted fields is missing. *)
Definition recoverable (parsed_data : Dict.t json) : bool :=
  metadata_shape parsed_data
  && validation_shape parsed_data
  && match Dict.get "paper" parsed_data with
     | Some (JArr paper) => forallb question_shape paper
     | _ => false
     end.

(** ** The data of the examples *)

Definition syllabus_two_modules : string :=
  text_of_lines ["Module 1: Basics"; "LED interfacing"; "Module 2: Timers"; "Timer modes"].



Definition chapter_then_module : list block :=
  [ ("Chapter 3", ["Interrupts"]);
    ("Module 4", ["Serial port"]);
    ("Module 3", ["Timers"]) ].

(** A runtime for the examples: the strict validators, a decoder that
    knows one reply, and a completion client with one answer.  The
    examples format no [float], [list] or [dict]. *)
Definition example_runtime (reply : string) (decoded : Dict.t json)
  (completion : string + string) : runtime :=
  {| pydantic := Pydantic.strict;
     json_loads := fun s =>
       if String.eqb s reply then inr decoded
       else inl (JSONDecodeError "Expecting value: line 1 column 1 (char 0)");
     format_value := fun v =>
       match v with
       | JNull => "None"
       | JBool true => "True"
       | JBool false => "False"
       | JInt z => str_of_int z
       | JStr s => s
       | _ => EmptyString
       end;
     validation_error_str := fun _ => "validation error for GeneratedQuestionPaper";
     generate_completion := fun _ _ _ _ => completion |}.

Definition example_request : QuestionGenerationRequest.t :=
  QuestionGenerationRequest.mk "Microcontroller syllabus" CAT1 ["Module 2"; "Module 3"].

(** A question of 10 marks with one part tagged [tag]. *)
Definition example_question (q_no : Z) (tag : string) : Question.t :=
  Question.mk q_no 10
    [QuestionPart.mk None 10 "Explain LED interfacing in detail" [tag]] None.

Definition example_paper (questions : list Question.t) : GeneratedQuestionPaper.t :=
  GeneratedQuestionPaper.mk
    (QuestionPaperMetadata.mk "CAT-1 Question Paper" CAT1 ["Module 2"] 50 None)
    questions
    (QuestionPaperValidation.mk 50 true).

Definition five_questions_off_topic : list Question.t :=
  map (fun n => example_question n "Module 7") [1; 2; 3; 4; 5]%Z.

Definition four_questions : list Question.t :=
  map (fun n => example_question n "Module 2") [1; 2; 3; 4]%Z.

(** A reply in which everything that has a default is missing: one
    question whose one part is the empty object. *)
Definition decoded_sparse_question : Dict.t json :=
  [ ("metadata", JObj []);
    ("paper", JArr [JObj [("parts", JArr [JObj []])]]);
    ("validation", JObj []) ].

(** A reply of five questions, each with one part that has its text
    and nothing else. *)
Definition sparse_question_text : string :=
  "{" ++ quoted "parts" ++ ": [{" ++ quoted "text" ++ ": "
      ++ quoted "Explain LED interfacing in detail" ++ "}]}".

Definition reply_five_sparse_questions : string :=
  "Here is the paper: {" ++ quoted "metadata" ++ ": {}, " ++ quoted "paper" ++ ": ["
    ++ join ", " (repeat sparse_question_text 5) ++ "], "
    ++ quoted "validation" ++ ": {}} Good luck!".

Definition decoded_five_sparse_questions : Dict.t json :=
  [ ("metadata", JObj []);
    ("paper",
     JArr (repeat
             (JObj [("parts",
                     JArr [JObj [("text", JStr "Explain LED interfacing in detail")]])])
             5));
    ("validation", JObj []) ].

Definition clean_five_sparse_questions : string :=
  slice reply_five_sparse_questions
    (find "{" reply_five_sparse_questions)
    (rfind "}" reply_five_sparse_questions + 1).

(** A reply with the three keys, an empty [metadata] and [validation],
    and one question that has no field at all. *)
Definition reply_question_without_parts : string :=
  "{" ++ quoted "metadata" ++ ": {}, " ++ quoted "paper" ++ ": [{}], "
      ++ quoted "validation" ++ ": {}}".

Definition decoded_question_without_parts : Dict.t json :=
  [("metadata", JObj []); ("paper", JArr [JObj []]); ("validation", JObj [])].

(** The same with a number in the place of the question. *)
Definition reply_question_not_object : string :=
  "{" ++ quoted "metadata" ++ ": {}, " ++ quoted "paper" ++ ": [5], "
      ++ quoted "validation" ++ ": {}}".

Definition decoded_question_not_object : Dict.t json :=
  [("metadata", JObj []); ("paper", JArr [JInt 5]); ("validation", JObj [])].

End Vocabulary.

(** * The other requests, the router and the clients *)

(** ** [app/models/__init__.py]: the requests of the notes parser and
    of the summarizer *)

Inductive FileFormat := PDF | DOCX | TXT | MD.

(** What the construction of one of these requests reports for a
    field, by the type of the error. *)
Inductive request_error :=
| string_too_short (field : string) (min_length : Z)
| string_too_long (field : string) (max_length : Z)
| greater_than_equal (field : string) (ge : Z)
| less_than_equal (field : string) (le : Z)
| value_error (field : string) (msg : string).

(** [validate_content], the validator of the field [content] of both
    requests. *)
Definition validate_content (v : string) : string + string :=
  if negb (truthy (strip v))
  then inl "Content cannot be empty or only whitespace"
  else inr (strip v).

(** The field [content]: [min_length=1], [max_length], then the
    validator, which runs on a value that has passed these two. *)
Definition check_content (max_length : Z) (v : string)
  : list request_error + string :=
  let n := Z.of_nat (String.length v) in
  if (n <? 1)%Z then inl [string_too_short "content" 1]
  else if (max_length <? n)%Z then inl [string_too_long "content" max_length]
  else match validate_content v with
       | inl e => inl [value_error "content" e]
       | inr c => inr c
       end.

Module NotesParseRequest.

Record t := mk {
  content : string;
  file_format : option FileFormat;
  extract_keywords : bool;
  extract_concepts : bool;
  extract_questions : bool
}.

(** [NotesParseRequest(content=..., ...)] with arguments of the types
    of the fields: only [content] can be refused. *)
Definition new (content : string) (file_format : option FileFormat)
  (extract_keywords extract_concepts extract_questions : bool)
  : list request_error + t :=
  match check_content 50000 content with
  | inl e => inl e
  | inr c => inr (mk c file_format extract_keywords extract_concepts
                     extract_questions)
  end.

End NotesParseRequest.

Module SummarizeRequest.

Record t := mk {
  content : string;
  summary_type : string;
  max_length : Z;
  focus_areas : option (list string);
  include_examples : bool
}.

Definition allowed_types : list string :=
  ["bullet_points"; "comprehensive"; "abstract"; "key_points"].

(** [validate_summary_type] *)
Definition validate_summary_type (v : string) : string + string :=
  if negb (existsb (String.eqb v) allowed_types)
  then inl ("Summary type must be one of: " ++ join ", " allowed_types)
  else inr v.

Definition check_summary_type (v : string) : list request_error :=
  match validate_summary_type v with
  | inl e => [value_error "summary_type" e]
  | inr _ => []
  end.

(** [ge=50], [le=2000] *)
Definition check_max_length (v : Z) : list request_error :=
  if (v <? 50)%Z then [greater_than_equal "max_length" 50]
  else if (2000 <? v)%Z then [less_than_equal "max_length" 2000]
  else [].

(** [SummarizeRequest(content=..., ...)] with arguments of the types of
    the fields; the errors of all fields are reported together, in the
    order of the fields. *)
Definition new (content summary_type : string) (max_length : Z)
  (focus_areas : option (list string)) (include_examples : bool)
  : list request_error + t :=
  let e2 := List.app (check_summary_type summary_type) (check_max_length max_length) in
  match check_content 100000 content with
  | inl e1 => inl (List.app e1 e2)
  | inr c =>
      match e2 with
      | [] => inr (mk c summary_type max_length focus_areas include_examples)
      | _ => inl e2
      end
  end.

End SummarizeRequest.

(** ** [app/agents/question_generator.py]: the extraction by paragraphs

    The methods [_extract_by_paragraph_analysis] and
    [_create_minimal_module_content] of [QuestionPaperGenerator], which
    no other method calls. *)

Module PyText.

(** [s.startswith(pre)] *)
Fixpoint startswith (pre s : string) : bool :=
  match pre with
  | EmptyString => true
  | String c pre' =>
      match s with
      | String d s' => Ascii.eqb c d && startswith pre' s'
      | EmptyString => false
      end
  end.

(** [needle in s] *)
Fixpoint contains (needle s : string) : bool :=
  startswith needle s
  || match s with
     | String _ t => contains needle t
     | EmptyString => false
     end.

(** [s.split(sep)] for a separator that is not empty: the text is read
    from left to right and cut at each occurrence of [sep] that starts
    after the previous one has ended.  [skip] counts the characters of
    an occurrence that remain to be passed over. *)
Fixpoint split_skip (sep : string) (skip : nat) (s : string) : list string :=
  match s with
  | EmptyString => [EmptyString]
  | String c t =>
      match skip with
      | S skip' => split_skip sep skip' t
      | O =>
          if startswith sep s
          then EmptyString :: split_skip sep (String.length sep - 1) t
          else match split_skip sep 0 t with
               | l :: ls => String c l :: ls
               | [] => [String c EmptyString]
               end
      end
  end.

Definition split_on (sep s : string) : list string := split_skip sep 0 s.

End PyText.

Module ParagraphAnalysis.

Import QuestionPaperGenerator.

Definition _create_minimal_module_content (selected_modules : list string)
  : string :=
  text_of_lines
    [ "CRITICAL: Generate questions for " ++ join ", " selected_modules ++ " ONLY.";
      EmptyString;
      "SELECTED MODULES: " ++ join ", " selected_modules;
      EmptyString;
      "INSTRUCTIONS FOR AI:";
      "1. Generate questions ONLY for the modules specified above";
      "2. Do NOT include content from other modules  ";
      "3. If you cannot identify specific content for these modules, generate basic conceptual questions appropriate for these module numbers";
      "4. Each question must be tagged with the correct module from the selected list";
      "5. Focus on fundamental concepts typically covered in these specific modules";
      EmptyString;
      "STRICT RULE: Questions must relate only to " ++ join ", " selected_modules ++ ". Ignore all other modules completely." ].

(** [[p.strip() for p in syllabus_text.split('\n\n') if p.strip()]] *)
Definition paragraphs (syllabus_text : string) : list string :=
  filter truthy (map strip (PyText.split_on (NL ++ NL) syllabus_text)).

(** The loop that collects [selected_numbers]: the number of each label
    that has one; a label without number adds nothing. *)
Definition selected_numbers (selected_modules : list string) : list string :=
  flat_map (fun module =>
              match Re.search Re.digits module with
              | Some m => [Re.group 1 m]
              | None => []
              end) selected_modules.

(** The test of one label against one paragraph. *)
Definition mentions (module_num para_lower : string) : bool :=
  PyText.contains ("module " ++ module_num) para_lower
  || PyText.contains ("chapter " ++ module_num) para_lower
  || PyText.contains ("unit " ++ module_num) para_lower.

(** The loop over [enumerate(selected_modules)] from the index [i] on:
    the first label whose number the paragraph mentions.  The number of
    the label of index [i] is [selected_numbers[i]], or the empty text
    when the list is shorter. *)
Fixpoint first_mentioned (selected_numbers : list string) (para_lower : string)
  (i : nat) (modules : list string) : option string :=
  match modules with
  | [] => None
  | module :: rest =>
      let module_num := nth i selected_numbers EmptyString in
      if mentions module_num para_lower then Some module
      else first_mentioned selected_numbers para_lower (S i) rest
  end.

(** One turn of the loop over the paragraphs. *)
Definition add_paragraph (selected_modules selected_numbers : list string)
  (module_paragraphs : Dict.t (list string)) (paragraph : string)
  : Dict.t (list string) :=
  match first_mentioned selected_numbers (lower paragraph) 0 selected_modules with
  | Some module =>
      Dict.set module
        (List.app (Dict.get_or module [] module_paragraphs) [paragraph])
        module_paragraphs
  | None => module_paragraphs
  end.

Definition collect (selected_modules : list string) (paragraphs : list string)
  : Dict.t (list string) :=
  fold_left (add_paragraph selected_modules (selected_numbers selected_modules))
    paragraphs [].

(** The loop that builds [result].  [upper] is [str.upper], which is
    not a function of the characters below 256 alone. *)
Definition result_lines (upper : string -> string) (selected_modules : list string)
  (module_paragraphs : Dict.t (list string)) : list string :=
  flat_map (fun module =>
              match Dict.get module module_paragraphs with
              | Some found =>
                  (NL ++ "=== " ++ upper module ++ " CONTENT ===")
                  :: List.app found [EmptyString]
              | None => []
              end) selected_modules.

Definition strict_filter (selected_modules : list string) (content : string)
  : string :=
  text_of_lines
    [ "STRICT MODULE FILTER: Use ONLY the content below for question generation.";
      EmptyString;
      "ALLOWED MODULES: " ++ join ", " selected_modules;
      EmptyString;
      "EXTRACTED CONTENT:";
      content;
      EmptyString;
      "INSTRUCTION: Generate questions ONLY from the above content. Do not reference any other modules or topics." ].

Definition _extract_by_paragraph_analysis (upper : string -> string)
  (syllabus_text : string) (selected_modules : list string) : string :=
  let module_paragraphs := collect selected_modules (paragraphs syllabus_text) in
  if nonempty module_paragraphs then
    let result := result_lines upper selected_modules module_paragraphs in
    if nonempty result
    then strict_filter selected_modules (join NL result)
    else _create_minimal_module_content selected_modules
  else _create_minimal_module_content selected_modules.

End ParagraphAnalysis.

(** ** [app/routers/academic_router.py]

    The test of plausibility of an extracted text, and the endpoint
    that generates question papers. *)

Module PlausibleText.

(** [c.isalpha()] below 256: the ASCII letters, the ordinal indicators
    170 and 186, the micro sign 181, and the letters from 192 on, the
    multiplication sign 215 and the division sign 247 apart. *)
Definition isalpha (c : ascii) : bool :=
  let n := nat_of_ascii c in
  ((65 <=? n) && (n <=? 90) || (97 <=? n) && (n <=? 122)
   || (n =? 170) || (n =? 181) || (n =? 186)
   || (192 <=? n) && negb (n =? 215) && negb (n =? 247))%nat.

(** The class [[a-zA-Z]]. *)
Definition is_ascii_letter (c : ascii) : bool :=
  let n := nat_of_ascii c in
  ((65 <=? n) && (n <=? 90) || (97 <=? n) && (n <=? 122))%nat.

(** [[a-zA-Z]{2,}] *)
Definition word : Re.regex :=
  Re.seq [ Re.Chr is_ascii_letter; Re.Chr is_ascii_letter; Re.Star is_ascii_letter ].

(** [re.findall(r, s)] for a pattern without group that matches no
    empty text: the matches from left to right, each starting where the
    previous one ended or later.  [fuel] bounds the number of steps by
    the length of the text. *)
Fixpoint findall_fuel (fuel : nat) (r : Re.regex) (s : string) : list string :=
  match fuel with
  | O => []
  | S fuel' =>
      match s with
      | EmptyString => []
      | String _ t =>
          match Re.match_ r s with
          | Some m => Re.consumed s (snd m) :: findall_fuel fuel' r (snd m)
          | None => findall_fuel fuel' r t
          end
      end
  end.

Definition findall (r : Re.regex) (s : string) : list string :=
  findall_fuel (String.length s) r s.

(** [len(set(c for c in s if c.isalpha()))] *)
Definition unique_alpha (s : string) : nat :=
  List.length (nodup ascii_dec (filter isalpha (list_ascii_of_string s))).

Definition _is_plausible_text (text : string) : bool :=
  if negb (truthy text) then false
  else
    let stripped_text := strip text in
    if (String.length stripped_text <? 15)%nat then false
    else if (unique_alpha (lower stripped_text) <? 5)%nat then false
    else if (List.length (findall word stripped_text) <? 3)%nat then false
    else true.

End PlausibleText.

Module AcademicRouter.

Import QuestionPaperGenerator.

(** [fastapi.HTTPException] *)
Record HTTPException := {
  status_code : Z;
  detail : string
}.

(** An uploaded file, as far as the endpoint reads it: its name (empty
    when the upload has none), and the outcome of writing it to a
    temporary file and extracting its text with
    [_extract_text_from_file]: the text, or the text of the exception
    raised on the way, which is never an [HTTPException]. *)
Record upload := {
  filename : string;
  extracted : string + string
}.

(** What the endpoint uses and does not define: the runtime of the
    question generator with the two readings of its clock, the text
    [str(e)] of the [ValidationError] of a request, and the text of the
    [ValueError] that [TestType(value)] raises. *)
Record environment := {
  generator : runtime;
  start_time : float;
  end_time : float;
  str_of_validation_error : list QuestionGenerationRequest.field_error -> string;
  str_of_enum_error : string -> string
}.

(** [filename.lower().split('.')[-1]] *)
Definition file_ext (filename : string) : string :=
  List.last (split "." (lower filename)) EmptyString.

Definition allowed_extensions : list string := ["pdf"; "docx"; "pptx"; "txt"].

(** What leaves the [try] block of an endpoint: an [HTTPException],
    which is raised again as it is, or another exception, which becomes
    the status 500. *)
Inductive raised :=
| Http (e : HTTPException)
| Other (msg : string).

Definition http (status_code : Z) (detail : string) : raised :=
  Http {| status_code := status_code; detail := detail |}.

(** [[m.strip() for m in modules.split(',') if m.strip()]] *)
Definition modules_list (modules : string) : list string :=
  filter truthy (map strip (split "," modules)).

(** The first step of the endpoint: the syllabus from the file or from
    the text. *)
Definition syllabus_content (file : option upload) (syllabus_text : option string)
  : raised + string :=
  match file with
  | Some file =>
      if negb (truthy (filename file)) then inl (http 400 "No file provided.")
      else if negb (existsb (String.eqb (file_ext (filename file))) allowed_extensions)
      then inl (http 400 "Unsupported file type.")
      else match extracted file with
           | inl e => inl (Other e)
           | inr content => inr content
           end
  | None =>
      match syllabus_text with
      | Some text =>
          if truthy text then inr (strip text)
          else inl (http 400 "Either 'file' or 'syllabus_text' must be provided.")
      | None => inl (http 400 "Either 'file' or 'syllabus_text' must be provided.")
      end
  end.

(** The [try] block of the endpoint [/generate-question-paper]. *)
Definition generate_question_paper_body (env : environment)
  (file : option upload) (syllabus_text : option string)
  (test_type modules : string) : raised + QuestionGenerationResponse.t :=
  match syllabus_content file syllabus_text with
  | inl e => inl e
  | inr syllabus_content =>
      if negb (truthy syllabus_content) || (String.length syllabus_content <? 10)%nat
      then inl (http 422 "Invalid syllabus content.")
      else if negb (existsb (String.eqb test_type) ["CAT-1"; "CAT-2"; "FAT"])
      then inl (http 400 "Invalid test type.")
      else
        let modules_list := modules_list modules in
        if negb (nonempty modules_list)
        then inl (http 400 "At least one module must be selected.")
        else
          match TestTypeEnum.of_value test_type with
          | None => inl (Other (str_of_enum_error env test_type))
          | Some member =>
              match QuestionGenerationRequest.new syllabus_content
                      (TestTypeEnum.value member) modules_list with
              | inl errors => inl (Other (str_of_validation_error env errors))
              | inr request =>
                  let result :=
                    generate_question_paper (generator env)
                      (start_time env) (end_time env) request in
                  if negb (QuestionGenerationResponse.success result)
                  then inl (http 500 (QuestionGenerationResponse.message result))
                  else inr result
              end
          end
  end.

(** The endpoint: the response, or the [HTTPException] raised. *)
Definition generate_question_paper_endpoint (env : environment)
  (file : option upload) (syllabus_text : option string)
  (test_type modules : string) : HTTPException + QuestionGenerationResponse.t :=
  match generate_question_paper_body env file syllabus_text test_type modules with
  | inr result => inr result
  | inl (Http e) => inl e
  | inl (Other msg) =>
      inl {| status_code := 500; detail := "Processing failed: " ++ msg |}
  end.

End AcademicRouter.

(** ** [app/utils/openai_client.py] and [app/utils/hybrid_llm_client.py] *)

Module OpenAIClient.

Record chat_message := {
  role : string;
  content : string
}.

(** The arguments of [client.chat.completions.create]. *)
Record chat_request := {
  model : string;
  messages : list chat_message;
  max_tokens : Z;
  temperature : float
}.

(** The chat API of a provider, as far as the client reads its answer:
    the text of the exception raised by the call or by the reading of
    [response.choices[0].message], or else the content of that message,
    a [str] or [None]. *)
Definition chat_api : Type := chat_request -> string + option string.

Record t := {
  default_model : string;
  create : chat_api
}.

(** [x or default] for an optional [str]. *)
Definition or_default (x : option string) (default : string) : string :=
  match x with
  | Some s => if truthy s then s else default
  | None => default
  end.

Definition chat_messages (prompt : string) (system_message : option string)
  : list chat_message :=
  List.app
    (match system_message with
     | Some s => if truthy s then [ {| role := "system"; content := s |} ] else []
     | None => []
     end)
    [ {| role := "user"; content := prompt |} ].

(** [str(e)] of the [AttributeError] of [None.strip()]. *)
Definition none_has_no_strip : string :=
  "'NoneType' object has no attribute 'strip'".

(** [generate_completion]: the completion, or the text of the
    exception raised. *)
Definition generate_completion (self : t) (prompt : string) (model : option string)
  (max_tokens : Z) (temperature : float) (system_message : option string)
  : string + string :=
  let model_to_use := or_default model (default_model self) in
  match create self {| model := model_to_use;
                       messages := chat_messages prompt system_message;
                       max_tokens := max_tokens;
                       temperature := temperature |} with
  | inr (Some content) => inr (strip content)
  | inr None => inl ("OpenAI API error: " ++ none_has_no_strip)
  | inl e => inl ("OpenAI API error: " ++ e)
  end.

End OpenAIClient.

Module HybridClient.

Record t := {
  openrouter_client : OpenAIClient.t;
  ollama_client : OpenAIClient.t
}.

(** [generate_completion]: OpenRouter first, the local Ollama when
    OpenRouter raises; when both raise, the exception of the second is
    raised. *)
Definition generate_completion (self : t) (prompt : string)
  (system_message : option string) (temperature : float) (max_tokens : Z)
  : string + string :=
  match OpenAIClient.generate_completion (openrouter_client self) prompt None
          max_tokens temperature system_message with
  | inr completion => inr completion
  | inl _ =>
      match OpenAIClient.generate_completion (ollama_client self) prompt None
              max_tokens temperature system_message with
      | inr completion => inr completion
      | inl e2 => inl e2
      end
  end.

End HybridClient.

(** * The notions of the further statements *)

(** ** Texts *)

Section FurtherTexts.

(** The character [c] does not occur in [s]. *)
Definition lacks (c : ascii) (s : string) : bool :=
  all_chars (fun d => negb (Ascii.eqb d c)) s.

(** No character of [s] is a digit. *)
Definition no_digit (s : string) : bool :=
  all_chars (fun c => negb (is_digit c)) s.

(** A text that is a number: digits, at least one. *)
Definition is_number (d : string) : Prop :=
  d <> EmptyString /\ all_chars is_digit d = true.

End FurtherTexts.

(** ** Papers within the bounds of the models *)

Section Bounds.

Definition part_in_bounds (p : QuestionPart.t) : Prop :=
  (1 <= QuestionPart.marks p <= 10)%Z
  /\ (10 <= String.length (QuestionPart.text p))%nat.

Definition question_in_bounds (q : Question.t) : Prop :=
  (1 <= Question.q_no q)%Z
  /\ (1 <= Question.marks q <= 10)%Z
  /\ Question.parts q <> []
  /\ Forall part_in_bounds (Question.parts q).

Definition paper_in_bounds (qp : GeneratedQuestionPaper.t) : Prop :=
  QuestionPaperMetadata.title (GeneratedQuestionPaper.metadata qp) <> EmptyString
  /\ QuestionPaperMetadata.modules (GeneratedQuestionPaper.metadata qp) <> []
  /\ (1 <= QuestionPaperMetadata.total_marks (GeneratedQuestionPaper.metadata qp))%Z
  /\ Forall question_in_bounds (GeneratedQuestionPaper.paper qp).

End Bounds.

Section FurtherExamples.

Import QuestionPaperGenerator.

(** The paper built from [decoded_sparse_question] for
    [example_request]: one question, every field a default. *)
Definition one_default_question_paper : GeneratedQuestionPaper.t :=
  GeneratedQuestionPaper.mk
    (QuestionPaperMetadata.mk "CAT-1 Question Paper" CAT1 ["Module 2"; "Module 3"] 50
       (Some "Generated based on provided syllabus"))
    [Question.mk 1 10 [QuestionPart.mk None 10 "Question 1 content" ["Module 2"]] None]
    (QuestionPaperValidation.mk 50 true).

(** A runtime whose completion client answers with the reply of five
    sparse questions. *)
Definition runtime_five_sparse_questions : runtime :=
  example_runtime clean_five_sparse_questions decoded_five_sparse_questions
    (inr reply_five_sparse_questions).

End FurtherExamples.

(** ** Replies *)

Section Replies.

Import QuestionPaperGenerator.

(** A reply whose [paper] is [null]. *)
Definition reply_paper_null : string :=
  "{" ++ quoted "metadata" ++ ": {}, " ++ quoted "paper" ++ ": null, "
      ++ quoted "validation" ++ ": {}}".

Definition decoded_paper_null : Dict.t json :=
  [("metadata", JObj []); ("paper", JNull); ("validation", JObj [])].

End Replies.

(** ** Header lines *)

Section HeaderWords.

(** The words that open a header, in any letter case. *)
Definition header_word (w : string) : Prop :=
  lower w = "module" \/ lower w = "chapter" \/ lower w = "unit".

End HeaderWords.

(** ** The selector on the labels that resolve *)

Section SelectorVocabulary.

Import QuestionPaperGenerator.

(** The three entries that a label adds to [selected_content]. *)
Definition selected_section (all_modules : Dict.t string) (module_name : string)
  : list string :=
  [ NL ++ "=== " ++ module_name ++ " CONTENT ONLY ===";
    match resolve all_modules module_name with
    | Some content => content
    | None => EmptyString
    end;
    EmptyString ].

End SelectorVocabulary.

Section RouterExamples.

Import QuestionPaperGenerator.
Import AcademicRouter.

(** An environment for the examples: the generator whose client
    answers with five sparse questions. *)
Definition example_environment : environment :=
  {| generator := runtime_five_sparse_questions;
     start_time := 1.5%float;
     end_time := 2.75%float;
     str_of_validation_error := fun _ => "1 validation error for QuestionGenerationRequest";
     str_of_enum_error := fun _ => "not a valid TestType" |}.

(** The details of the responses with status 400. *)
Definition statuses_400 : list string :=
  [ "No file provided.";
    "Unsupported file type.";
    "Either 'file' or 'syllabus_text' must be provided.";
    "Invalid test type.";
    "At least one module must be selected." ].

End RouterExamples.

Section ParagraphVocabulary.

Import QuestionPaperGenerator.
Import ParagraphAnalysis.

(** The paragraph is given to the label [k]: the loop over the labels
    stops at [k] for this paragraph.  The label of index [i] is tested
    with the number of index [i] of [selected_numbers], which is its
    own number only when no label up to it lacks one. *)
Definition given_to (selected_modules : list string) (k paragraph : string) : bool :=
  match first_mentioned (selected_numbers selected_modules) (lower paragraph) 0
          selected_modules with
  | Some module => String.eqb module k
  | None => false
  end.

Definition some_if_nonempty {A} (l : list A) : option (list A) :=
  match l with [] => None | _ => Some l end.

(** The label has a number: a digit occurs in it. *)
Definition has_number (label : string) : Prop :=
  _extract_module_number label <> None.

(** The paragraph mentions the number of the label: its lower-case text
    holds the word [module], [chapter] or [unit], a space and the
    number of the label.  A label without number is mentioned by no
    paragraph. *)
Definition mentions_number_of (label paragraph : string) : bool :=
  match _extract_module_number label with
  | Some module_num => mentions module_num (lower paragraph)
  | None => false
  end.

(** The label [k] is the first label of the request whose number the
    paragraph mentions. *)
Definition first_to_be_mentioned (selected_modules : list string)
  (k paragraph : string) : bool :=
  match List.find (fun label => mentions_number_of label paragraph)
          selected_modules with
  | Some label => String.eqb label k
  | None => false
  end.

End ParagraphVocabulary.

(** * Properties *)

(** ** Texts *)

Section StringFacts.

Lemma str_app_nil_r (s : string) : s ++ EmptyString = s.
Proof. induction s; simpl; congruence. Qed.

Lemma str_app_assoc (a b c : string) : (a ++ b) ++ c = a ++ (b ++ c).
Proof. induction a; simpl; congruence. Qed.

Lemma str_length_app (a b : string) :
  String.length (a ++ b) = (String.length a + String.length b)%nat.
Proof. induction a; simpl; congruence. Qed.

End StringFacts.

(** ** The validation of a paper *)

Section PaperValidation.

Import QuestionPaperGenerator.

Lemma check_each_marks_none (cfg : test_config) (paper : list Question.t) :
  check_each_marks cfg paper = None <->
  Forall (fun q => Question.marks q = marks_each cfg) paper.
Proof.
  induction paper as [|q rest IH]; simpl.
  - split; auto.
  - destruct (Z.eqb_spec (Question.marks q) (marks_each cfg)) as [E|E]; simpl.
    + rewrite IH. split; intros H.
      * constructor; assumption.
      * inversion H; assumption.
    + split; intros H; [discriminate|].
      inversion H; contradiction.
Qed.

Lemma not_all_marks (cfg : test_config) (paper : list Question.t) :
  ~ Forall (fun q => Question.marks q = marks_each cfg) paper ->
  exists q, In q paper /\ Question.marks q <> marks_each cfg.
Proof.
  induction paper as [|q rest IH]; intros H.
  - exfalso; apply H; constructor.
  - destruct (Z.eq_dec (Question.marks q) (marks_each cfg)) as [E|E].
    + destruct IH as [q' [Hin Hq']].
      * intros Hall; apply H; constructor; assumption.
      * exists q'; split; [right|]; assumption.
    + exists q; split; [left; reflexivity|assumption].
Qed.

Lemma validate_raises_iff (qp : GeneratedQuestionPaper.t)
  (request : QuestionGenerationRequest.t) :
  (exists msg, _validate_question_paper qp request = inl msg) <->
  deviates (question_limits (QuestionGenerationRequest.test_type request))
           (GeneratedQuestionPaper.paper qp).
Proof.
  unfold _validate_question_paper, deviates.
  set (cfg := question_limits _). set (paper := GeneratedQuestionPaper.paper qp).
  destruct (Z.eqb_spec (Z.of_nat (List.length paper)) (count cfg)) as [Hc|Hc]; simpl.
  2: { split; [intros _; left; assumption | intros _; eexists; reflexivity]. }
  destruct (Z.eqb_spec (sum_marks paper) (total cfg)) as [Ht|Ht]; simpl.
  2: { split; [intros _; right; right; assumption | intros _; eexists; reflexivity]. }
  destruct (check_each_marks cfg paper) as [e|] eqn:He.
  - split; [intros _ | intros _; eexists; reflexivity].
    right; left. apply not_all_marks. intros Hall.
    apply check_each_marks_none in Hall. congruence.
  - apply check_each_marks_none in He.
    split.
    + intros [msg Hmsg]; discriminate.
    + intros [H|[[q [Hin Hq]]|H]]; try contradiction.
      rewrite Forall_forall in He. apply He in Hin. contradiction.
Qed.

Lemma validate_no_coverage (qp : GeneratedQuestionPaper.t)
  (request : QuestionGenerationRequest.t) :
  ~ deviates (question_limits (QuestionGenerationRequest.test_type request))
             (GeneratedQuestionPaper.paper qp) ->
  _validate_question_paper qp request =
    inr (if covers_requested (covered_modules (GeneratedQuestionPaper.paper qp))
                             (QuestionGenerationRequest.modules request)
         then [validation_passed]
         else [coverage_warning; validation_passed]).
Proof.
  intros Hd.
  destruct (_validate_question_paper qp request) as [msg|logs] eqn:E.
  - exfalso. apply Hd. apply validate_raises_iff. eexists; eassumption.
  - revert E. unfold _validate_question_paper.
    destruct (negb _); [discriminate|].
    destruct (negb _); [discriminate|].
    destruct (check_each_marks _ _); [discriminate|].
    destruct (covers_requested _ _); simpl; intros E; injection E as <-; reflexivity.
Qed.

(** Membership in the intersection computed by [covers_requested]. *)
Lemma covers_requested_spec (covered requested : list string) :
  covers_requested covered requested = true <->
  exists m, In m covered /\ In m requested.
Proof.
  unfold covers_requested, contains. rewrite existsb_exists.
  split.
  - intros [m [Hin Hm]]. apply existsb_exists in Hm as [m' [Hin' Hm']].
    apply String.eqb_eq in Hm'. subst m'. exists m; split; assumption.
  - intros [m [Hc Hr]]. exists m; split; [assumption|].
    apply existsb_exists. exists m; split; [assumption|apply String.eqb_refl].
Qed.

(** C1.  The validation raises exactly when the number of questions,
    the marks of some question or the sum of the marks deviates from
    the profile of the request's test type.  When nothing deviates and
    no module tag of any part is one of the requested modules, the
    validation returns after logging one warning, and
    [_parse_and_validate_response] returns the paper it constructed. *)
Theorem C1_validation_hard_and_soft_checks
  (rt : runtime) (raw_response : string)
  (qp : GeneratedQuestionPaper.t) (request : QuestionGenerationRequest.t) :
  let cfg := question_limits (QuestionGenerationRequest.test_type request) in
  let paper := GeneratedQuestionPaper.paper qp in
  ((exists msg, _validate_question_paper qp request = inl msg) <->
     (Z.of_nat (List.length paper) <> count cfg
      \/ (exists q, In q paper /\ Question.marks q <> marks_each cfg)
      \/ sum_marks paper <> total cfg))
  /\ (~ deviates cfg paper ->
      (forall m, In m (covered_modules paper) ->
                 ~ In m (QuestionGenerationRequest.modules request)) ->
      _validate_question_paper qp request
        = inr [coverage_warning; validation_passed]
      /\ (materialize_paper rt raw_response request = inr qp ->
          _parse_and_validate_response rt raw_response request = inr qp)).
Proof.
  intros cfg paper. split.
  - apply validate_raises_iff.
  - intros Hd Hdisj.
    assert (Hv : _validate_question_paper qp request
                 = inr [coverage_warning; validation_passed]).
    { rewrite (validate_no_coverage qp request Hd).
      destruct (covers_requested _ _) eqn:Hc; [|reflexivity].
      apply covers_requested_spec in Hc as [m [Hc Hr]].
      exfalso. exact (Hdisj m Hc Hr). }
    split; [exact Hv|].
    intros Hm. unfold _parse_and_validate_response, parse_and_validate_body.
    rewrite Hm, Hv. reflexivity.
Qed.

End PaperValidation.

(** ** The orchestrator *)

Section Orchestrator.

Import QuestionPaperGenerator.

(** C3.  Whatever the completion client and the repair do, the
    orchestrator returns a response.  When the client raises, or when
    [_parse_and_validate_response] raises on its reply, the response
    has [success = False], a message made of [Generation failed: ] and
    the text of the exception, and no paper.  On both paths the
    response records the difference of the two clock readings. *)
Theorem C3_failures_become_responses (rt : runtime) (start_time end_time : float)
  (request : QuestionGenerationRequest.t) :
  let p := _create_generation_prompt request in
  let reply := generate_completion rt p system_message 0.3%float 4000%Z in
  let r := generate_question_paper rt start_time end_time request in
  QuestionGenerationResponse.processing_time r = (end_time - start_time)%float
  /\ (forall e, reply = inl e ->
        r = failure_response ("Question generation failed: " ++ e)
              start_time end_time)
  /\ (forall raw e, reply = inr raw ->
        _parse_and_validate_response rt (strip raw) request = inl e ->
        r = failure_response e start_time end_time)
  /\ (forall raw qp, reply = inr raw ->
        _parse_and_validate_response rt (strip raw) request = inr qp ->
        r = success_response qp start_time end_time)
  /\ (QuestionGenerationResponse.success r = false ->
        QuestionGenerationResponse.question_paper r = None
        /\ exists e, QuestionGenerationResponse.message r = "Generation failed: " ++ e).
Proof.
  intros p reply r. subst r.
  unfold generate_question_paper, generation_pipeline, _generate_with_ollama.
  fold p. fold reply.
  destruct reply as [e|raw].
  - repeat split; try (intros; discriminate).
    + intros e' He. injection He as <-. reflexivity.
    + eexists; reflexivity.
  - destruct (_parse_and_validate_response rt (strip raw) request) as [e|qp] eqn:E.
    + repeat split; try (intros; discriminate).
      * intros raw' e' Hr. injection Hr as <-. rewrite E.
        intros He. injection He as <-. reflexivity.
      * intros raw' qp Hr. injection Hr as <-. rewrite E. discriminate.
      * eexists; reflexivity.
    + repeat split; try (intros; discriminate).
      * intros raw' e' Hr. injection Hr as <-. rewrite E. discriminate.
      * intros raw' qp' Hr. injection Hr as <-. rewrite E.
        intros He. injection He as <-. reflexivity.
Qed.

End Orchestrator.

(** ** The content selector *)

Section Selector.

Import QuestionPaperGenerator.

Lemma select_fold_found (all_modules : Dict.t string) (selected : list string) :
  forall acc,
    snd (fold_left (select_module all_modules) selected acc)
    = List.app (snd acc) (filter (resolves all_modules) selected).
Proof.
  induction selected as [|name rest IH]; intros acc; simpl.
  - now rewrite app_nil_r.
  - rewrite IH. unfold select_module, resolves.
    destruct (resolve all_modules name); simpl.
    + now rewrite <- app_assoc.
    + reflexivity.
Qed.

Lemma find_none_iff {A} (f : A -> bool) (l : list A) :
  List.find f l = None <-> forall x, In x l -> f x = false.
Proof.
  induction l as [|a l IH]; simpl.
  - split; [intros _ x []|reflexivity].
  - destruct (f a) eqn:E.
    + split; [discriminate|]. intros H. rewrite (H a) in E by (left; reflexivity).
      discriminate.
    + rewrite IH. split.
      * intros H x [->|Hx]; auto.
      * intros H x Hx. apply H. right; assumption.
Qed.

(** A requested name that is no key, and whose number is the number of
    no key, selects nothing. *)
Lemma resolve_none (all_modules : Dict.t string) (name : string) :
  Dict.mem name all_modules = false ->
  (forall num, _extract_module_number name = Some num ->
     forall key, In key (Dict.keys all_modules) ->
                 _extract_module_number key <> Some num) ->
  resolve all_modules name = None.
Proof.
  intros Hmem Hnum. unfold resolve. rewrite Hmem.
  destruct (_extract_module_number name) as [num|] eqn:En; [|reflexivity].
  destruct (truthy num); [|reflexivity].
  assert (Hf : List.find (same_number num) (Dict.keys all_modules) = None).
  { apply find_none_iff. intros key Hkey. unfold same_number.
    destruct (_extract_module_number key) as [n|] eqn:Ek; [|reflexivity].
    apply String.eqb_neq. intros ->. exact (Hnum num eq_refl key Hkey Ek). }
  now rewrite Hf.
Qed.

Lemma error_response_shows_lists (selected available : list string) :
  exists pre mid post,
    _create_error_response selected available
    = pre ++ join ", " selected ++ mid ++ join ", " available ++ post.
Proof.
  unfold _create_error_response, text_of_lines.
  exists (NL ++ "ERROR: Cannot generate questions for the selected modules."
          ++ NL ++ NL ++ "SELECTED MODULES: "),
         (NL ++ "AVAILABLE MODULES IN SYLLABUS: ").
  eexists.
  unfold NL. cbn [join append].
  repeat rewrite str_app_assoc. cbn [append]. reflexivity.
Qed.

(** C6.  The selector is a total function from a module map and a list
    of requested labels to texts.  When no requested label is a key of
    the map, and none has the number of a key, the text returned is the
    error payload, which shows the requested labels and the labels of
    the map, each list joined by a comma and a space.  It is so in
    particular for the map that [_extract_module_content] parses from a
    syllabus. *)
Theorem C6_selector_error_payload (all_modules : Dict.t string)
  (selected_modules : list string) :
  (forall name, In name selected_modules ->
     Dict.mem name all_modules = false
     /\ forall num, _extract_module_number name = Some num ->
          forall key, In key (Dict.keys all_modules) ->
                      _extract_module_number key <> Some num) ->
  select_content all_modules selected_modules
    = _create_error_response selected_modules (Dict.keys all_modules)
  /\ (exists pre mid post,
         select_content all_modules selected_modules
         = pre ++ join ", " selected_modules ++ mid
               ++ join ", " (Dict.keys all_modules) ++ post)
  /\ (forall syllabus_text,
         all_modules = _parse_all_modules_from_syllabus syllabus_text ->
         _extract_module_content syllabus_text selected_modules
         = _create_error_response selected_modules (Dict.keys all_modules)).
Proof.
  intros H.
  assert (E : select_content all_modules selected_modules
              = _create_error_response selected_modules (Dict.keys all_modules)).
  { unfold select_content.
    pose proof (select_fold_found all_modules selected_modules ([], [])) as Hf.
    destruct (fold_left (select_module all_modules) selected_modules ([], []))
      as [sc fm]. simpl in Hf. subst fm.
    assert (Hn : filter (resolves all_modules) selected_modules = []).
    { clear -H. induction selected_modules as [|n rest IH]; [reflexivity|].
      simpl. unfold resolves at 1.
      destruct (H n (or_introl eq_refl)) as [Hm Hk].
      rewrite (resolve_none all_modules n Hm Hk).
      apply IH. intros name Hin. apply H. right; assumption. }
    rewrite Hn. reflexivity. }
  split; [exact E|]. split.
  - rewrite E. apply error_response_shows_lists.
  - intros syllabus_text ->. exact E.
Qed.

Lemma C6_witness :
  _extract_module_content syllabus_two_modules ["Module 9"]
  = _create_error_response ["Module 9"] ["Module 1"; "Module 2"]
  /\ exists pre mid post,
       select_content (_parse_all_modules_from_syllabus syllabus_two_modules)
         ["Module 9"]
       = pre ++ "Module 9" ++ mid ++ "Module 1, Module 2" ++ post.
Proof.
  destruct (C6_selector_error_payload
              (_parse_all_modules_from_syllabus syllabus_two_modules) ["Module 9"])
    as [_ [Hshow Hextract]].
  - intros name [<-|[]]. split; [reflexivity|].
    intros num Hn. vm_compute in Hn. injection Hn as <-.
    intros key [<-|[<-|[]]]; vm_compute; discriminate.
  - split; [exact (Hextract syllabus_two_modules eq_refl)|exact Hshow].
Defined.

End Selector.

(** ** The syllabus parser *)

Section Parser.

Import QuestionPaperGenerator.

Lemma header_not_blank (line : string) (n : string) :
  header_number line = Some n -> truthy (strip line) = true.
Proof.
  unfold header_number. destruct (strip line); [discriminate|reflexivity].
Qed.

Lemma parse_line_blank (st : parse_state) (line : string) :
  truthy (strip line) = false -> parse_line st line = st.
Proof. intros H. unfold parse_line. now rewrite H. Qed.

Lemma parse_line_header (st : parse_state) (line n : string) :
  header_number line = Some n ->
  parse_line st line
  = {| modules := save_current st;
       current_module := Some ("Module " ++ n);
       current_content := [strip line] |}.
Proof.
  intros H. unfold parse_line. rewrite (header_not_blank _ _ H). cbn [negb].
  unfold header_number in H. now rewrite H.
Qed.

Lemma parse_line_content (st : parse_state) (line m : string) :
  not_header line -> truthy (strip line) = true ->
  current_module st = Some m -> truthy m = true ->
  parse_line st line
  = {| modules := modules st;
       current_module := Some m;
       current_content := List.app (current_content st) [strip line] |}.
Proof.
  intros Hn Hb Hm Ht. unfold parse_line. rewrite Hb. cbn [negb].
  unfold not_header, header_number in Hn. rewrite Hn, Hm, Ht. reflexivity.
Qed.

Lemma parse_line_before (st : parse_state) (line : string) :
  not_header line -> current_module st = None -> parse_line st line = st.
Proof.
  intros Hn Hm. unfold parse_line.
  destruct (truthy (strip line)); [cbn [negb]|reflexivity].
  unfold not_header, header_number in Hn. now rewrite Hn, Hm.
Qed.

Lemma fold_before (pre : list string) (st : parse_state) :
  Forall not_header pre -> current_module st = None ->
  fold_left parse_line pre st = st.
Proof.
  induction pre as [|l pre IH]; intros H Hm; [reflexivity|].
  inversion H; subst. simpl. rewrite parse_line_before by assumption.
  now apply IH.
Qed.

Lemma fold_body (body : list string) :
  forall (d : Dict.t string) (m : string) (cc : list string),
    Forall not_header body -> truthy m = true ->
    fold_left parse_line body
      {| modules := d; current_module := Some m; current_content := cc |}
    = {| modules := d; current_module := Some m;
         current_content := List.app cc (kept_lines body) |}.
Proof.
  induction body as [|l body IH]; intros d m cc H Ht.
  - simpl. now rewrite app_nil_r.
  - inversion H; subst. simpl fold_left. unfold kept_lines. simpl.
    destruct (truthy (strip l)) eqn:Hb.
    + rewrite (parse_line_content _ l m) by (assumption || reflexivity).
      simpl. rewrite IH by assumption. unfold kept_lines.
      now rewrite <- app_assoc.
    + rewrite parse_line_blank by assumption. now apply IH.
Qed.

Lemma fold_blocks (blocks : list block) :
  forall st, Forall well_formed blocks ->
    save_current (fold_left parse_line (flat_map block_lines blocks) st)
    = fold_left store blocks (save_current st).
Proof.
  induction blocks as [|[h body] rest IH]; intros st H; [reflexivity|].
  inversion H as [|b bs [Hh Hb] Hrest]; subst. simpl in Hh, Hb.
  change (flat_map block_lines ((h, body) :: rest))
    with (h :: List.app body (flat_map block_lines rest)).
  cbn [fold_left]. rewrite fold_left_app.
  destruct (header_number h) as [n|] eqn:En; [|contradiction].
  rewrite (parse_line_header st h n En).
  rewrite fold_body by (assumption || reflexivity).
  rewrite IH by assumption. f_equal.
  unfold save_current, store, block_label, block_content. simpl.
  now rewrite En.
Qed.

(** The parser stores the blocks of the text one after the other; the
    lines before the first header take no part. *)
Lemma parse_lines_blocks (pre : list string) (blocks : list block) :
  Forall not_header pre -> Forall well_formed blocks ->
  parse_lines (List.app pre (flat_map block_lines blocks))
  = fold_left store blocks [].
Proof.
  intros Hpre Hb. unfold parse_lines.
  rewrite fold_left_app, (fold_before pre parse_init Hpre eq_refl).
  now rewrite fold_blocks.
Qed.

(** During parsing the open module, when there is one, has a name. *)
Lemma open_module_named (lines : list string) (m : string) :
  current_module (fold_left parse_line lines parse_init) = Some m ->
  truthy m = true.
Proof.
  revert m. induction lines as [|l lines IH] using rev_ind; intros m.
  - discriminate.
  - rewrite fold_left_app. simpl.
    set (st := fold_left parse_line lines parse_init) in *.
    unfold parse_line.
    destruct (negb (truthy (strip l))); [apply IH|].
    destruct (first_match module_patterns (lower (strip l))) as [n|].
    + simpl. intros H. injection H as <-. reflexivity.
    + destruct (current_module st) as [m'|] eqn:Em; [|rewrite Em; discriminate].
      destruct (truthy m') eqn:Et; simpl.
      * intros H. injection H as <-. assumption.
      * rewrite Em. intros H. injection H as <-. now apply IH.
Qed.

End Parser.

(** ** Dictionaries *)

Section DictFacts.

Context {V : Type}.

Lemma dict_mem_keys (k : string) (d : Dict.t V) :
  Dict.mem k d = true <-> In k (Dict.keys d).
Proof.
  unfold Dict.mem. induction d as [|[k' v] r IH]; simpl.
  - split; [discriminate|intros []].
  - destruct (String.eqb_spec k' k) as [->|Hne].
    + split; auto.
    + rewrite IH. split; [auto|]. intros [H|H]; [contradiction|assumption].
Qed.

Lemma dict_get_set_same (k : string) (v : V) (d : Dict.t V) :
  Dict.get k (Dict.set k v d) = Some v.
Proof.
  induction d as [|[k' v'] r IH]; simpl.
  - now rewrite String.eqb_refl.
  - destruct (String.eqb_spec k' k) as [->|Hne]; simpl.
    + now rewrite String.eqb_refl.
    + destruct (String.eqb_spec k' k); [contradiction|assumption].
Qed.

Lemma dict_get_set_other (k k' : string) (v : V) (d : Dict.t V) :
  k <> k' -> Dict.get k (Dict.set k' v d) = Dict.get k d.
Proof.
  intros Hne. induction d as [|[k0 v0] r IH]; simpl.
  - destruct (String.eqb_spec k' k); [congruence|reflexivity].
  - destruct (String.eqb_spec k0 k') as [->|Hne0]; simpl.
    + destruct (String.eqb_spec k' k); [congruence|reflexivity].
    + destruct (String.eqb_spec k0 k); [reflexivity|assumption].
Qed.


Lemma dict_keys_set (k : string) (v : V) (d : Dict.t V) :
  Dict.keys (Dict.set k v d)
  = if Dict.mem k d then Dict.keys d else List.app (Dict.keys d) [k].
Proof.
  unfold Dict.mem. induction d as [|[k' v'] r IH]; simpl; [reflexivity|].
  destruct (String.eqb_spec k' k) as [->|Hne]; simpl; [reflexivity|].
  rewrite IH. destruct (Dict.get k r); reflexivity.
Qed.

Lemma dict_keys_set_nodup (k : string) (v : V) (d : Dict.t V) :
  NoDup (Dict.keys d) -> NoDup (Dict.keys (Dict.set k v d)).
Proof.
  intros H. rewrite dict_keys_set.
  destruct (Dict.mem k d) eqn:E; [assumption|].
  apply NoDup_app; [assumption|repeat constructor; intros []|].
  intros x Hx [<-|[]]. apply dict_mem_keys in Hx. congruence.
Qed.

Lemma dict_in_set (k k' : string) (v v' : V) (d : Dict.t V) :
  NoDup (Dict.keys d) ->
  In (k, v) (Dict.set k' v' d) ->
  (k = k' /\ v = v') \/ (k <> k' /\ In (k, v) d).
Proof.
  induction d as [|[k0 v0] r IH]; simpl; intros Hnd Hin.
  - destruct Hin as [Hin|[]]. injection Hin as <- <-. left; split; reflexivity.
  - inversion Hnd as [|x l Hnotin Hnd']; subst.
    destruct (String.eqb_spec k0 k') as [->|Hne].
    + destruct Hin as [Hin|Hin].
      * injection Hin as <- <-. left; split; reflexivity.
      * right. split; [|right; assumption].
        intros ->. apply Hnotin. change k' with (fst (k', v)).
        now apply in_map.
    + destruct Hin as [Hin|Hin].
      * injection Hin as <- <-. right; split; [assumption|left; reflexivity].
      * destruct (IH Hnd' Hin) as [H|[H1 H2]]; [left; assumption|].
        right; split; [assumption|right; assumption].
Qed.

Lemma dict_get_in (k : string) (v : V) (d : Dict.t V) :
  NoDup (Dict.keys d) -> In (k, v) d -> Dict.get k d = Some v.
Proof.
  induction d as [|[k0 v0] r IH]; simpl; intros Hnd Hin; [contradiction|].
  inversion Hnd as [|x l Hnotin Hnd']; subst.
  destruct Hin as [Hin|Hin].
  - injection Hin as -> ->. now rewrite String.eqb_refl.
  - destruct (String.eqb_spec k0 k) as [->|Hne].
    + exfalso. apply Hnotin. change k with (fst (k, v)). now apply in_map.
    + now apply IH.
Qed.

End DictFacts.

(** ** Blocks of a syllabus *)

Section Blocks.

Import QuestionPaperGenerator.

Lemma store_snoc (blocks : list block) (b : block) (d : Dict.t string) :
  fold_left store (List.app blocks [b]) d = store (fold_left store blocks d) b.
Proof. now rewrite fold_left_app. Qed.

Lemma stored_keys_nodup (blocks : list block) :
  NoDup (Dict.keys (fold_left store blocks [])).
Proof.
  induction blocks as [|b blocks IH] using rev_ind.
  - constructor.
  - rewrite store_snoc. now apply dict_keys_set_nodup.
Qed.

Lemma stored_get_last (blocks : list block) (b : block) :
  last_of blocks b ->
  Dict.get (block_label b) (fold_left store blocks []) = Some (block_content b).
Proof.
  intros [before [after [-> Hafter]]].
  induction after as [|a after IH] using rev_ind.
  - rewrite store_snoc. apply dict_get_set_same.
  - rewrite app_comm_cons, app_assoc, store_snoc. unfold store at 1.
    rewrite dict_get_set_other.
    + apply IH. intros b' Hb'. apply Hafter. apply in_or_app. left; assumption.
    + intros E. apply (Hafter a); [apply in_or_app; right; left; reflexivity|].
      now symmetry.
Qed.

Lemma stored_entries_last (blocks : list block) (k v : string) :
  In (k, v) (fold_left store blocks []) ->
  exists b, last_of blocks b /\ block_label b = k /\ block_content b = v.
Proof.
  induction blocks as [|a blocks IH] using rev_ind; [intros []|].
  rewrite store_snoc. unfold store at 1. intros Hin.
  apply dict_in_set in Hin; [|apply stored_keys_nodup].
  destruct Hin as [[-> ->]|[Hne Hin]].
  - exists a. split; [|split; reflexivity].
    exists blocks, []. split; [reflexivity|intros b' []].
  - destruct (IH Hin) as [b [[before [after [-> Hafter]]] [Hk Hv]]].
    exists b. split; [|split; assumption].
    exists before, (List.app after [a]). split.
    + now rewrite <- app_assoc.
    + intros b' Hb'. apply in_app_or in Hb' as [Hb'|[<-|[]]].
      * now apply Hafter.
      * congruence.
Qed.


End Blocks.

(** ** Characters and numerals *)

Section Numerals.

Lemma span_app (p : ascii -> bool) (a r : string) :
  all_chars p a = true -> stops p r -> span p (a ++ r) = (a, r).
Proof.
  induction a as [|c a IH]; simpl; intros Ha Hr.
  - destruct r as [|c r]; [reflexivity|]. simpl in Hr. simpl. now rewrite Hr.
  - apply andb_true_iff in Ha as [Hc Ha]. rewrite Hc, IH by assumption.
    reflexivity.
Qed.

Lemma span_all (p : ascii -> bool) (a : string) :
  all_chars p a = true -> span p a = (a, EmptyString).
Proof.
  intros H. rewrite <- (str_app_nil_r a) at 1. now apply span_app.
Qed.

Lemma span_spec (p : ascii -> bool) (s a r : string) :
  span p s = (a, r) -> s = a ++ r /\ all_chars p a = true /\ stops p r.
Proof.
  revert a r. induction s as [|c s IH]; simpl; intros a r H.
  - injection H as <- <-. repeat split.
  - destruct (p c) eqn:Hc.
    + destruct (span p s) as [a' r'] eqn:E. injection H as <- <-.
      destruct (IH a' r' eq_refl) as [-> [Ha Hr]].
      simpl. rewrite Hc, Ha. repeat split. assumption.
    + injection H as <- <-. repeat split. simpl. assumption.
Qed.

Lemma digit_not_space (c : ascii) : is_digit c = true -> is_space c = false.
Proof.
  destruct c as [[] [] [] [] [] [] [] []]; vm_compute; congruence.
Qed.

Lemma digit_lower (c : ascii) : is_digit c = true -> lower_char c = c.
Proof.
  destruct c as [[] [] [] [] [] [] [] []]; vm_compute; congruence.
Qed.

Lemma digits_lower (s : string) : all_chars is_digit s = true -> lower s = s.
Proof.
  induction s as [|c s IH]; simpl; intros H; [reflexivity|].
  apply andb_true_iff in H as [Hc Hs]. now rewrite digit_lower, IH.
Qed.

Lemma lower_app (a b : string) : lower (a ++ b) = lower a ++ lower b.
Proof. induction a; simpl; congruence. Qed.

Lemma last_char_app (a : string) (c : ascii) (t : string) :
  last_char (a ++ String c t) = last_char (String c t).
Proof.
  induction a as [|x a IH]; [reflexivity|].
  change ((String x a) ++ String c t) with (String x (a ++ String c t)).
  rewrite <- IH. destruct (a ++ String c t) eqn:E; [|reflexivity].
  destruct a; discriminate.
Qed.

Lemma last_char_all (p : ascii -> bool) (s : string) (c : ascii) :
  all_chars p s = true -> last_char s = Some c -> p c = true.
Proof.
  induction s as [|x s IH]; simpl; [discriminate|].
  intros H. apply andb_true_iff in H as [Hx Hs].
  destruct s; [intros E; injection E as <-; assumption|now apply IH].
Qed.

(** A text that does not end with white space is not changed on the
    right. *)
Lemma rstrip_id (s : string) :
  (forall c, last_char s = Some c -> is_space c = false) -> rstrip s = s.
Proof.
  induction s as [|x s IH]; [reflexivity|]. intros H.
  cbn [rstrip]. destruct s as [|y s].
  - simpl. now rewrite (H x eq_refl).
  - rewrite IH by (intros c Hc; apply H; exact Hc). reflexivity.
Qed.

(** What [rstrip] returns does not end with white space. *)
Lemma rstrip_last (s : string) (c : ascii) :
  last_char (rstrip s) = Some c -> is_space c = false.
Proof.
  revert c. induction s as [|x s IH]; intros c; [discriminate|].
  cbn [rstrip]. destruct (rstrip s) as [|y t] eqn:E.
  - destruct (is_space x) eqn:Hx; [discriminate|].
    simpl. intros H; injection H as <-. assumption.
  - intros H. apply IH. exact H.
Qed.

Lemma strip_last (s : string) (c : ascii) :
  last_char (strip s) = Some c -> is_space c = false.
Proof. apply rstrip_last. Qed.

Lemma uint_digits (d : uint) :
  all_chars is_digit (NilEmpty.string_of_uint d) = true.
Proof. induction d; simpl; try rewrite IHd; reflexivity. Qed.

Lemma nat_numeral_digits (n : nat) :
  all_chars is_digit (str_of_int (Z.of_nat n)) = true
  /\ str_of_int (Z.of_nat n) <> EmptyString.
Proof.
  unfold str_of_int. destruct (Z.of_nat n) as [|p|p] eqn:E; simpl.
  - split; [reflexivity|discriminate].
  - pose proof (Unsigned.to_uint_nonnil p) as Hn.
    destruct (Pos.to_uint p) eqn:Ep; try contradiction;
      (split; [apply (uint_digits (_ u))|discriminate]).
  - lia.
Qed.

Lemma str_of_int_inj (a b : Z) : str_of_int a = str_of_int b -> a = b.
Proof.
  unfold str_of_int. intros H. apply DecimalZ.to_int_inj.
  assert (Hnn : forall z, Z.to_int z <> Pos Nil /\ Z.to_int z <> Neg Nil).
  { intros [|p|p]; simpl; split; try discriminate;
      intros E; injection E as E; exact (Unsigned.to_uint_nonnil p E). }
  apply (f_equal NilZero.int_of_string) in H.
  rewrite !NilZero.isi in H by apply Hnn. now injection H.
Qed.

Lemma strip_prefix_spec (pre s r : string) :
  strip_prefix pre s = Some r -> s = pre ++ r.
Proof.
  revert s. induction pre as [|c pre IH]; simpl; intros s H.
  - now injection H.
  - destruct s as [|d s]; [discriminate|].
    destruct (Ascii.eqb_spec c d) as [->|]; [|discriminate].
    now rewrite (IH s H).
Qed.

Lemma strip_prefix_app (pre r : string) : strip_prefix pre (pre ++ r) = Some r.
Proof. induction pre as [|c pre IH]; simpl; [reflexivity|]. now rewrite Ascii.eqb_refl. Qed.

Lemma strip_prefix_ci_spec (pre s r : string) :
  strip_prefix_ci pre s = Some r ->
  exists w, s = w ++ r /\ lower w = pre.
Proof.
  revert s. induction pre as [|c pre IH]; simpl; intros s H.
  - injection H as ->. exists EmptyString. split; reflexivity.
  - destruct s as [|d s]; [discriminate|].
    destruct (Ascii.eqb_spec c (lower_char d)) as [->|]; [|discriminate].
    destruct (IH s H) as [w [-> Hw]]. exists (String d w). simpl.
    split; [reflexivity|now rewrite Hw].
Qed.

Lemma strip_prefix_ci_app (w r : string) :
  strip_prefix_ci (lower w) (w ++ r) = Some r.
Proof. induction w as [|c w IH]; simpl; [reflexivity|]. now rewrite Ascii.eqb_refl. Qed.

Lemma lower_length (s : string) : String.length (lower s) = String.length s.
Proof. induction s; simpl; congruence. Qed.

Lemma truthy_true (s : string) : truthy s = true <-> s <> EmptyString.
Proof. destruct s; simpl; split; congruence. Qed.

End Numerals.

(** ** The patterns and their readings from left to right *)

Section Patterns.

(** A repetition takes the longest run when what follows, if it fails
    after the longest run, fails inside the run as well. *)
Lemma star_span_when {R} (p : ascii -> bool) (k : string -> option R) (s : string) :
  (forall c t, p c = true -> k (snd (span p t)) = None -> k (String c t) = None) ->
  Re.star p s k = k (snd (span p s)).
Proof.
  intros H. induction s as [|c t IH]; [reflexivity|].
  cbn [Re.star]. destruct (p c) eqn:Hc.
  - assert (Hs : snd (span p (String c t)) = snd (span p t)).
    { cbn [span]. rewrite Hc. now destruct (span p t). }
    rewrite Hs, IH.
    destruct (k (snd (span p t))) eqn:Ek; [reflexivity|]. now apply H.
  - cbn [span]. now rewrite Hc.
Qed.

(** It is so when what follows does not fail after the longest run, and
    when it takes no character of the class. *)
Lemma star_span {R} (p : ascii -> bool) (k : string -> option R) (s : string) :
  k (snd (span p s)) <> None \/ (forall c t, p c = true -> k (String c t) = None) ->
  Re.star p s k = k (snd (span p s)).
Proof.
  intros H. induction s as [|c t IH]; [reflexivity|].
  cbn [Re.star]. destruct (p c) eqn:Hc.
  - assert (Hs : snd (span p (String c t)) = snd (span p t)).
    { cbn [span]. rewrite Hc. now destruct (span p t). }
    rewrite Hs in *. rewrite IH by exact H.
    destruct (k (snd (span p t))) eqn:Ek; [reflexivity|].
    destruct H as [H|H]; [contradiction|]. now apply H.
  - cbn [span]. now rewrite Hc.
Qed.

Lemma consumed_app (a r : string) : Re.consumed (a ++ r) r = a.
Proof.
  unfold Re.consumed. rewrite str_length_app.
  replace (String.length a + String.length r - String.length r)%nat
    with (String.length a) by lia.
  induction a as [|c a IH]; simpl.
  - destruct r; reflexivity.
  - now rewrite IH.
Qed.

Lemma consumed_span (p : ascii -> bool) (s : string) :
  Re.consumed s (snd (span p s)) = fst (span p s).
Proof.
  destruct (span p s) as [a b] eqn:E.
  destruct (span_spec _ _ _ _ E) as [-> _]. apply consumed_app.
Qed.

Lemma run_seq_cons {R} (r r' : Re.regex) (l : list Re.regex) (s : string)
  (g : list string) (k : string -> list string -> option R) :
  Re.run (Re.seq (r :: r' :: l)) s g k
  = Re.run r s g (fun s' g' => Re.run (Re.seq (r' :: l)) s' g' k).
Proof. reflexivity. Qed.

Lemma run_seq_one {R} (r : Re.regex) (s : string) (g : list string)
  (k : string -> list string -> option R) :
  Re.run (Re.seq [r]) s g k = Re.run r s g k.
Proof. reflexivity. Qed.

Lemma run_star {R} (p : ascii -> bool) (s : string) (g : list string)
  (k : string -> list string -> option R) :
  k (snd (span p s)) g <> None
  \/ (forall c t, p c = true -> k (String c t) g = None) ->
  Re.run (Re.Star p) s g k = k (snd (span p s)) g.
Proof. intros H. cbn [Re.run]. now rewrite star_span. Qed.

Lemma run_plus {R} (p : ascii -> bool) (s : string) (g : list string)
  (k : string -> list string -> option R) :
  (forall s', k s' g <> None)
  \/ (forall c t, p c = true -> k (String c t) g = None) ->
  Re.run (Re.plus p) s g k
  = if truthy (fst (span p s)) then k (snd (span p s)) g else None.
Proof.
  intros H. unfold Re.plus. cbn [Re.run]. destruct s as [|c t]; [reflexivity|].
  cbn [span]. destruct (p c) eqn:Hc; [|reflexivity].
  rewrite star_span by (destruct H as [H|H]; [left; apply H|right; exact H]).
  now destruct (span p t).
Qed.

Lemma run_opt_chr {R} (p : ascii -> bool) (s : string) (g : list string)
  (k : string -> list string -> option R) :
  Re.run (Re.opt (Re.Chr p)) s g k
  = match s with
    | String c t =>
        if p c then match k t g with Some x => Some x | None => k s g end
        else k s g
    | EmptyString => k s g
    end.
Proof.
  unfold Re.opt. cbn [Re.run]. destruct s as [|c t]; [reflexivity|].
  destruct (p c); reflexivity.
Qed.

Lemma run_grp_plus {R} (p : ascii -> bool) (s : string) (g : list string)
  (k : string -> list string -> option R) :
  (forall s' g', k s' g' <> None)
  \/ (forall c t g', p c = true -> k (String c t) g' = None) ->
  Re.run (Re.Grp (Re.plus p)) s g k
  = if truthy (fst (span p s))
    then k (snd (span p s)) (List.app g [fst (span p s)])
    else None.
Proof.
  intros Hk. cbn [Re.run]. rewrite run_plus.
  - now rewrite consumed_span.
  - destruct Hk as [Hk|Hk]; [left|right]; intros; apply Hk. assumption.
Qed.

Lemma run_lit {R} (w s : string) (g : list string)
  (k : string -> list string -> option R) :
  Re.run (Re.lit w) s g k
  = match strip_prefix w s with Some r => k r g | None => None end.
Proof.
  revert s. induction w as [|c w IH]; intros s; [reflexivity|].
  cbn [Re.lit Re.run strip_prefix]. destruct s as [|d s]; [reflexivity|].
  destruct (Ascii.eqb c d); [apply IH|reflexivity].
Qed.

Lemma run_lit_ci {R} (w s : string) (g : list string)
  (k : string -> list string -> option R) :
  Re.run (Re.lit_ci w) s g k
  = match strip_prefix_ci w s with Some r => k r g | None => None end.
Proof.
  revert s. induction w as [|c w IH]; intros s; [reflexivity|].
  cbn [Re.lit_ci Re.run strip_prefix_ci]. destruct s as [|d s]; [reflexivity|].
  destruct (Ascii.eqb c (lower_char d)); [apply IH|reflexivity].
Qed.

Lemma space_not_digit (c : ascii) : is_space c = true -> is_digit c = false.
Proof. destruct c as [[] [] [] [] [] [] [] []]; vm_compute; congruence. Qed.

Lemma space_not_sep (c : ascii) : is_space c = true -> Re.is_sep c = false.
Proof. destruct c as [[] [] [] [] [] [] [] []]; vm_compute; congruence. Qed.

(** *** The rest of a header pattern *)

(** After the digits a header pattern never fails, and it closes one
    more group. *)
Lemma run_rest_group (s : string) (g : list string) :
  exists x rest,
    Re.run (Re.seq [Re.Grp (Re.Star Re.not_newline)]) s g Re.done
    = Some (List.app g [x], rest).
Proof.
  rewrite run_seq_one. cbn [Re.run]. rewrite star_span by (left; discriminate).
  eexists; eexists; reflexivity.
Qed.

Lemma run_space_rest_group (s : string) (g : list string) :
  exists x rest,
    Re.run (Re.seq [Re.Star is_space; Re.Grp (Re.Star Re.not_newline)]) s g Re.done
    = Some (List.app g [x], rest).
Proof.
  rewrite run_seq_cons.
  destruct (run_rest_group (snd (span is_space s)) g) as [x [rest E]].
  rewrite run_star by (left; rewrite E; discriminate).
  rewrite E. eexists; eexists; reflexivity.
Qed.

Lemma run_sep_rest_group (s : string) (g : list string) :
  exists x rest,
    Re.run (Re.seq [Re.opt (Re.Chr Re.is_sep); Re.Star is_space;
                    Re.Grp (Re.Star Re.not_newline)]) s g Re.done
    = Some (List.app g [x], rest).
Proof.
  rewrite run_seq_cons, run_opt_chr.
  destruct s as [|c t]; [apply run_space_rest_group|].
  destruct (Re.is_sep c); [|apply run_space_rest_group].
  destruct (run_space_rest_group t g) as [x [rest E]]. rewrite E.
  eexists; eexists; reflexivity.
Qed.

Lemma run_after_digits (s : string) (g : list string) :
  exists x rest,
    Re.run (Re.seq [Re.Star is_space; Re.opt (Re.Chr Re.is_sep); Re.Star is_space;
                    Re.Grp (Re.Star Re.not_newline)]) s g Re.done
    = Some (List.app g [x], rest).
Proof.
  rewrite run_seq_cons.
  destruct (run_sep_rest_group (snd (span is_space s)) g) as [x [rest E]].
  rewrite run_star by (left; rewrite E; discriminate).
  rewrite E. eexists; eexists; reflexivity.
Qed.

End Patterns.

Section PatternReadings.

Lemma digit_not_dollar (c : ascii) (t : string) :
  is_digit c = true -> at_dollar (String c t) = false.
Proof.
  intros H. destruct t; [|reflexivity]. simpl.
  destruct c as [[] [] [] [] [] [] [] []]; vm_compute in H |- *; congruence.
Qed.

Lemma space_not_1_9 (c : ascii) : is_space c = true -> Re.is_digit_1_9 c = false.
Proof. destruct c as [[] [] [] [] [] [] [] []]; vm_compute; congruence. Qed.

Lemma space_not_one (c : ascii) : is_space c = true -> Ascii.eqb "1" c = false.
Proof. destruct c as [[] [] [] [] [] [] [] []]; vm_compute; congruence. Qed.

Lemma sep_not_digit (c : ascii) : Re.is_sep c = true -> is_digit c = false.
Proof. destruct c as [[] [] [] [] [] [] [] []]; vm_compute; congruence. Qed.

Lemma sep_not_space (c : ascii) : Re.is_sep c = true -> is_space c = false.
Proof. destruct c as [[] [] [] [] [] [] [] []]; vm_compute; congruence. Qed.

Lemma digit_is_not_sep (c : ascii) : is_digit c = true -> Re.is_sep c = false.
Proof. destruct c as [[] [] [] [] [] [] [] []]; vm_compute; congruence. Qed.

Lemma span_stop (p : ascii -> bool) (s : string) :
  stops p s -> span p s = (EmptyString, s).
Proof. destruct s as [|c t]; simpl; [reflexivity|]. now intros ->. Qed.

Lemma span_head (p : ascii -> bool) (s : string) : stops p (snd (span p s)).
Proof.
  destruct (span p s) as [a b] eqn:E.
  now destruct (span_spec _ _ _ _ E) as [_ [_ H]].
Qed.

(** Group 1 after the digits group and the rest of a header pattern: the
    digits. *)
Lemma group_digits_rest (s : string) :
  option_map (Re.group 1)
    (Re.run (Re.seq [Re.Grp (Re.plus is_digit); Re.Star is_space;
                     Re.opt (Re.Chr Re.is_sep); Re.Star is_space;
                     Re.Grp (Re.Star Re.not_newline)]) s [] Re.done)
  = Compiled.digits_after s.
Proof.
  rewrite run_seq_cons, run_grp_plus.
  2:{ left. intros s' g'. destruct (run_after_digits s' g') as [x [rest E]].
      rewrite E. discriminate. }
  unfold Compiled.digits_after.
  destruct (span is_digit s) as [d r]. cbn [fst snd].
  destruct (truthy d); [|reflexivity].
  destruct (run_after_digits r (List.app [] [d])) as [x [rest E]].
  rewrite E. reflexivity.
Qed.

Lemma digits_rest_stops (c : ascii) (t : string) (g : list string) :
  is_digit c = false ->
  Re.run (Re.seq [Re.Grp (Re.plus is_digit); Re.Star is_space;
                  Re.opt (Re.Chr Re.is_sep); Re.Star is_space;
                  Re.Grp (Re.Star Re.not_newline)]) (String c t) g Re.done = None.
Proof. intros H. rewrite run_seq_cons. cbn [Re.run Re.plus]. now rewrite H. Qed.

Lemma match_word_num_eq (word s : string) :
  option_map (Re.group 1) (Re.match_ (Re.word_num word) s)
  = Compiled.match_word_num word s.
Proof.
  unfold Re.match_, Re.word_num, Compiled.match_word_num.
  rewrite run_seq_cons, run_lit.
  destruct (strip_prefix word s) as [r|]; [|reflexivity].
  rewrite run_seq_cons, run_star.
  - apply group_digits_rest.
  - right. intros c t Hc. apply digits_rest_stops. now apply space_not_digit.
Qed.


(** The second header pattern may give back its first white space, and
    gains nothing by it. *)
Lemma match_module_sep_num_eq (s : string) :
  option_map (Re.group 1) (Re.match_ Re.module_sep_num s)
  = Compiled.match_module_sep_num s.
Proof.
  unfold Re.match_, Re.module_sep_num, Compiled.match_module_sep_num.
  rewrite run_seq_cons, run_lit.
  destruct (strip_prefix "module" s) as [r|]; [|reflexivity].
  rewrite run_seq_cons.
  set (digits_rest := Re.seq [Re.Grp (Re.plus is_digit); Re.Star is_space;
                              Re.Grp (Re.Star Re.not_newline)]).
  set (space_digits := Re.seq [Re.Star is_space; Re.Grp (Re.plus is_digit);
                               Re.Star is_space; Re.Grp (Re.Star Re.not_newline)]).
  set (k := fun s' g' =>
              Re.run (Re.seq [Re.opt (Re.Chr Re.is_sep); Re.Star is_space;
                              Re.Grp (Re.plus is_digit); Re.Star is_space;
                              Re.Grp (Re.Star Re.not_newline)]) s' g' Re.done).
  (* the digits and what follows them *)
  assert (Hd : forall x g,
             Re.run digits_rest x g Re.done
             = if truthy (fst (span is_digit x))
               then Re.run (Re.seq [Re.Star is_space; Re.Grp (Re.Star Re.not_newline)])
                      (snd (span is_digit x)) (List.app g [fst (span is_digit x)])
                      Re.done
               else None).
  { intros x g. subst digits_rest. rewrite run_seq_cons, run_grp_plus; [reflexivity|].
    left. intros s' g'. destruct (run_space_rest_group s' g') as [y [rest E]].
    rewrite E. discriminate. }
  assert (Hd1 : forall x, option_map (Re.group 1) (Re.run digits_rest x [] Re.done)
                          = Compiled.digits_after x).
  { intros x. rewrite Hd. unfold Compiled.digits_after.
    destruct (span is_digit x) as [d r2]. cbn [fst snd].
    destruct (truthy d); [|reflexivity].
    destruct (run_space_rest_group r2 (List.app [] [d])) as [y [rest E]].
    rewrite E. reflexivity. }
  assert (Hdstop : forall c t g, is_digit c = false ->
                                 Re.run digits_rest (String c t) g Re.done = None).
  { intros c t g Hc. rewrite Hd. cbn [span]. now rewrite Hc. }
  (* white space, the digits and what follows *)
  assert (Hs : forall x g, Re.run space_digits x g Re.done
                           = Re.run digits_rest (snd (span is_space x)) g Re.done).
  { intros x g. subst space_digits. rewrite run_seq_cons, run_star; [reflexivity|].
    right. intros c t Hc. apply Hdstop. now apply space_not_digit. }
  (* the optional separator and the rest *)
  assert (Hk : forall x g,
             k x g = match x with
                     | String c t =>
                         if Re.is_sep c
                         then match Re.run space_digits t g Re.done with
                              | Some m => Some m
                              | None => Re.run space_digits x g Re.done
                              end
                         else Re.run space_digits x g Re.done
                     | EmptyString => Re.run space_digits x g Re.done
                     end).
  { intros x g. subst k. cbv beta. rewrite run_seq_cons, run_opt_chr. reflexivity. }
  assert (Hstar : Re.run (Re.Star is_space) r [] k = k (snd (span is_space r)) []).
  { cbn [Re.run]. apply star_span_when. intros c t Hc Hnone.
    rewrite Hk. rewrite (space_not_sep c Hc), Hs.
    assert (E : snd (span is_space (String c t)) = snd (span is_space t)).
    { cbn [span]. rewrite Hc. now destruct (span is_space t). }
    rewrite E. rewrite Hk in Hnone.
    pose proof (span_head is_space t) as Hstop.
    destruct (snd (span is_space t)) as [|d u] eqn:Er1.
    - rewrite Hs in Hnone. exact Hnone.
    - simpl in Hstop. destruct (Re.is_sep d).
      + destruct (Re.run space_digits u [] Re.done); [discriminate|].
        rewrite Hs, (span_stop is_space (String d u)) in Hnone by exact Hstop.
        exact Hnone.
      + rewrite Hs, (span_stop is_space (String d u)) in Hnone by exact Hstop.
        exact Hnone. }
  fold k. rewrite Hstar, Hk.
  pose proof (span_head is_space r) as Hstop.
  destruct (snd (span is_space r)) as [|d u] eqn:Er1.
  - rewrite Hs. apply Hd1.
  - simpl in Hstop. destruct (Re.is_sep d) eqn:Hsep.
    + rewrite !Hs, (span_stop is_space (String d u)) by exact Hstop.
      rewrite (Hdstop d u) by (now apply sep_not_digit).
      destruct (Re.run digits_rest (snd (span is_space u)) [] Re.done) eqn:E.
      * rewrite <- Hd1, E. reflexivity.
      * rewrite <- Hd1, E. reflexivity.
    + rewrite Hs. apply Hd1.
Qed.


Lemma match_num_sep_eq (s : string) :
  option_map (Re.group 1) (Re.match_ Re.num_sep s) = Compiled.match_num_sep s.
Proof.
  unfold Re.match_, Re.num_sep, Compiled.match_num_sep.
  set (sep_rest := Re.seq [Re.Chr Re.is_sep; Re.Star is_space;
                           Re.Grp (Re.Star Re.not_newline)]).
  assert (Hsep : forall x g,
             Re.run sep_rest x g Re.done
             = match x with
               | String c t =>
                   if Re.is_sep c
                   then Re.run (Re.seq [Re.Star is_space;
                                        Re.Grp (Re.Star Re.not_newline)]) t g Re.done
                   else None
               | EmptyString => None
               end).
  { intros x g. subst sep_rest. rewrite run_seq_cons. reflexivity. }
  assert (Hsp : forall x g,
             Re.run (Re.seq [Re.Star is_space; Re.Chr Re.is_sep; Re.Star is_space;
                             Re.Grp (Re.Star Re.not_newline)]) x g Re.done
             = Re.run sep_rest (snd (span is_space x)) g Re.done).
  { intros x g. rewrite run_seq_cons, run_star; [reflexivity|].
    right. intros c t Hc. fold sep_rest. rewrite Hsep.
    now rewrite (space_not_sep c Hc). }
  rewrite run_seq_cons, run_grp_plus.
  2:{ right. intros c t g' Hc. rewrite Hsp.
      rewrite (span_stop is_space (String c t)) by (simpl; now apply digit_not_space).
      cbn [snd]. rewrite Hsep. now rewrite (digit_is_not_sep c Hc). }
  destruct (span is_digit s) as [d r]. cbn [fst snd].
  destruct (truthy d); [|reflexivity].
  rewrite Hsp, Hsep.
  destruct (snd (span is_space r)) as [|c t]; [reflexivity|].
  destruct (Re.is_sep c); [|reflexivity].
  destruct (run_space_rest_group t (List.app [] [d])) as [y [rest E]].
  rewrite E. reflexivity.
Qed.

Lemma match_digits_eq (s : string) :
  Re.match_ Re.digits s
  = if truthy (fst (span is_digit s))
    then Some ([fst (span is_digit s)], snd (span is_digit s))
    else None.
Proof.
  unfold Re.match_, Re.digits. rewrite run_grp_plus; [reflexivity|].
  left. discriminate.
Qed.

Lemma search_digits_eq (s : string) :
  option_map (Re.group 1) (Re.search Re.digits s) = Compiled.search_digits s.
Proof.
  induction s as [|c t IH]; [reflexivity|].
  cbn [Re.search Compiled.search_digits]. rewrite match_digits_eq.
  cbn [span]. destruct (is_digit c) eqn:Hc.
  - destruct (span is_digit t). reflexivity.
  - cbn [fst truthy]. exact IH.
Qed.

Lemma match_digits_only_eq (s : string) :
  Re.matches Re.digits_only s = Compiled.match_digits_only s.
Proof.
  unfold Re.matches, Re.match_, Re.digits_only, Compiled.match_digits_only.
  rewrite run_seq_cons, run_plus.
  2:{ right. intros c t Hc. rewrite run_seq_one. cbn [Re.run].
      now rewrite (digit_not_dollar c t Hc). }
  destruct (span is_digit s) as [d r]. cbn [fst snd].
  destruct (truthy d); [|reflexivity].
  rewrite run_seq_one. cbn [Re.run andb]. destruct (at_dollar r); reflexivity.
Qed.

Lemma match_module_1_10_eq (s : string) :
  Re.matches Re.module_1_10 s = Compiled.match_module_1_10 s.
Proof.
  unfold Re.matches, Re.match_, Re.module_1_10, Compiled.match_module_1_10.
  rewrite run_seq_cons, run_lit.
  destruct (strip_prefix "Module" s) as [r|]; [|reflexivity].
  set (number_end := Re.seq [Re.Grp (Re.Alt (Re.Chr Re.is_digit_1_9) (Re.lit "10"));
                             Re.Eos]).
  assert (Hn : forall x g,
             Re.run number_end x g Re.done
             = match x with
               | String c t =>
                   match (if Re.is_digit_1_9 c
                          then if at_dollar t
                               then Some (List.app g [Re.consumed x t], t)
                               else None
                          else None) with
                   | Some m => Some m
                   | None =>
                       match strip_prefix "10" x with
                       | Some t' =>
                           if at_dollar t'
                           then Some (List.app g [Re.consumed x t'], t')
                           else None
                       | None => None
                       end
                   end
               | EmptyString => None
               end).
  { intros x g. subst number_end. cbn [Re.seq Re.run].
    rewrite run_lit.
    destruct x as [|c t]; [reflexivity|].
    destruct (Re.is_digit_1_9 c); [|reflexivity].
    unfold Re.done. destruct (at_dollar t); reflexivity. }
  rewrite run_seq_cons, run_plus.
  2:{ right. intros c t Hc. fold number_end. rewrite Hn.
      rewrite (space_not_1_9 c Hc). cbn [strip_prefix].
      now rewrite (space_not_one c Hc). }
  fold number_end.
  destruct (span is_space r) as [ws r1]. cbn [fst snd].
  destruct (truthy ws); [|reflexivity]. cbn [andb].
  rewrite Hn. destruct r1 as [|c t]; [reflexivity|].
  unfold Re.is_digit_1_9.
  destruct (is_digit c && negb (Ascii.eqb c "0")).
  - destruct (at_dollar t); [reflexivity|]. cbn [andb orb].
    destruct (strip_prefix "10" (String c t)) as [t'|]; [|reflexivity].
    destruct (at_dollar t'); reflexivity.
  - cbn [andb orb].
    destruct (strip_prefix "10" (String c t)) as [t'|]; [|reflexivity].
    destruct (at_dollar t'); reflexivity.
Qed.

Lemma match_module_ws_num_eq (s : string) :
  Re.match_ Re.module_ws_num s
  = match Compiled.match_module_ws_num s with
    | Some (d, rest) => Some ([d], rest)
    | None => None
    end.
Proof.
  unfold Re.match_, Re.module_ws_num, Compiled.match_module_ws_num.
  rewrite run_seq_cons, run_lit_ci.
  destruct (strip_prefix_ci "module" s) as [r|]; [|reflexivity].
  rewrite run_seq_cons, run_plus.
  2:{ right. intros c t Hc. rewrite run_seq_one. cbn [Re.run Re.plus].
      now rewrite (space_not_digit c Hc). }
  destruct (span is_space r) as [ws r1]. cbn [fst snd].
  destruct (truthy ws).
  - rewrite run_seq_one, run_grp_plus by (left; discriminate).
    destruct (span is_digit r1) as [d r2]. cbn [fst snd andb].
    destruct (truthy d); reflexivity.
  - destruct (span is_digit r1). reflexivity.
Qed.

Lemma sub_module_eq_compiled (s : string) :
  Re.sub Re.module_ws_num (fun m => "Module " ++ Re.group 1 m) s
  = Compiled.sub_module s.
Proof.
  unfold Re.sub, Compiled.sub_module. generalize (String.length s) as fuel.
  intros fuel. revert s. induction fuel as [|fuel IH]; intros s; [reflexivity|].
  cbn [Re.sub_fuel Compiled.sub_module_fuel]. destruct s as [|c t]; [reflexivity|].
  rewrite match_module_ws_num_eq.
  destruct (Compiled.match_module_ws_num (String c t)) as [[d rest]|].
  - cbn [snd]. rewrite IH. reflexivity.
  - now rewrite IH.
Qed.

End PatternReadings.

(** *** The functions of the source on these readings *)

Section SourceReadings.

Lemma first_match_eq (line_lower : string) :
  QuestionPaperGenerator.first_match QuestionPaperGenerator.module_patterns line_lower
  = Compiled.first_header_number line_lower.
Proof.
  unfold QuestionPaperGenerator.module_patterns, Compiled.first_header_number.
  cbn [QuestionPaperGenerator.first_match].
  rewrite <- !match_word_num_eq, <- match_module_sep_num_eq, <- match_num_sep_eq.
  repeat match goal with
         | |- context [Re.match_ ?r line_lower] =>
             destruct (Re.match_ r line_lower); cbn [option_map]; try reflexivity
         end.
Qed.

Lemma extract_module_number_eq (module_name : string) :
  QuestionPaperGenerator._extract_module_number module_name
  = Compiled.search_digits module_name.
Proof.
  unfold QuestionPaperGenerator._extract_module_number.
  rewrite <- search_digits_eq. now destruct (Re.search Re.digits module_name).
Qed.

Lemma normalize_module_eq (module : string) :
  QuestionGenerationRequest.normalize_module module = Compiled.normalize module.
Proof.
  unfold QuestionGenerationRequest.normalize_module, Compiled.normalize.
  now rewrite sub_module_eq_compiled, match_digits_only_eq, !match_module_1_10_eq.
Qed.

End SourceReadings.


(** ** The parser on a syllabus *)

Section ParserTheorems.

Import QuestionPaperGenerator.

(** The line [Module n] is a header with the number [n]. *)
Lemma module_header_number (n : nat) :
  header_number ("Module " ++ str_of_int (Z.of_nat n))
  = Some (str_of_int (Z.of_nat n)).
Proof.
  destruct (nat_numeral_digits n) as [Hd Hne].
  set (d := str_of_int (Z.of_nat n)) in *.
  assert (Hs : strip ("Module " ++ d) = "Module " ++ d).
  { unfold strip. change (lstrip ("Module " ++ d)) with ("Module " ++ d).
    apply rstrip_id. intros c Hc.
    destruct d as [|x d]; [contradiction|].
    rewrite (last_char_app "Module " x d) in Hc.
    apply digit_not_space. exact (last_char_all is_digit _ c Hd Hc). }
  unfold header_number.
  rewrite Hs, lower_app, (digits_lower d Hd), first_match_eq.
  change (lower "Module ") with ("module" ++ " ").
  rewrite str_app_assoc.
  unfold Compiled.first_header_number, Compiled.match_word_num.
  rewrite strip_prefix_app.
  destruct d as [|x d]; [contradiction|].
  pose proof Hd as Hx. simpl in Hx. apply andb_true_iff in Hx as [Hx _].
  rewrite (span_app is_space " " (String x d) eq_refl)
    by (simpl; now apply digit_not_space).
  cbn [snd]. unfold Compiled.digits_after.
  now rewrite (span_all is_digit _ Hd).
Qed.






(** C9, as the code has it.  During parsing, a line that matches no
    header pattern and is not blank is appended, stripped of the white
    space around it, to the content of the open module, and a blank
    line changes nothing; while no header has been found such a line
    changes nothing either, so the lines before the first header are
    in no content; and a text without header gives the empty map. *)
Theorem C9_lines_without_header :
  (forall (lines_before : list string) (line m : string),
      let st := fold_left parse_line lines_before parse_init in
      not_header line -> current_module st = Some m ->
      parse_line st line
      = if truthy (strip line)
        then {| modules := modules st;
                current_module := Some m;
                current_content := List.app (current_content st) [strip line] |}
        else st)
  /\ (forall (syllabus_text : string) (pre rest : list string),
         split nl syllabus_text = List.app pre rest ->
         Forall not_header pre ->
         fold_left parse_line pre parse_init = parse_init
         /\ _parse_all_modules_from_syllabus syllabus_text = parse_lines rest)
  /\ (forall syllabus_text : string,
         Forall not_header (split nl syllabus_text) ->
         _parse_all_modules_from_syllabus syllabus_text = []).
Proof.
  split; [|split].
  - intros lines_before line m st Hn Hm.
    pose proof (open_module_named lines_before m Hm) as Ht.
    destruct (truthy (strip line)) eqn:Hb.
    + now apply parse_line_content.
    + now apply parse_line_blank.
  - intros syllabus_text pre rest Hsplit Hpre.
    pose proof (fold_before pre parse_init Hpre eq_refl) as Hf.
    split; [exact Hf|].
    unfold _parse_all_modules_from_syllabus, parse_lines.
    now rewrite Hsplit, fold_left_app, Hf.
  - intros syllabus_text H.
    unfold _parse_all_modules_from_syllabus, parse_lines.
    now rewrite (fold_before _ parse_init H eq_refl).
Qed.

(** The claim read to the letter fails: the line is appended without
    the white space around it, and a blank line, which matches no
    header pattern either, is not appended at all. *)
Lemma C9_counterexample :
  let st := fold_left parse_line ["Module 1"] parse_init in
  current_module st = Some "Module 1"
  /\ header_number "  LED interfacing  " = None
  /\ current_content (parse_line st "  LED interfacing  ")
     = ["Module 1"; "LED interfacing"]
  /\ current_content (parse_line st "  LED interfacing  ")
     <> List.app (current_content st) ["  LED interfacing  "]
  /\ header_number "   " = None
  /\ current_content (parse_line st "   ") = ["Module 1"]
  /\ _parse_all_modules_from_syllabus
       (text_of_lines ["Module 1"; "  LED interfacing  "; "   "])
     = [("Module 1", text_of_lines ["Module 1"; "LED interfacing"])].
Proof.
  vm_compute. repeat split; try reflexivity. discriminate.
Qed.

Lemma C9_witness :
  parse_line (fold_left parse_line ["Intro"; "Module 1"] parse_init) " GPIO pins "
  = {| modules := [];
       current_module := Some "Module 1";
       current_content := ["Module 1"; "GPIO pins"] |}.
Proof.
  exact (proj1 C9_lines_without_header ["Intro"; "Module 1"] " GPIO pins "
           "Module 1" eq_refl eq_refl).
Defined.

(** C10.  Let the lines of a syllabus be some lines without header
    followed by blocks.  The module map has one entry per label, and
    the content of a label is the content of the last block with that
    label: the block of an earlier header with the same number is
    replaced, and every content in the map is that of a block that is
    the last of its label. *)
Theorem C10_last_header_wins (syllabus_text : string) (pre : list string)
  (blocks : list block) :
  split nl syllabus_text = List.app pre (flat_map block_lines blocks) ->
  Forall not_header pre ->
  Forall well_formed blocks ->
  let result := _parse_all_modules_from_syllabus syllabus_text in
  (forall b, last_of blocks b ->
             Dict.get (block_label b) result = Some (block_content b))
  /\ (forall k v, In (k, v) result ->
        exists b, last_of blocks b /\ block_label b = k /\ block_content b = v)
  /\ NoDup (Dict.keys result).
Proof.
  intros Hsplit Hpre Hwf result. subst result.
  unfold _parse_all_modules_from_syllabus.
  rewrite Hsplit, parse_lines_blocks by assumption.
  split; [|split].
  - apply stored_get_last.
  - apply stored_entries_last.
  - apply stored_keys_nodup.
Qed.

Lemma C10_witness :
  _parse_all_modules_from_syllabus
    (text_of_lines ["Chapter 3"; "Interrupts"; "Module 4"; "Serial port";
                    "Module 3"; "Timers"])
  = [ ("Module 3", text_of_lines ["Module 3"; "Timers"]);
      ("Module 4", text_of_lines ["Module 4"; "Serial port"]) ]
  /\ Dict.get "Module 3"
       (_parse_all_modules_from_syllabus
          (text_of_lines ["Chapter 3"; "Interrupts"; "Module 4"; "Serial port";
                          "Module 3"; "Timers"]))
     = Some (text_of_lines ["Module 3"; "Timers"]).
Proof.
  split; [reflexivity|].
  refine (proj1 (C10_last_header_wins
                   (text_of_lines ["Chapter 3"; "Interrupts"; "Module 4";
                                   "Serial port"; "Module 3"; "Timers"])
                   [] chapter_then_module eq_refl _ _)
            ("Module 3", ["Timers"]) _).
  - constructor.
  - repeat constructor; discriminate.
  - exists [("Chapter 3", ["Interrupts"]); ("Module 4", ["Serial port"])], [].
    split; [reflexivity|intros b' []].
Defined.

End ParserTheorems.

(** ** The defaults of the repair *)

Lemma get_setdefault_same {V} (k : string) (v : V) (d : Dict.t V) :
  Dict.get k (Dict.setdefault k v d) = Some (Dict.get_or k v d).
Proof.
  unfold Dict.setdefault, Dict.mem, Dict.get_or.
  destruct (Dict.get k d) eqn:E; [assumption|apply dict_get_set_same].
Qed.

Lemma get_setdefault_other {V} (k k' : string) (v : V) (d : Dict.t V) :
  k <> k' -> Dict.get k (Dict.setdefault k' v d) = Dict.get k d.
Proof.
  intros H. unfold Dict.setdefault.
  destruct (Dict.mem k' d); [reflexivity|now apply dict_get_set_other].
Qed.

Lemma get_or_present {V} (k : string) (v x : V) (d : Dict.t V) :
  Dict.get k d = Some x -> Dict.get_or k v d = x.
Proof. unfold Dict.get_or. now intros ->. Qed.

Lemma get_or_setdefault_other {V} (k k' : string) (v v' : V) (d : Dict.t V) :
  k <> k' -> Dict.get_or k v (Dict.setdefault k' v' d) = Dict.get_or k v d.
Proof. intros H. unfold Dict.get_or. now rewrite get_setdefault_other. Qed.

Ltac dict_get :=
  repeat first
    [ rewrite get_setdefault_same
    | rewrite get_setdefault_other by discriminate
    | rewrite get_or_setdefault_other by discriminate
    | rewrite dict_get_set_same
    | rewrite dict_get_set_other by discriminate ].

Section Defaults.

Import QuestionPaperGenerator.

Lemma default_question_fields_parts (cfg : test_config) (i : nat) (q : Dict.t json) :
  Dict.get "parts" (default_question_fields cfg i q) = Some (JArr (parts_or_empty q)).
Proof.
  unfold default_question_fields, parts_or_empty. dict_get.
  destruct (Dict.get "parts" q) as [[]|] eqn:E; dict_get; try reflexivity.
  assumption.
Qed.

Lemma default_question_fields_get (cfg : test_config) (i : nat) (q : Dict.t json)
  (k : string) :
  k <> "parts" ->
  Dict.get k (default_question_fields cfg i q)
  = Dict.get k (Dict.setdefault "instructions" JNull
                  (Dict.setdefault "marks" (JInt (marks_each cfg))
                     (Dict.setdefault "q_no" (JInt (Z.of_nat i + 1)) q))).
Proof.
  intros Hk. unfold default_question_fields.
  destruct (Dict.get "parts" _) as [[]|]; try reflexivity;
    now rewrite dict_get_set_other.
Qed.

Lemma default_question_eq (rt : runtime) (request : QuestionGenerationRequest.t)
  (cfg : test_config) (i : nat) (q : Dict.t json) :
  default_question rt request cfg i (JObj q)
  = JObj (Dict.set "parts"
            (JArr (map (default_part rt request cfg (default_question_fields cfg i q) i)
                       (parts_or_empty q)))
            (default_question_fields cfg i q)).
Proof.
  unfold default_question.
  now rewrite default_question_fields_parts.
Qed.

Lemma default_questions_nth (rt : runtime) (request : QuestionGenerationRequest.t)
  (cfg : test_config) (paper : list json) :
  forall start i,
    nth_error (default_questions rt request cfg start paper) i
    = option_map (default_question rt request cfg (start + i)) (nth_error paper i).
Proof.
  induction paper as [|q paper IH]; intros start [|i]; simpl; try reflexivity.
  - now rewrite Nat.add_0_r.
  - rewrite IH. now rewrite Nat.add_succ_r.
Qed.

Lemma default_questions_length (rt : runtime) (request : QuestionGenerationRequest.t)
  (cfg : test_config) (paper : list json) :
  forall start,
    List.length (default_questions rt request cfg start paper) = List.length paper.
Proof. induction paper; intros; simpl; congruence. Qed.

Lemma fallback_paper (rt : runtime) (request : QuestionGenerationRequest.t)
  (parsed_data : Dict.t json) (paper : list json) :
  Dict.get "paper" parsed_data = Some (JArr paper) ->
  Dict.get "paper" (create_fallback_data rt request parsed_data)
  = Some (JArr (default_questions rt request
                  (question_limits (QuestionGenerationRequest.test_type request))
                  0 paper)).
Proof.
  intros H. unfold create_fallback_data. rewrite H. now dict_get.
Qed.

(** C7.  When [paper] is a list, the repair leaves in its place a list
    of the same length in which every entry that is an object has:
    [q_no], kept when present and else the 1-based position; [marks],
    kept when present and else the marks per question of the profile;
    [parts], the list that was there, or the empty list when it was
    missing or no list; and in which every part that is an object has
    [label], [marks], [text] and [module], each kept when present and
    else [None], the marks of the question, the text naming the number
    of the question, and the list made of the first requested module. *)
Theorem C7_defaults_filled (rt : runtime) (request : QuestionGenerationRequest.t)
  (parsed_data : Dict.t json) (paper : list json) :
  Dict.get "paper" parsed_data = Some (JArr paper) ->
  let cfg := question_limits (QuestionGenerationRequest.test_type request) in
  exists paper',
    Dict.get "paper" (create_fallback_data rt request parsed_data)
      = Some (JArr paper')
    /\ List.length paper' = List.length paper
    /\ forall i q, nth_error paper i = Some (JObj q) ->
         let q_no := Dict.get_or "q_no" (JInt (Z.of_nat i + 1)) q in
         let marks := Dict.get_or "marks" (JInt (marks_each cfg)) q in
         exists q' parts',
           nth_error paper' i = Some (JObj q')
           /\ Dict.get "q_no" q' = Some q_no
           /\ Dict.get "marks" q' = Some marks
           /\ Dict.get "parts" q' = Some (JArr parts')
           /\ List.length parts' = List.length (parts_or_empty q)
           /\ forall j p, nth_error (parts_or_empty q) j = Some (JObj p) ->
                exists p',
                  nth_error parts' j = Some (JObj p')
                  /\ Dict.get "label" p' = Some (Dict.get_or "label" JNull p)
                  /\ Dict.get "marks" p' = Some (Dict.get_or "marks" marks p)
                  /\ Dict.get "text" p'
                     = Some (Dict.get_or "text"
                               (JStr ("Question " ++ format_value rt q_no
                                      ++ " content")) p)
                  /\ Dict.get "module" p'
                     = Some (Dict.get_or "module"
                               (JArr (map JStr
                                        (firstn 1 (QuestionGenerationRequest.modules
                                                     request)))) p)
                  /\ (formats_int rt -> Dict.get "q_no" q = None ->
                      Dict.get "text" p = None ->
                      Dict.get "text" p'
                      = Some (JStr ("Question " ++ str_of_int (Z.of_nat i + 1)
                                    ++ " content"))).
Proof.
  intros Hpaper cfg.
  eexists. split; [apply fallback_paper; exact Hpaper|].
  split; [apply default_questions_length|].
  intros i q Hq q_no marks.
  exists (Dict.set "parts"
            (JArr (map (default_part rt request cfg (default_question_fields cfg i q) i)
                       (parts_or_empty q)))
            (default_question_fields cfg i q)).
  eexists.
  assert (Hqno : Dict.get "q_no" (default_question_fields cfg i q) = Some q_no).
  { rewrite default_question_fields_get by discriminate. now dict_get. }
  assert (Hmarks : Dict.get "marks" (default_question_fields cfg i q) = Some marks).
  { rewrite default_question_fields_get by discriminate. now dict_get. }
  split.
  { rewrite default_questions_nth, Hq. cbn [option_map Nat.add].
    now rewrite default_question_eq. }
  split; [now dict_get|].
  split; [now dict_get|].
  split; [now dict_get|].
  split; [apply length_map|].
  intros j p Hp.
  eexists. split.
  { rewrite nth_error_map, Hp. simpl. reflexivity. }
  rewrite (get_or_present "marks" _ marks _ Hmarks).
  rewrite (get_or_present "q_no" _ q_no _ Hqno).
  split; [now dict_get|].
  split; [now dict_get|].
  split; [now dict_get|].
  split; [now dict_get|].
  intros Hfmt Hnone Htext. dict_get.
  unfold Dict.get_or at 1. rewrite Htext.
  subst q_no. unfold Dict.get_or. rewrite Hnone. now rewrite Hfmt.
Qed.

End Defaults.

(** ** Repair followed by the construction of the paper *)

Section Recoverable.

Import QuestionPaperGenerator.

(** *** Decoded values that a field accepts when present *)

Lemma ok_get_or (k : string) (ok : json -> bool) (dflt : json) (d : Dict.t json) :
  if_present k ok d = true -> ok dflt = true -> ok (Dict.get_or k dflt d) = true.
Proof.
  unfold if_present, Dict.get_or. destruct (Dict.get k d); auto.
Qed.

Variable py : Pydantic.scalars.
Hypothesis py_exact : Pydantic.accepts_exact py.

Lemma int_in_accepted (lo hi : option Z) (k : string) (d : Dict.t json) (v : json) :
  Dict.get k d = Some v -> int_in lo hi v = true ->
  exists z, Pydantic.required (Pydantic.int_range py lo hi) k d = Some z.
Proof.
  intros Hg Hok. unfold Pydantic.required. rewrite Hg.
  destruct v; try discriminate. simpl in Hok.
  unfold Pydantic.int_range. rewrite (Pydantic.as_int_exact py py_exact), Hok.
  eexists; reflexivity.
Qed.

Lemma str_of_length_accepted (n : nat) (k : string) (d : Dict.t json) (v : json) :
  Dict.get k d = Some v -> str_of_length n v = true ->
  exists s, Pydantic.required (Pydantic.str_min_length py n) k d = Some s.
Proof.
  intros Hg Hok. unfold Pydantic.required. rewrite Hg.
  destruct v; try discriminate. simpl in Hok.
  unfold Pydantic.str_min_length. rewrite (Pydantic.as_str_exact py py_exact), Hok.
  eexists; reflexivity.
Qed.

Lemma null_or_str_accepted (k : string) (d : Dict.t json) (v : json) :
  Dict.get k d = Some v -> null_or_str v = true ->
  exists o, Pydantic.optional (Pydantic.as_str py) k d = Some o.
Proof.
  intros Hg Hok. unfold Pydantic.optional. rewrite Hg.
  destruct v; try discriminate.
  - eexists; reflexivity.
  - rewrite (Pydantic.as_str_exact py py_exact). eexists; reflexivity.
Qed.

Lemma is_bool_accepted (k : string) (d : Dict.t json) (v : json) :
  Dict.get k d = Some v -> is_bool v = true ->
  exists b, Pydantic.required (Pydantic.as_bool py) k d = Some b.
Proof.
  intros Hg Hok. unfold Pydantic.required. rewrite Hg.
  destruct v; try discriminate.
  rewrite (Pydantic.as_bool_exact py py_exact). eexists; reflexivity.
Qed.

Lemma test_type_accepted (k : string) (d : Dict.t json) (v : json) :
  Dict.get k d = Some v -> test_type_value v = true ->
  exists t, Pydantic.required QuestionPaperMetadata.validate_test_type k d = Some t.
Proof.
  intros Hg Hok. unfold Pydantic.required. rewrite Hg.
  destruct v; try discriminate. simpl in *.
  destruct (TestTypeEnum.of_value s); [eexists; reflexivity|discriminate].
Qed.

Lemma all_items_accepted {A} (f : json -> option A) (l : list json) :
  Forall (fun v => exists a, f v = Some a) l ->
  exists r, Pydantic.all_items f l = Some r.
Proof.
  induction 1 as [|v l [a Ha] _ [r Hr]]; simpl.
  - eexists; reflexivity.
  - rewrite Ha, Hr. eexists; reflexivity.
Qed.

Lemma str_list_accepted (n : nat) (k : string) (d : Dict.t json) (v : json) :
  Dict.get k d = Some v -> str_list n v = true ->
  exists l, Pydantic.required (Pydantic.list_min_items (Pydantic.as_str py) n) k d
            = Some l.
Proof.
  intros Hg Hok. unfold Pydantic.required. rewrite Hg.
  destruct v; try discriminate. simpl in Hok.
  apply andb_true_iff in Hok as [Hn Hall].
  unfold Pydantic.list_min_items. rewrite Hn.
  apply all_items_accepted. rewrite forallb_forall in Hall.
  apply Forall_forall. intros x Hx. specialize (Hall x Hx).
  destruct x; try discriminate.
  rewrite (Pydantic.as_str_exact py py_exact). eexists; reflexivity.
Qed.

Lemma str_list_of_strings (l : list string) :
  forallb is_str (map JStr l) = true.
Proof. induction l; simpl; auto. Qed.

End Recoverable.

Section RecoverableConstruction.

Import QuestionPaperGenerator.

Variable rt : runtime.
Hypothesis py_exact : Pydantic.accepts_exact (pydantic rt).
Variable request : QuestionGenerationRequest.t.
Hypothesis some_module : QuestionGenerationRequest.modules request <> [].

Let py := pydantic rt.
Let cfg := question_limits (QuestionGenerationRequest.test_type request).

Lemma marks_each_in_range :
  int_in (Some 1%Z) (Some 10%Z) (JInt (marks_each cfg)) = true.
Proof. subst cfg. destruct (QuestionGenerationRequest.test_type request); reflexivity. Qed.

Lemma total_in_range : int_in (Some 1%Z) None (JInt (total cfg)) = true.
Proof. subst cfg. destruct (QuestionGenerationRequest.test_type request); reflexivity. Qed.

Lemma placeholder_long (x : string) :
  str_of_length 10 (JStr ("Question " ++ x ++ " content")) = true.
Proof.
  unfold str_of_length. apply Nat.leb_le.
  rewrite !str_length_app. simpl. lia.
Qed.

Lemma part_accepted (question : Dict.t json) (i : nat) (v : json) :
  part_shape v = true ->
  int_in (Some 1%Z) (Some 10%Z)
    (Dict.get_or "marks" (JInt (marks_each cfg)) question) = true ->
  exists x, QuestionPart.validate py (default_part rt request cfg question i v)
            = Some x.
Proof.
  intros Hshape Hmarks. destruct v as [| | | | |p|p]; try discriminate.
  simpl in Hshape.
  apply andb_true_iff in Hshape as [Hshape Hmodule].
  apply andb_true_iff in Hshape as [Hshape Htext].
  apply andb_true_iff in Hshape as [Hlabel Hpmarks].
  unfold default_part, QuestionPart.validate.
  match goal with |- context [Pydantic.optional _ "label" ?d] => set (p' := d) end.
  destruct (null_or_str_accepted py py_exact "label" p'
              (Dict.get_or "label" JNull p)) as [l Hl].
  { subst p'. now dict_get. }
  { now apply ok_get_or. }
  destruct (int_in_accepted py py_exact (Some 1%Z) (Some 10%Z) "marks" p'
              (Dict.get_or "marks"
                 (Dict.get_or "marks" (JInt (marks_each cfg)) question) p))
    as [m Hm].
  { subst p'. now dict_get. }
  { now apply ok_get_or. }
  destruct (str_of_length_accepted py py_exact 10 "text" p'
              (Dict.get_or "text"
                 (JStr ("Question "
                        ++ format_value rt
                             (Dict.get_or "q_no" (JInt (Z.of_nat i + 1)) question)
                        ++ " content")) p)) as [t Ht].
  { subst p'. now dict_get. }
  { apply ok_get_or; [assumption|apply placeholder_long]. }
  destruct (str_list_accepted py py_exact 0 "module" p'
              (Dict.get_or "module"
                 (JArr (map JStr
                          (firstn 1 (QuestionGenerationRequest.modules request))))
                 p)) as [ms Hms].
  { subst p'. now dict_get. }
  { apply ok_get_or; [assumption|]. simpl. apply str_list_of_strings. }
  rewrite Hl, Hm, Ht, Hms. eexists; reflexivity.
Qed.

Lemma question_accepted (i : nat) (v : json) :
  question_shape v = true ->
  exists x, Question.validate py (default_question rt request cfg i v) = Some x.
Proof.
  intros Hshape. destruct v as [| | | | |q|q]; try discriminate.
  simpl in Hshape.
  apply andb_true_iff in Hshape as [Hshape Hparts].
  apply andb_true_iff in Hshape as [Hshape Hins].
  apply andb_true_iff in Hshape as [Hqno Hmarks].
  rewrite default_question_eq. unfold Question.validate.
  match goal with |- context [Pydantic.optional _ "instructions" ?d] => set (q' := d) end.
  assert (Hrange : int_in (Some 1%Z) (Some 10%Z)
                     (Dict.get_or "marks" (JInt (marks_each cfg)) q) = true).
  { apply ok_get_or; [assumption|apply marks_each_in_range]. }
  destruct (int_in_accepted py py_exact (Some 1%Z) None "q_no" q'
              (Dict.get_or "q_no" (JInt (Z.of_nat i + 1)) q)) as [n Hn].
  { subst q'. dict_get. rewrite default_question_fields_get by discriminate. now dict_get. }
  { apply ok_get_or; [assumption|]. simpl. rewrite andb_true_r.
    apply Z.leb_le. lia. }
  destruct (int_in_accepted py py_exact (Some 1%Z) (Some 10%Z) "marks" q'
              (Dict.get_or "marks" (JInt (marks_each cfg)) q)) as [m Hm].
  { subst q'. dict_get. rewrite default_question_fields_get by discriminate. now dict_get. }
  { assumption. }
  destruct (null_or_str_accepted py py_exact "instructions" q'
              (Dict.get_or "instructions" JNull q)) as [ins Hi].
  { subst q'. dict_get. rewrite default_question_fields_get by discriminate. now dict_get. }
  { now apply ok_get_or. }
  assert (Hp : exists ps,
             Pydantic.required
               (Pydantic.list_min_items (QuestionPart.validate py) 1) "parts" q'
             = Some ps).
  { subst q'. unfold Pydantic.required. dict_get.
    unfold parts_or_empty.
    destruct (Dict.get "parts" q) as [[| | | | |parts|]|]; try discriminate.
    apply andb_true_iff in Hparts as [Hne Hall].
    unfold Pydantic.list_min_items. rewrite length_map.
    destruct parts as [|p0 parts]; [discriminate|]. cbn [List.length Nat.leb].
    apply all_items_accepted. apply Forall_forall. intros x Hx.
    apply in_map_iff in Hx as [x0 [<- Hx0]].
    rewrite forallb_forall in Hall.
    apply part_accepted; [now apply Hall|].
    rewrite (get_or_present "marks" _
               (Dict.get_or "marks" (JInt (marks_each cfg)) q)); [assumption|].
    rewrite default_question_fields_get by discriminate. now dict_get. }
  destruct Hp as [ps Hps].
  rewrite Hn, Hm, Hps, Hi. eexists; reflexivity.
Qed.

Lemma questions_accepted (paper : list json) :
  forallb question_shape paper = true ->
  forall start,
    exists r, Pydantic.all_items (Question.validate py)
                (default_questions rt request cfg start paper) = Some r.
Proof.
  intros H start. apply all_items_accepted. revert start.
  induction paper as [|q paper IH]; intros start; simpl; constructor.
  - simpl in H. apply andb_true_iff in H as [Hq _]. now apply question_accepted.
  - simpl in H. apply andb_true_iff in H as [_ Hrest]. now apply IH.
Qed.

Lemma metadata_accepted (parsed_data : Dict.t json) :
  metadata_shape parsed_data = true ->
  exists x, QuestionPaperMetadata.validate py
              (JObj (default_metadata request cfg
                       (dict_or_empty "metadata" parsed_data))) = Some x.
Proof.
  intros Hshape.
  set (m := dict_or_empty "metadata" parsed_data).
  assert (Hm : if_present "title" (str_of_length 1) m
               && if_present "test_type" test_type_value m
               && if_present "modules" (str_list 1) m
               && if_present "total_marks" (int_in (Some 1%Z) None) m
               && if_present "notes" null_or_str m = true).
  { subst m. unfold metadata_shape, dict_or_empty in *.
    destruct (Dict.get "metadata" parsed_data) as [[]|]; try reflexivity.
    assumption. }
  clear Hshape.
  apply andb_true_iff in Hm as [Hm Hnotes].
  apply andb_true_iff in Hm as [Hm Htotal].
  apply andb_true_iff in Hm as [Hm Hmods].
  apply andb_true_iff in Hm as [Htitle Htype].
  unfold QuestionPaperMetadata.validate, default_metadata.
  match goal with |- context [Pydantic.optional _ "notes" ?d] => set (m' := d) end.
  set (value := TestTypeEnum.value (QuestionGenerationRequest.test_type request)) in *.
  destruct (str_of_length_accepted py py_exact 1 "title" m'
              (Dict.get_or "title" (JStr (value ++ " Question Paper")) m)) as [ti Hti].
  { subst m'. now dict_get. }
  { apply ok_get_or; [assumption|]. unfold str_of_length. apply Nat.leb_le.
    rewrite str_length_app. simpl. lia. }
  destruct (test_type_accepted "test_type" m'
              (Dict.get_or "test_type" (JStr value) m)) as [ty Hty].
  { subst m'. now dict_get. }
  { apply ok_get_or; [assumption|]. subst value.
    destruct (QuestionGenerationRequest.test_type request); reflexivity. }
  destruct (str_list_accepted py py_exact 1 "modules" m'
              (Dict.get_or "modules"
                 (JArr (map JStr (QuestionGenerationRequest.modules request))) m))
    as [ms Hms].
  { subst m'. now dict_get. }
  { apply ok_get_or; [assumption|]. simpl. rewrite str_list_of_strings, andb_true_r.
    destruct (QuestionGenerationRequest.modules request); [contradiction|reflexivity]. }
  destruct (int_in_accepted py py_exact (Some 1%Z) None "total_marks" m'
              (Dict.get_or "total_marks" (JInt (total cfg)) m)) as [tm Htm].
  { subst m'. now dict_get. }
  { apply ok_get_or; [assumption|apply total_in_range]. }
  destruct (null_or_str_accepted py py_exact "notes" m'
              (Dict.get_or "notes" (JStr "Generated based on provided syllabus") m))
    as [n Hn].
  { subst m'. now dict_get. }
  { now apply ok_get_or. }
  rewrite Hti, Hty, Hms, Htm, Hn. eexists; reflexivity.
Qed.

Lemma validation_accepted (parsed_data : Dict.t json) :
  validation_shape parsed_data = true ->
  exists x, QuestionPaperValidation.validate py
              (JObj (default_validation cfg
                       (dict_or_empty "validation" parsed_data))) = Some x.
Proof.
  intros Hshape.
  set (v := dict_or_empty "validation" parsed_data).
  assert (Hv : if_present "total_marks_check" (int_in None None) v
               && if_present "unique_questions" is_bool v = true).
  { subst v. unfold validation_shape, dict_or_empty in *.
    destruct (Dict.get "validation" parsed_data) as [[]|]; try reflexivity.
    assumption. }
  clear Hshape. apply andb_true_iff in Hv as [Hcheck Huniq].
  unfold QuestionPaperValidation.validate, default_validation.
  match goal with |- context [Pydantic.required _ "unique_questions" ?d] =>
    set (v' := d) end.
  destruct (int_in_accepted py py_exact None None "total_marks_check" v'
              (Dict.get_or "total_marks_check" (JInt (total cfg)) v)) as [c Hc].
  { subst v'. now dict_get. }
  { now apply ok_get_or. }
  destruct (is_bool_accepted py py_exact "unique_questions" v'
              (Dict.get_or "unique_questions" (JBool true) v)) as [u Hu].
  { subst v'. now dict_get. }
  { now apply ok_get_or. }
  rewrite Hc, Hu. eexists; reflexivity.
Qed.

(** After the repair, a recoverable reply is constructed. *)
Lemma recoverable_constructed (parsed_data : Dict.t json) :
  recoverable parsed_data = true ->
  exists paper,
    GeneratedQuestionPaper.validate py
      (create_fallback_data rt request parsed_data) = Some paper.
Proof.
  intros H. unfold recoverable in H.
  apply andb_true_iff in H as [H Hpaper].
  apply andb_true_iff in H as [Hmeta Hval].
  destruct (Dict.get "paper" parsed_data) as [[| | | | |paper|]|] eqn:Ep;
    try discriminate.
  unfold create_fallback_data. rewrite Ep. fold cfg.
  destruct (metadata_accepted parsed_data Hmeta) as [m Hm].
  destruct (validation_accepted parsed_data Hval) as [v Hv].
  destruct (questions_accepted paper Hpaper 0) as [qs Hqs].
  unfold GeneratedQuestionPaper.validate, Pydantic.required. dict_get.
  assert (Hd : dict_or_empty "validation"
                 (Dict.set "metadata"
                    (JObj (default_metadata request cfg
                             (dict_or_empty "metadata" parsed_data))) parsed_data)
               = dict_or_empty "validation" parsed_data).
  { unfold dict_or_empty. now dict_get. }
  rewrite Hd, Hm, Hv.
  unfold Pydantic.list_min_items. cbn [Nat.leb]. rewrite Hqs.
  eexists; reflexivity.
Qed.

End RecoverableConstruction.

Section RepairTheorems.

Import QuestionPaperGenerator.

(** C2, as the code has it.  Let the slice of the reply from its first
    opening brace to its last closing brace decode to an object with
    the keys [metadata], [paper] and [validation].  The defaulting is a
    total function.  If the reply is recoverable ([paper] is a list of
    question objects, each with a list of at least one part object,
    and every field that is present holds a valid value), then the
    typed paper is constructed, whichever of the defaulted fields are
    missing, and [_parse_and_validate_response] raises only if the
    validation of that paper does. *)
Theorem C2_recoverable_reply_is_constructed (rt : runtime)
  (request : QuestionGenerationRequest.t) (raw_response : string)
  (parsed_data : Dict.t json) :
  Pydantic.accepts_exact (pydantic rt) ->
  QuestionGenerationRequest.modules request <> [] ->
  find "{" raw_response <> (-1)%Z ->
  rfind "}" raw_response <> (-1)%Z ->
  json_loads rt (slice raw_response (find "{" raw_response)
                   (rfind "}" raw_response + 1)) = inr parsed_data ->
  Forall (fun field => Dict.mem field parsed_data = true) required_fields ->
  recoverable parsed_data = true ->
  exists paper,
    GeneratedQuestionPaper.validate (pydantic rt)
      (create_fallback_data rt request parsed_data) = Some paper
    /\ materialize_paper rt raw_response request = inr paper
    /\ _parse_and_validate_response rt raw_response request
       = match _validate_question_paper paper request with
         | inl e => inl ("Response validation failed: " ++ e)
         | inr _ => inr paper
         end.
Proof.
  intros Hpy Hmods Hfind Hrfind Hloads Hkeys Hrec.
  destruct (recoverable_constructed rt Hpy request Hmods parsed_data Hrec)
    as [paper Hpaper].
  exists paper. split; [exact Hpaper|].
  assert (Hm : materialize_paper rt raw_response request = inr paper).
  { unfold materialize_paper.
    destruct (Z.eqb_spec (find "{" raw_response) (-1)) as [E|_]; [contradiction|].
    destruct (Z.eqb_spec (rfind "}" raw_response + 1) 0) as [E|_]; [lia|].
    cbn [orb]. rewrite Hloads.
    assert (Hnone : filter (fun field => negb (Dict.mem field parsed_data))
                      required_fields = []).
    { induction Hkeys as [|k l Hk _ IH]; [reflexivity|].
      simpl. now rewrite Hk. }
    rewrite Hnone. cbn [nonempty]. now rewrite Hpaper. }
  split; [exact Hm|].
  unfold _parse_and_validate_response, parse_and_validate_body. rewrite Hm.
  destruct (_validate_question_paper paper request); reflexivity.
Qed.

Lemma question_without_parts_rejected (py : Pydantic.scalars) (q : Dict.t json)
  (rest : list json) :
  Dict.get "parts" q = Some (JArr []) ->
  Pydantic.all_items (Question.validate py) (JObj q :: rest) = None.
Proof.
  intros H. simpl. unfold Pydantic.required at 3. rewrite H. simpl.
  destruct (Pydantic.required _ "q_no" q); [|reflexivity].
  destruct (Pydantic.required _ "marks" q); reflexivity.
Qed.

Lemma paper_rejected (py : Pydantic.scalars) (d : Dict.t json) (paper : list json) :
  Dict.get "paper" d = Some (JArr paper) ->
  Pydantic.all_items (Question.validate py) paper = None ->
  GeneratedQuestionPaper.validate py d = None.
Proof.
  intros Hp Hnone. unfold GeneratedQuestionPaper.validate.
  unfold Pydantic.required at 2. rewrite Hp.
  unfold Pydantic.list_min_items. cbn [Nat.leb]. rewrite Hnone.
  destruct (Pydantic.required _ "metadata" d); reflexivity.
Qed.

(** The claim read to the letter fails on replies of the minimal shape:
    whatever the scalar validators accept, the construction raises for
    a question without [parts] (the default is the empty list, and a
    question needs one part) and for a question that is no object, and
    [_parse_and_validate_response] raises with it. *)
Lemma C2_counterexample :
  (forall rt request,
      GeneratedQuestionPaper.validate (pydantic rt)
        (create_fallback_data rt request decoded_question_without_parts) = None
      /\ (json_loads rt reply_question_without_parts
            = inr decoded_question_without_parts ->
          _parse_and_validate_response rt reply_question_without_parts request
          = inl ("Response validation failed: "
                 ++ validation_error_str rt
                      (create_fallback_data rt request
                         decoded_question_without_parts))))
  /\ (forall rt request,
         GeneratedQuestionPaper.validate (pydantic rt)
           (create_fallback_data rt request decoded_question_not_object) = None
         /\ (json_loads rt reply_question_not_object
               = inr decoded_question_not_object ->
             _parse_and_validate_response rt reply_question_not_object request
             = inl ("Response validation failed: "
                    ++ validation_error_str rt
                         (create_fallback_data rt request
                            decoded_question_not_object)))).
Proof.
  split; intros rt request.
  - assert (H : GeneratedQuestionPaper.validate (pydantic rt)
                  (create_fallback_data rt request decoded_question_without_parts)
                = None).
    { eapply paper_rejected.
      - unfold create_fallback_data, decoded_question_without_parts.
        cbn [Dict.get String.eqb Ascii.eqb Bool.eqb]. now dict_get.
      - cbn [default_questions]. rewrite default_question_eq.
        apply question_without_parts_rejected. now dict_get. }
    split; [exact H|]. intros Hloads.
    unfold _parse_and_validate_response, parse_and_validate_body, materialize_paper.
    change (find "{" reply_question_without_parts) with 0%Z.
    change (rfind "}" reply_question_without_parts + 1)%Z with 49%Z.
    change (slice reply_question_without_parts 0 49)
      with reply_question_without_parts.
    cbn [Z.eqb orb]. rewrite Hloads.
    change (filter _ required_fields) with (@nil string).
    cbn [nonempty]. now rewrite H.
  - assert (H : GeneratedQuestionPaper.validate (pydantic rt)
                  (create_fallback_data rt request decoded_question_not_object)
                = None).
    { eapply paper_rejected.
      - unfold create_fallback_data, decoded_question_not_object.
        cbn [Dict.get String.eqb Ascii.eqb Bool.eqb]. now dict_get.
      - reflexivity. }
    split; [exact H|]. intros Hloads.
    unfold _parse_and_validate_response, parse_and_validate_body, materialize_paper.
    change (find "{" reply_question_not_object) with 0%Z.
    change (rfind "}" reply_question_not_object + 1)%Z with 48%Z.
    change (slice reply_question_not_object 0 48)
      with reply_question_not_object.
    cbn [Z.eqb orb]. rewrite Hloads.
    change (filter _ required_fields) with (@nil string).
    cbn [nonempty]. now rewrite H.
Qed.

End RepairTheorems.

(** ** The patterns of [validate_modules] *)

Section LabelPatterns.

(** What a match of [module\s+(\d+)] consumes. *)
Lemma match_module_ws_num_spec (s d rest : string) :
  Compiled.match_module_ws_num s = Some (d, rest) ->
  exists w ws,
    s = w ++ ws ++ d ++ rest
    /\ lower w = "module"
    /\ ws <> EmptyString /\ all_chars is_space ws = true
    /\ d <> EmptyString /\ all_chars is_digit d = true
    /\ stops is_digit rest.
Proof.
  unfold Compiled.match_module_ws_num. intros H.
  destruct (strip_prefix_ci "module" s) as [r|] eqn:Ep; [|discriminate].
  destruct (span is_space r) as [ws r1] eqn:Ews.
  destruct (span is_digit r1) as [d' r2] eqn:Ed.
  destruct (truthy ws) eqn:Tws; [|discriminate].
  destruct (truthy d') eqn:Td; [|discriminate].
  simpl in H. injection H as -> ->.
  destruct (strip_prefix_ci_spec _ _ _ Ep) as [w [-> Hw]].
  destruct (span_spec _ _ _ _ Ews) as [-> [Hws _]].
  destruct (span_spec _ _ _ _ Ed) as [-> [Hd Hrest]].
  exists w, ws. repeat split; try assumption; now apply truthy_true.
Qed.

Lemma match_module_ws_num_shorter (c : ascii) (t d rest : string) :
  Compiled.match_module_ws_num (String c t) = Some (d, rest) ->
  (String.length rest <= String.length t)%nat.
Proof.
  intros H. destruct (match_module_ws_num_spec _ _ _ H)
    as [w [ws [E [Hw _]]]].
  apply (f_equal String.length) in E. rewrite !str_length_app in E.
  apply (f_equal String.length) in Hw. rewrite lower_length in Hw.
  simpl in E, Hw. lia.
Qed.

Lemma sub_module_fuel_any (n : nat) :
  forall s f1 f2,
    (String.length s <= n)%nat -> (n <= f1)%nat -> (n <= f2)%nat ->
    Compiled.sub_module_fuel f1 s = Compiled.sub_module_fuel f2 s.
Proof.
  induction n as [|n IH]; intros s f1 f2 Hs H1 H2.
  - destruct s; [|simpl in Hs; lia]. destruct f1, f2; reflexivity.
  - destruct f1 as [|f1]; [lia|]. destruct f2 as [|f2]; [lia|].
    destruct s as [|c t]; [reflexivity|].
    cbn [Compiled.sub_module_fuel].
    destruct (Compiled.match_module_ws_num (String c t)) as [[d rest]|] eqn:E.
    + pose proof (match_module_ws_num_shorter _ _ _ _ E) as Hlen.
      simpl in Hs. f_equal. f_equal. apply IH; lia.
    + f_equal. simpl in Hs. apply IH; lia.
Qed.

(** The equation of the substitution. *)
Lemma sub_module_eq (c : ascii) (t : string) :
  Compiled.sub_module (String c t)
  = match Compiled.match_module_ws_num (String c t) with
    | Some (d, rest) => "Module " ++ d ++ Compiled.sub_module rest
    | None => String c (Compiled.sub_module t)
    end.
Proof.
  unfold Compiled.sub_module. cbn [String.length Compiled.sub_module_fuel].
  destruct (Compiled.match_module_ws_num (String c t)) as [[d rest]|] eqn:E.
  - pose proof (match_module_ws_num_shorter _ _ _ _ E) as Hlen.
    f_equal. f_equal. apply (sub_module_fuel_any (String.length rest)); lia.
  - reflexivity.
Qed.

Lemma sub_module_empty : Compiled.sub_module EmptyString = EmptyString.
Proof. reflexivity. Qed.

(** A character of the result other than [M] is copied from the text. *)
Lemma sub_module_copied (s o : string) (x : ascii) :
  Compiled.sub_module s = String x o -> x <> "M"%char ->
  exists t, s = String x t /\ Compiled.sub_module t = o.
Proof.
  intros H Hx. destruct s as [|c t]; [discriminate|].
  rewrite sub_module_eq in H.
  destruct (Compiled.match_module_ws_num (String c t)) as [[d rest]|].
  - simpl in H. injection H as H _. congruence.
  - injection H as -> <-. exists t. split; reflexivity.
Qed.

Lemma sub_module_copied_run (p : ascii -> bool) (a : string) :
  p "M"%char = false -> all_chars p a = true ->
  forall s o, Compiled.sub_module s = a ++ o ->
              exists t, s = a ++ t /\ Compiled.sub_module t = o.
Proof.
  intros HM. induction a as [|x a IH]; intros Ha s o H.
  - exists s. split; [reflexivity|assumption].
  - simpl in Ha. apply andb_true_iff in Ha as [Hx Ha].
    simpl in H. apply sub_module_copied in H as [t [-> H]]; [|congruence].
    destruct (IH Ha t o H) as [t' [-> H']].
    exists t'. split; [reflexivity|assumption].
Qed.

(** The result ends as the text does, unless it ends with a digit. *)
Lemma sub_module_last (n : nat) :
  forall s c, (String.length s <= n)%nat ->
    last_char (Compiled.sub_module s) = Some c -> is_digit c = false ->
    last_char s = Some c.
Proof.
  induction n as [|n IH]; intros s c Hlen Hl Hc.
  - destruct s; [discriminate|simpl in Hlen; lia].
  - destruct s as [|x t]; [discriminate|].
    rewrite sub_module_eq in Hl.
    destruct (Compiled.match_module_ws_num (String x t)) as [[d rest]|] eqn:E.
    + pose proof (match_module_ws_num_shorter _ _ _ _ E) as Hshort.
      destruct (match_module_ws_num_spec _ _ _ E)
        as [w [ws [Es [_ [_ [_ [Hd [Hdig _]]]]]]]].
      destruct (Compiled.sub_module rest) as [|y o] eqn:Er.
      * rewrite str_app_nil_r in Hl.
        destruct d as [|y d]; [contradiction|].
        rewrite (last_char_app "Module " y d) in Hl.
        rewrite (last_char_all is_digit _ c Hdig Hl) in Hc. discriminate.
      * rewrite <- str_app_assoc, last_char_app in Hl.
        rewrite <- Er in Hl. simpl in Hlen.
        assert (Hr : last_char rest = Some c) by (apply IH; [lia|assumption..]).
        rewrite Es. destruct rest as [|z rest]; [discriminate|].
        rewrite <- !str_app_assoc. now rewrite last_char_app.
    + simpl in Hlen. destruct t as [|y t].
      * simpl in Hl. exact Hl.
      * change (last_char (String x (String y t))) with (last_char (String y t)).
        apply IH; [simpl in Hlen |- *; lia| |assumption].
        destruct (Compiled.sub_module (String y t)) eqn:Et.
        -- rewrite sub_module_eq in Et.
           destruct (Compiled.match_module_ws_num (String y t)) as [[]|]; discriminate.
        -- exact Hl.
Qed.

End LabelPatterns.

(** ** The module labels of a request *)

Section RequestModules.

Import QuestionGenerationRequest.

Lemma small_numeral (n : Z) :
  (1 <= n <= 10)%Z ->
  all_chars is_digit (str_of_int n) = true
  /\ exists x r, str_of_int n = String x r /\ is_digit x = true.
Proof.
  intros H.
  assert (E : (n = 1 \/ n = 2 \/ n = 3 \/ n = 4 \/ n = 5 \/ n = 6 \/ n = 7
               \/ n = 8 \/ n = 9 \/ n = 10)%Z) by lia.
  repeat (destruct E as [->|E]); try subst n;
    (split; [reflexivity|eexists; eexists; split; reflexivity]).
Qed.

Lemma digit_numeral (c : ascii) :
  is_digit c = true -> c <> "0"%char ->
  exists n, (1 <= n <= 9)%Z /\ String c EmptyString = str_of_int n.
Proof.
  intros Hd Hz.
  exists (Z.of_nat (nat_of_ascii c) - 48)%Z.
  destruct c as [[] [] [] [] [] [] [] []];
    try (vm_compute in Hd; discriminate);
    try (exfalso; apply Hz; reflexivity);
    (split; [vm_compute; split; discriminate|reflexivity]).
Qed.

Lemma at_dollar_cases (s : string) :
  at_dollar s = true -> s = EmptyString \/ s = String nl EmptyString.
Proof.
  destruct s as [|c [|d s]]; simpl; intros H; try discriminate.
  - now left.
  - right. apply Ascii.eqb_eq in H. now subst.
Qed.

Lemma match_module_1_10_spec (s : string) :
  Compiled.match_module_1_10 s = true ->
  exists ws n tail,
    s = "Module" ++ ws ++ str_of_int n ++ tail
    /\ ws <> EmptyString /\ all_chars is_space ws = true
    /\ (1 <= n <= 10)%Z /\ at_dollar tail = true.
Proof.
  unfold Compiled.match_module_1_10. intros H.
  destruct (strip_prefix "Module" s) as [r|] eqn:Ep; [|discriminate].
  apply strip_prefix_spec in Ep. subst s.
  destruct (span is_space r) as [ws r1] eqn:Ews.
  destruct (span_spec _ _ _ _ Ews) as [-> [Hws _]].
  apply andb_true_iff in H as [Hne H]. apply truthy_true in Hne.
  destruct r1 as [|c t]; [discriminate|].
  apply orb_true_iff in H as [H|H].
  - apply andb_true_iff in H as [H Hend]. apply andb_true_iff in H as [Hd Hz].
    destruct (digit_numeral c Hd) as [n [Hn En]].
    { intros ->. discriminate. }
    exists ws, n, t. rewrite <- En. repeat split; try assumption; lia.
  - destruct (strip_prefix "10" (String c t)) as [t'|] eqn:E10; [|discriminate].
    apply strip_prefix_spec in E10. rewrite E10.
    exists ws, 10%Z, t'. repeat split; try assumption; lia.
Qed.

Lemma all_chars_impl (p q : ascii -> bool) (s : string) :
  (forall c, p c = true -> q c = true) ->
  all_chars p s = true -> all_chars q s = true.
Proof.
  intros Hpq. induction s as [|c s IH]; simpl; [reflexivity|].
  intros H. apply andb_true_iff in H as [Hc Hs].
  now rewrite (Hpq c Hc), IH.
Qed.

Lemma all_chars_app (p : ascii -> bool) (a b : string) :
  all_chars p (a ++ b) = all_chars p a && all_chars p b.
Proof. induction a as [|c a IH]; simpl; [reflexivity|]. now rewrite IH, andb_assoc. Qed.

Lemma space_not_m (c : ascii) : is_space c = true -> not_capital_m c = true.
Proof. destruct c as [[] [] [] [] [] [] [] []]; vm_compute; congruence. Qed.

Lemma digit_not_m (c : ascii) : is_digit c = true -> not_capital_m c = true.
Proof. destruct c as [[] [] [] [] [] [] [] []]; vm_compute; congruence. Qed.

Lemma sub_module_nil (s : string) :
  Compiled.sub_module s = EmptyString -> s = EmptyString.
Proof.
  destruct s as [|c t]; [reflexivity|]. rewrite sub_module_eq.
  destruct (Compiled.match_module_ws_num (String c t)) as [[]|]; discriminate.
Qed.

(** A space followed by a numeral, read as white space followed by a
    numeral: the white space is that one space. *)
Lemma one_space (ws a b : string) (x y : ascii) :
  all_chars is_space ws = true -> ws <> EmptyString ->
  is_digit x = true -> is_digit y = true ->
  String " " (String x a) = ws ++ String y b ->
  ws = " " /\ String x a = String y b.
Proof.
  intros Hws Hne Hx Hy E.
  destruct ws as [|c [|c' ws]]; [contradiction| |].
  - simpl in E. injection E as <- -> ->. split; reflexivity.
  - simpl in E. injection E as _ Ec _. subst c'.
    simpl in Hws. rewrite (digit_not_space x Hx) in Hws.
    rewrite andb_false_r in Hws. discriminate.
Qed.

(** The label that [validate_modules] keeps for an entry is [Module N]
    with N from 1 to 10. *)
Lemma normalize_module_label (module out : string) :
  (forall c, last_char module = Some c -> is_space c = false) ->
  normalize_module module = inr out -> is_label out.
Proof.
  intros Hlast. rewrite normalize_module_eq. unfold Compiled.normalize.
  set (mn := if Compiled.match_digits_only module then "Module " ++ module
             else Compiled.sub_module module).
  destruct (Compiled.match_module_1_10 mn) eqn:Hcheck; [|discriminate].
  cbn [negb]. intros H. injection H as <-.
  destruct (match_module_1_10_spec mn Hcheck)
    as [ws [n [tail [Emn [Hne [Hws [Hn Htail]]]]]]].
  destruct (small_numeral n Hn) as [Hdig [y [b [EN Hy]]]].
  (* the label does not end with a newline *)
  assert (Htail' : tail = EmptyString).
  { destruct (at_dollar_cases tail Htail) as [-> | ->]; [reflexivity|exfalso].
    assert (Hl : last_char mn = Some nl).
    { rewrite Emn, <- !str_app_assoc. now rewrite last_char_app. }
    assert (Hm : last_char module = Some nl).
    { subst mn. destruct (Compiled.match_digits_only module).
      - destruct module as [|c0 m0].
        + discriminate.
        + now rewrite (last_char_app "Module " c0 m0) in Hl.
      - apply (sub_module_last (String.length module)); auto. }
    specialize (Hlast nl Hm). discriminate. }
  subst tail. rewrite str_app_nil_r in Emn.
  exists n. split; [assumption|].
  rewrite Emn. change "Module " with ("Module" ++ " "). rewrite str_app_assoc.
  f_equal. 
  (* the white space is one space *)
  subst mn. destruct (Compiled.match_digits_only module) eqn:Ed.
  - unfold Compiled.match_digits_only in Ed.
    destruct (span is_digit module) as [d r] eqn:Es.
    apply andb_true_iff in Ed as [Hd _]. apply truthy_true in Hd.
    destruct (span_spec _ _ _ _ Es) as [Em [Hdd _]].
    destruct d as [|x d]; [contradiction|]. simpl in Hdd.
    apply andb_true_iff in Hdd as [Hx _].
    rewrite Em in Emn. rewrite EN in Emn |- *.
    change ("Module " ++ String x d ++ r)
      with ("Module" ++ String " " (String x (d ++ r))) in Emn.
    assert (E' : String " " (String x (d ++ r)) = ws ++ String y b).
    { clear -Emn. simpl in Emn. now injection Emn. }
    destruct (one_space ws _ _ x y Hws Hne Hx Hy E') as [-> _]. reflexivity.
  - destruct module as [|c t].
    { rewrite sub_module_empty in Emn. discriminate. }
    rewrite sub_module_eq in Emn.
    destruct (Compiled.match_module_ws_num (String c t)) as [[d rest]|] eqn:Em.
    + destruct (match_module_ws_num_spec _ _ _ Em)
        as [_ [_ [_ [_ [_ [_ [Hd [Hdd _]]]]]]]].
      destruct d as [|x d]; [contradiction|]. simpl in Hdd.
      apply andb_true_iff in Hdd as [Hx _].
      rewrite EN in Emn |- *.
      assert (E' : String " " (String x (d ++ Compiled.sub_module rest))
                   = ws ++ String y b).
      { clear -Emn. simpl in Emn. now injection Emn. }
      destruct (one_space ws _ _ x y Hws Hne Hx Hy E') as [-> _]. reflexivity.
    + exfalso.
      assert (Ec : c = "M"%char /\ Compiled.sub_module t = "odule" ++ ws ++ str_of_int n).
      { clear -Emn. simpl in Emn. injection Emn as -> E. split; [reflexivity|].
        exact E. }
      destruct Ec as [-> Et].
      destruct (sub_module_copied_run not_capital_m ("odule" ++ ws ++ str_of_int n))
        with (s := t) (o := EmptyString) as [t' [Et' Hnil]].
      * reflexivity.
      * rewrite !all_chars_app. apply andb_true_iff. split; [reflexivity|].
        apply andb_true_iff. split.
        -- exact (all_chars_impl _ _ _ space_not_m Hws).
        -- exact (all_chars_impl _ _ _ digit_not_m Hdig).
      * now rewrite str_app_nil_r.
      * apply sub_module_nil in Hnil. subst t'.
        rewrite str_app_nil_r in Et'. subst t.
        revert Em. unfold Compiled.match_module_ws_num.
        change (String "M" ("odule" ++ ws ++ str_of_int n))
          with ("Module" ++ (ws ++ str_of_int n)).
        change "module" with (lower "Module").
        rewrite strip_prefix_ci_app.
        rewrite (span_app is_space ws (str_of_int n) Hws).
        2:{ rewrite EN. simpl. now apply digit_not_space. }
        rewrite (span_all is_digit _ Hdig).
        apply truthy_true in Hne. rewrite Hne, EN. discriminate.
Qed.

Lemma validate_modules_loop_labels (v : list string) :
  forall acc out,
    Forall is_label acc ->
    validate_modules_loop v acc = inr out ->
    Forall is_label out
    /\ List.length out
       = (List.length acc
          + List.length (filter (fun m => truthy (strip m)) v))%nat.
Proof.
  induction v as [|m v IH]; intros acc out Hacc H; simpl in H.
  - injection H as <-. split; [assumption|simpl; lia].
  - simpl filter. destruct (truthy (strip m)) eqn:Ht; cbn [negb] in H.
    + destruct (normalize_module (strip m)) as [e|lab] eqn:En; [discriminate|].
      apply IH in H.
      * destruct H as [Hf Hl]. split; [assumption|].
        rewrite Hl, length_app. simpl. lia.
      * apply Forall_app. split; [assumption|]. constructor; [|constructor].
        eapply normalize_module_label; [|exact En]. apply strip_last.
    + now apply IH.
Qed.

Lemma filter_length_le {A} (f : A -> bool) (l : list A) :
  (List.length (filter f l) <= List.length l)%nat.
Proof. induction l as [|a l IH]; simpl; [lia|]. destruct (f a); simpl; lia. Qed.

(** The substitution of a text that starts with no digit starts with
    no digit. *)
Lemma sub_module_stops (rest : string) :
  stops is_digit rest -> stops is_digit (Compiled.sub_module rest).
Proof.
  destruct rest as [|c t]; [intros _; exact I|]. intros Hc.
  rewrite sub_module_eq.
  destruct (Compiled.match_module_ws_num (String c t)) as [[d r]|].
  - reflexivity.
  - exact Hc.
Qed.

(** Digits that start with no digit are no text at all. *)
Lemma all_digits_stops (s : string) :
  all_chars is_digit s = true -> stops is_digit s -> s = EmptyString.
Proof.
  destruct s as [|c s]; [reflexivity|]. simpl. intros H Hc.
  rewrite Hc in H. discriminate.
Qed.

(** An entry that the loop of [validate_modules] accepts has one of the
    two forms, and its label is [Module] and the number of the form. *)
Lemma normalize_module_forms (module out : string) :
  (forall c, last_char module = Some c -> is_space c = false) ->
  normalize_module module = inr out ->
  exists n, (1 <= n <= 10)%Z /\ accepted_form module n
            /\ out = "Module " ++ str_of_int n.
Proof.
  intros Hlast Hn.
  destruct (normalize_module_label module out Hlast Hn) as [n [Hr Eout]].
  exists n. split; [exact Hr|]. split; [|exact Eout].
  destruct (small_numeral n Hr) as [Hdig [y [b [EN Hy]]]].
  revert Hn. rewrite normalize_module_eq. unfold Compiled.normalize.
  destruct (Compiled.match_digits_only module) eqn:Ed.
  - destruct (Compiled.match_module_1_10 ("Module " ++ module)); [|discriminate].
    cbn [negb]. intros H. injection H as H. rewrite Eout in H.
    left. clear -H. simpl in H. now injection H.
  - destruct (Compiled.match_module_1_10 (Compiled.sub_module module)); [|discriminate].
    cbn [negb]. intros H. injection H as H. rewrite Eout in H.
    destruct module as [|c t]; [discriminate|].
    rewrite sub_module_eq in H.
    destruct (Compiled.match_module_ws_num (String c t)) as [[d rest]|] eqn:Em.
    + destruct (match_module_ws_num_spec _ _ _ Em)
        as [w [ws [Es [Hw [Hne [Hws [Hd [Hdd Hstop]]]]]]]].
      assert (E : d ++ Compiled.sub_module rest = str_of_int n).
      { clear -H. simpl in H. now injection H. }
      assert (Hall : all_chars is_digit (Compiled.sub_module rest) = true).
      { rewrite <- E, all_chars_app in Hdig.
        now apply andb_true_iff in Hdig as [_ Hdig]. }
      apply all_digits_stops in Hall; [|now apply sub_module_stops].
      apply sub_module_nil in Hall. subst rest.
      rewrite sub_module_empty, str_app_nil_r in E. subst d.
      right. exists w, ws. rewrite str_app_nil_r in Es.
      repeat split; assumption.
    + exfalso. rewrite EN in H. simpl in H. injection H as Hc H.
      subst c.
      assert (Et : Compiled.sub_module t = "odule " ++ String y b).
      { exact H. }
      destruct (sub_module_copied_run not_capital_m ("odule " ++ String y b))
        with (s := t) (o := EmptyString) as [t' [Et' Hnil]].
      * reflexivity.
      * rewrite all_chars_app. apply andb_true_iff. split; [reflexivity|].
        rewrite <- EN. exact (all_chars_impl _ _ _ digit_not_m Hdig).
      * now rewrite str_app_nil_r.
      * apply sub_module_nil in Hnil. subst t'.
        rewrite str_app_nil_r in Et'. subst t.
        revert Em. unfold Compiled.match_module_ws_num.
        change (String "M" ("odule " ++ String y b))
          with ("Module" ++ (" " ++ String y b)).
        change "module" with (lower "Module").
        rewrite strip_prefix_ci_app.
        rewrite (span_app is_space " " (String y b) eq_refl).
        2:{ simpl. now apply digit_not_space. }
        rewrite <- EN, (span_all is_digit _ Hdig), EN. discriminate.
Qed.

(** The loop adds one label for each entry that is not blank, in the
    order of the entries. *)
Lemma validate_modules_loop_entries (v : list string) :
  forall acc out,
    validate_modules_loop v acc = inr out ->
    exists labels,
      out = List.app acc labels
      /\ Forall2 label_of_entry (filter (fun m => truthy (strip m)) v) labels.
Proof.
  induction v as [|m v IH]; intros acc out H; simpl in H.
  - injection H as <-. exists []. split; [now rewrite app_nil_r|constructor].
  - simpl filter. destruct (truthy (strip m)) eqn:Ht; cbn [negb] in H.
    + destruct (normalize_module (strip m)) as [e|lab] eqn:En; [discriminate|].
      destruct (IH _ _ H) as [labels [-> Hf]].
      exists (lab :: labels). split; [now rewrite <- app_assoc|].
      constructor; [|exact Hf].
      destruct (normalize_module_forms (strip m) lab (strip_last m) En)
        as [n [Hn [Hform ->]]].
      exists n. split; [exact Hn|]. split; [exact Hform|reflexivity].
    + now apply IH.
Qed.

(** C8, as the code has it.  A request that is constructed carries one
    label for each entry of the given list that is not blank, in the
    same order: between 1 and 10 labels, the label of an entry being
    [Module N] for the number N from 1 to 10 that the stripped entry
    holds, alone or after the word [module] and white space.  Entries
    that normalise to the same label are all kept. *)
Theorem C8_request_labels (syllabus_text test_type : string)
  (modules : list string) (request : QuestionGenerationRequest.t) :
  QuestionGenerationRequest.new syllabus_text test_type modules = inr request ->
  (1 <= List.length (QuestionGenerationRequest.modules request) <= 10)%nat
  /\ Forall is_label (QuestionGenerationRequest.modules request)
  /\ List.length (QuestionGenerationRequest.modules request)
     = List.length (filter (fun m => truthy (strip m)) modules)
  /\ Forall2 label_of_entry (filter (fun m => truthy (strip m)) modules)
       (QuestionGenerationRequest.modules request).
Proof.
  unfold QuestionGenerationRequest.new. intros H.
  destruct (TestTypeEnum.of_value test_type) as [ty|];
    destruct (check_modules modules) as [e|ms] eqn:Ec; try discriminate.
  destruct (check_syllabus_text syllabus_text); [|discriminate].
  injection H as <-. simpl.
  unfold check_modules in Ec.
  destruct (Nat.ltb_spec (List.length modules) 1); [discriminate|].
  destruct (Nat.ltb_spec 10 (List.length modules)); [discriminate|].
  destruct (validate_modules modules) as [e|ms'] eqn:Ev; [discriminate|].
  injection Ec as ->. unfold validate_modules in Ev.
  destruct (validate_modules_loop modules []) as [e|out] eqn:El; [discriminate|].
  destruct (nonempty out) eqn:Hne; [|discriminate].
  cbn [negb] in Ev. injection Ev as <-.
  destruct (validate_modules_loop_labels modules [] out (Forall_nil _) El)
    as [Hf Hl].
  destruct (validate_modules_loop_entries modules [] out El) as [labels [Eo H2]].
  simpl in Eo. subst labels.
  simpl in Hl. pose proof (filter_length_le (fun m => truthy (strip m)) modules).
  repeat split; try assumption; try lia.
  destruct out; [discriminate|simpl; lia].
Qed.

Lemma C8_witness :
  (1 <= 3 <= 10)%nat
  /\ Forall is_label ["Module 3"; "Module 10"; "Module 3"]
  /\ 3%nat = 3%nat
  /\ Forall2 label_of_entry ["module 3"; "10"; "MODULE   3"]
       ["Module 3"; "Module 10"; "Module 3"].
Proof.
  exact (C8_request_labels "Microcontroller syllabus" "CAT-1"
           ["module 3"; "  "; "10"; "MODULE   3"]
           (QuestionGenerationRequest.mk "Microcontroller syllabus" CAT1
              ["Module 3"; "Module 10"; "Module 3"]) eq_refl).
Defined.

(** The labels of a request need not be unique: nothing removes the
    second of two entries with the same normal form. *)
Lemma C8_counterexample :
  QuestionGenerationRequest.new "Microcontroller syllabus" "CAT-1"
    ["Module 1"; "module 1"]
  = inr (QuestionGenerationRequest.mk "Microcontroller syllabus" CAT1
           ["Module 1"; "Module 1"])
  /\ ~ NoDup ["Module 1"; "Module 1"].
Proof.
  split; [reflexivity|]. intros H. inversion H as [|x l Hin _]; subst.
  apply Hin. left; reflexivity.
Qed.

End RequestModules.

Section LabelForms.

Import QuestionGenerationRequest.

Lemma lower_m (c : ascii) :
  lower_char c = "m"%char -> is_space c = false /\ is_digit c = false.
Proof.
  destruct c as [[] [] [] [] [] [] [] []]; vm_compute; intros H;
    try discriminate; split; reflexivity.
Qed.

Lemma strip_word_numeral (w ws : string) (n : Z) :
  lower w = "module" -> (1 <= n <= 10)%Z ->
  strip (w ++ ws ++ str_of_int n) = w ++ ws ++ str_of_int n.
Proof.
  intros Hw Hn. destruct (small_numeral n Hn) as [Hdig [y [b [EN Hy]]]].
  destruct w as [|c w]; [discriminate|]. simpl in Hw. injection Hw as Hc Hw.
  destruct (lower_m c Hc) as [Hs _].
  unfold strip. cbn [append lstrip]. rewrite Hs.
  apply rstrip_id. intros x Hx.
  change (String c (w ++ ws ++ str_of_int n))
    with ((String c w) ++ ws ++ str_of_int n) in Hx.
  rewrite <- str_app_assoc, EN, last_char_app, <- EN in Hx.
  apply digit_not_space. exact (last_char_all is_digit _ x Hdig Hx).
Qed.

Lemma sub_word_numeral (w ws : string) (n : Z) :
  lower w = "module" -> ws <> EmptyString -> all_chars is_space ws = true ->
  (1 <= n <= 10)%Z ->
  Compiled.sub_module (w ++ ws ++ str_of_int n) = "Module " ++ str_of_int n.
Proof.
  intros Hw Hne Hws Hn. destruct (small_numeral n Hn) as [Hdig [y [b [EN Hy]]]].
  assert (Em : Compiled.match_module_ws_num (w ++ ws ++ str_of_int n)
               = Some (str_of_int n, EmptyString)).
  { unfold Compiled.match_module_ws_num. rewrite <- Hw, strip_prefix_ci_app.
    rewrite (span_app is_space ws (str_of_int n) Hws).
    2:{ rewrite EN. simpl. now apply digit_not_space. }
    rewrite (span_all is_digit _ Hdig).
    apply truthy_true in Hne. rewrite Hne, EN. reflexivity. }
  destruct w as [|c w']; [discriminate|].
  change ((String c w') ++ ws ++ str_of_int n)
    with (String c (w' ++ ws ++ str_of_int n)) in *.
  rewrite sub_module_eq, Em, sub_module_empty, str_app_nil_r. reflexivity.
Qed.

Lemma label_accepted (n : Z) :
  (1 <= n <= 10)%Z -> Compiled.match_module_1_10 ("Module " ++ str_of_int n) = true.
Proof.
  intros H.
  assert (E : (n = 1 \/ n = 2 \/ n = 3 \/ n = 4 \/ n = 5 \/ n = 6 \/ n = 7
               \/ n = 8 \/ n = 9 \/ n = 10)%Z) by lia.
  repeat (destruct E as [-> | E]); try subst n; reflexivity.
Qed.

(** An entry of one of the two forms is accepted. *)
Lemma normalize_module_accepts (module : string) (n : Z) :
  (1 <= n <= 10)%Z -> accepted_form module n ->
  normalize_module module = inr ("Module " ++ str_of_int n).
Proof.
  intros Hn [-> | [w [ws [-> [Hw [Hne Hws]]]]]].
  - assert (E : (n = 1 \/ n = 2 \/ n = 3 \/ n = 4 \/ n = 5 \/ n = 6 \/ n = 7
                 \/ n = 8 \/ n = 9 \/ n = 10)%Z) by lia.
    repeat (destruct E as [-> | E]); try subst n; reflexivity.
  - rewrite normalize_module_eq. unfold Compiled.normalize.
    assert (Hd : Compiled.match_digits_only (w ++ ws ++ str_of_int n) = false).
    { destruct w as [|c w]; [discriminate|]. simpl in Hw. injection Hw as Hc _.
      destruct (lower_m c Hc) as [_ Hnd].
      unfold Compiled.match_digits_only. cbn [append span]. now rewrite Hnd. }
    rewrite Hd, sub_word_numeral, label_accepted by assumption.
    reflexivity.
Qed.

Lemma accepted_form_truthy (module : string) (n : Z) :
  (1 <= n <= 10)%Z -> accepted_form module n -> truthy module = true.
Proof.
  intros Hn [-> | [w [ws [-> [Hw _]]]]].
  - destruct (small_numeral n Hn) as [_ [y [b [-> _]]]]. reflexivity.
  - destruct w; [discriminate|reflexivity].
Qed.

(** The validation of a list of one entry. *)
Lemma one_label (module : string) (labels : list string) :
  validate_modules [module] = inr labels
  <-> exists label, labels = [label] /\ label_of_entry module label.
Proof.
  unfold validate_modules. cbn [validate_modules_loop]. split.
  - intros H. destruct (truthy (strip module)) eqn:Ht; cbn [negb] in H.
    + destruct (normalize_module (strip module)) as [e|lab] eqn:En; [discriminate|].
      cbn [List.app nonempty negb] in H. injection H as <-.
      exists lab. split; [reflexivity|].
      destruct (normalize_module_forms (strip module) lab (strip_last module) En)
        as [n [Hn [Hform ->]]].
      exists n. split; [exact Hn|]. split; [exact Hform|reflexivity].
    + discriminate.
  - intros [label [-> [n [Hn [Hform ->]]]]].
    rewrite (accepted_form_truthy _ n Hn Hform). cbn [negb].
    now rewrite (normalize_module_accepts _ n Hn Hform).
Qed.

(** C4, as the code has it.  At the validation of a request a label is
    accepted exactly when, stripped of the white space around it, it is
    the word [module] in any letter case, white space and a number N
    from 1 to 10, or that number alone; it is then normalised to
    [Module N].  The number that a label contains does not decide: the
    label [MODULE-3], which has no white space, is rejected with an
    error that names it, and no request is constructed from it, while
    [module 3] becomes [Module 3]. *)
Theorem C4_label_forms :
  (forall (w ws : string) (n : Z),
      lower w = "module" -> ws <> EmptyString -> all_chars is_space ws = true ->
      (1 <= n <= 10)%Z ->
      validate_modules [w ++ ws ++ str_of_int n] = inr ["Module " ++ str_of_int n])
  /\ (forall n : Z, (1 <= n <= 10)%Z ->
        validate_modules [str_of_int n] = inr ["Module " ++ str_of_int n])
  /\ validate_modules ["module 3"] = inr ["Module 3"]
  /\ validate_modules ["MODULE-3"]
     = inl "Invalid module: MODULE-3. Must be Module 1 through Module 10"
  /\ (forall syllabus_text test_type : string,
        exists e, QuestionGenerationRequest.new syllabus_text test_type ["MODULE-3"]
                  = inl e)
  /\ (forall (module : string) (labels : list string),
        validate_modules [module] = inr labels
        <-> exists label, labels = [label] /\ label_of_entry module label).
Proof.
  split; [|split; [|split; [reflexivity|split; [reflexivity|split]]]].
  - intros w ws n Hw Hne Hws Hn.
    destruct (small_numeral n Hn) as [Hdig [y [b [EN Hy]]]].
    unfold validate_modules. cbn [validate_modules_loop].
    rewrite strip_word_numeral by assumption.
    assert (Ht : truthy (w ++ ws ++ str_of_int n) = true).
    { destruct w; [discriminate|reflexivity]. }
    rewrite Ht. cbn [negb]. rewrite normalize_module_eq. unfold Compiled.normalize.
    assert (Hd : Compiled.match_digits_only (w ++ ws ++ str_of_int n) = false).
    { destruct w as [|c w]; [discriminate|]. simpl in Hw. injection Hw as Hc _.
      destruct (lower_m c Hc) as [_ Hnd].
      unfold Compiled.match_digits_only. cbn [append span]. now rewrite Hnd. }
    rewrite Hd, sub_word_numeral, label_accepted by assumption.
    reflexivity.
  - intros n Hn.
    assert (E : (n = 1 \/ n = 2 \/ n = 3 \/ n = 4 \/ n = 5 \/ n = 6 \/ n = 7
                 \/ n = 8 \/ n = 9 \/ n = 10)%Z) by lia.
    repeat (destruct E as [-> | E]); try subst n; reflexivity.
  - intros syllabus_text test_type. unfold QuestionGenerationRequest.new.
    change (check_modules ["MODULE-3"])
      with (@inl (list field_error) (list string)
              [ValueError "modules"
                 "Invalid module: MODULE-3. Must be Module 1 through Module 10"]).
    destruct (TestTypeEnum.of_value test_type); eexists; reflexivity.
  - intros module labels. apply one_label.
Qed.

Lemma C4_witness :
  validate_modules ["MoDuLe" ++ "   " ++ "7"] = inr ["Module 7"].
Proof.
  exact (proj1 C4_label_forms "MoDuLe" "   " 7%Z eq_refl
           ltac:(discriminate) eq_refl ltac:(lia)).
Defined.

(** The labels [MODULE-3] and [module 3] hold the same number, and only
    the second is accepted. *)
Lemma C4_counterexample :
  QuestionPaperGenerator._extract_module_number "MODULE-3"
  = QuestionPaperGenerator._extract_module_number "module 3"
  /\ validate_modules ["module 3"] = inr ["Module 3"]
  /\ validate_modules ["MODULE-3"]
     = inl "Invalid module: MODULE-3. Must be Module 1 through Module 10"
  /\ QuestionGenerationRequest.new "Microcontroller syllabus" "CAT-1" ["MODULE-3"]
     = inl [ValueError "modules"
              "Invalid module: MODULE-3. Must be Module 1 through Module 10"].
Proof. repeat split. Qed.

End LabelForms.

(** ** Examples *)

Section Examples.

Import QuestionPaperGenerator.

Lemma C1_witness :
  _validate_question_paper (example_paper five_questions_off_topic) example_request
  = inr [coverage_warning; validation_passed]
  /\ exists msg,
       _validate_question_paper (example_paper four_questions) example_request
       = inl msg.
Proof.
  split.
  - refine (proj1 (proj2 (C1_validation_hard_and_soft_checks
                            (example_runtime EmptyString [] (inl EmptyString))
                            EmptyString
                            (example_paper five_questions_off_topic)
                            example_request) _ _)).
    + intros [H|[[q [Hin Hq]]|H]].
      * apply H; reflexivity.
      * simpl in Hin.
        repeat (destruct Hin as [<-|Hin]; [apply Hq; reflexivity|]).
        exact Hin.
      * apply H; reflexivity.
    + intros m Hin Hreq. simpl in Hin, Hreq.
      repeat (destruct Hin as [<-|Hin];
              [destruct Hreq as [Hreq|[Hreq|[]]]; discriminate|]).
      exact Hin.
  - apply (proj1 (C1_validation_hard_and_soft_checks
                    (example_runtime EmptyString [] (inl EmptyString))
                    EmptyString (example_paper four_questions) example_request)).
    left. discriminate.
Defined.

Lemma C3_witness :
  generate_question_paper
    (example_runtime EmptyString [] (inl "connection refused"))
    1.5%float 2.75%float example_request
  = failure_response "Question generation failed: connection refused"
      1.5%float 2.75%float
  /\ QuestionGenerationResponse.processing_time
       (generate_question_paper
          (example_runtime EmptyString [] (inl "connection refused"))
          1.5%float 2.75%float example_request)
     = 1.25%float.
Proof.
  split.
  - exact (proj1 (proj2 (C3_failures_become_responses
                           (example_runtime EmptyString [] (inl "connection refused"))
                           1.5%float 2.75%float example_request))
             "connection refused" eq_refl).
  - reflexivity.
Defined.

Lemma C7_witness :
  exists paper' q' parts' p',
    Dict.get "paper"
      (create_fallback_data (example_runtime EmptyString [] (inl EmptyString))
         example_request decoded_sparse_question) = Some (JArr paper')
    /\ nth_error paper' 0 = Some (JObj q')
    /\ Dict.get "q_no" q' = Some (JInt 1)
    /\ Dict.get "marks" q' = Some (JInt 10)
    /\ Dict.get "parts" q' = Some (JArr parts')
    /\ nth_error parts' 0 = Some (JObj p')
    /\ Dict.get "label" p' = Some JNull
    /\ Dict.get "marks" p' = Some (JInt 10)
    /\ Dict.get "text" p' = Some (JStr "Question 1 content")
    /\ Dict.get "module" p' = Some (JArr [JStr "Module 2"]).
Proof.
  destruct (C7_defaults_filled (example_runtime EmptyString [] (inl EmptyString))
              example_request decoded_sparse_question
              [JObj [("parts", JArr [JObj []])]] eq_refl)
    as [paper' [Hpaper [_ Hq]]].
  destruct (Hq 0%nat [("parts", JArr [JObj []])] eq_refl)
    as [q' [parts' [Hn [Hqno [Hmarks [Hparts [_ Hp]]]]]]].
  destruct (Hp 0%nat [] eq_refl)
    as [p' [Hpn [Hlabel [Hpm [Htext [Hmod _]]]]]].
  exists paper', q', parts', p'.
  repeat split; assumption.
Defined.

Lemma C2_witness :
  exists paper,
    materialize_paper
      (example_runtime clean_five_sparse_questions decoded_five_sparse_questions
         (inl EmptyString))
      reply_five_sparse_questions example_request = inr paper
    /\ _parse_and_validate_response
         (example_runtime clean_five_sparse_questions decoded_five_sparse_questions
            (inl EmptyString))
         reply_five_sparse_questions example_request = inr paper
    /\ map Question.q_no (GeneratedQuestionPaper.paper paper) = [1; 2; 3; 4; 5]%Z.
Proof.
  destruct (C2_recoverable_reply_is_constructed
              (example_runtime clean_five_sparse_questions
                 decoded_five_sparse_questions (inl EmptyString))
              example_request reply_five_sparse_questions
              decoded_five_sparse_questions)
    as [paper [Hv [Hm Hp]]].
  - constructor; reflexivity.
  - discriminate.
  - vm_compute. discriminate.
  - vm_compute. discriminate.
  - vm_compute. reflexivity.
  - repeat constructor.
  - reflexivity.
  - exists paper. split; [exact Hm|].
    vm_compute in Hv. injection Hv as <-.
    split; [|reflexivity]. rewrite Hp. reflexivity.
Defined.

End Examples.

(** * Further properties *)

(** ** Texts and lists *)

Section TextFacts.

Lemma find_lacks (c : ascii) (s : string) :
  lacks c s = true -> find c s = (-1)%Z.
Proof.
  unfold lacks. induction s as [|d t IH]; simpl; [reflexivity|].
  intros H. apply andb_prop in H. destruct H as [Hd Ht].
  apply negb_true_iff in Hd. rewrite Hd, (IH Ht). reflexivity.
Qed.

Lemma rfind_lacks (c : ascii) (s : string) :
  lacks c s = true -> rfind c s = (-1)%Z.
Proof.
  unfold lacks. induction s as [|d t IH]; simpl; [reflexivity|].
  intros H. apply andb_prop in H. destruct H as [Hd Ht].
  apply negb_true_iff in Hd. rewrite Hd, (IH Ht). reflexivity.
Qed.

Lemma find_app (c : ascii) (pre t : string) :
  lacks c pre = true ->
  find c (pre ++ String c t) = Z.of_nat (String.length pre).
Proof.
  unfold lacks. induction pre as [|d pre IH]; simpl; intros H.
  - now rewrite Ascii.eqb_refl.
  - apply andb_prop in H. destruct H as [Hd Hp].
    apply negb_true_iff in Hd. rewrite Hd, (IH Hp).
    destruct (Z.ltb_spec (Z.of_nat (String.length pre)) 0); lia.
Qed.

Lemma rfind_app (c : ascii) (a post : string) :
  lacks c post = true ->
  rfind c (a ++ String c post) = Z.of_nat (String.length a).
Proof.
  intros Hp. induction a as [|d a IH]; simpl.
  - rewrite (rfind_lacks c post Hp). simpl. now rewrite Ascii.eqb_refl.
  - rewrite IH. destruct (Z.leb_spec 0 (Z.of_nat (String.length a))); lia.
Qed.

Lemma substring_prefix (body post : string) :
  substring 0 (String.length body) (body ++ post) = body.
Proof.
  induction body as [|c body IH]; simpl.
  - destruct post; reflexivity.
  - now rewrite IH.
Qed.

Lemma substring_skip (pre s : string) (n : nat) :
  substring (String.length pre) n (pre ++ s) = substring 0 n s.
Proof. induction pre as [|c pre IH]; simpl; [reflexivity|exact IH]. Qed.

Lemma all_chars_lstrip (p : ascii -> bool) (s : string) :
  all_chars p s = true -> all_chars p (lstrip s) = true.
Proof.
  induction s as [|c t IH]; simpl; [reflexivity|]. intros H.
  destruct (is_space c); [|exact H].
  apply andb_prop in H. now apply IH.
Qed.

Lemma all_chars_rstrip (p : ascii -> bool) (s : string) :
  all_chars p s = true -> all_chars p (rstrip s) = true.
Proof.
  induction s as [|c t IH]; simpl; [reflexivity|]. intros H.
  apply andb_prop in H. destruct H as [Hc Ht]. specialize (IH Ht).
  destruct (rstrip t) as [|d t'].
  - destruct (is_space c); simpl; [reflexivity|now rewrite Hc].
  - change (all_chars p (String c (String d t')))
      with (p c && all_chars p (String d t')). now rewrite Hc, IH.
Qed.

Lemma all_chars_strip (p : ascii -> bool) (s : string) :
  all_chars p s = true -> all_chars p (strip s) = true.
Proof. intros H. unfold strip. now apply all_chars_rstrip, all_chars_lstrip. Qed.

Lemma stops_rstrip (p : ascii -> bool) (s : string) :
  stops p s -> stops p (rstrip s).
Proof.
  destruct s as [|c t]; [trivial|]. intros H. cbn [rstrip].
  destruct (rstrip t); [destruct (is_space c)|]; simpl; trivial.
Qed.

Lemma lstrip_stops (s : string) : stops is_space (lstrip s).
Proof.
  induction s as [|c t IH]; simpl; [trivial|].
  destruct (is_space c) eqn:Hc; [exact IH|exact Hc].
Qed.

Lemma lstrip_id (s : string) : stops is_space s -> lstrip s = s.
Proof. destruct s as [|c t]; simpl; [reflexivity|]. now intros ->. Qed.

Lemma strip_twice (s : string) : strip (strip s) = strip s.
Proof.
  unfold strip.
  rewrite (lstrip_id (rstrip (lstrip s)))
    by (apply stops_rstrip, lstrip_stops).
  apply rstrip_id. intros c Hc. exact (rstrip_last _ c Hc).
Qed.

Lemma lstrip_length (s : string) : (String.length (lstrip s) <= String.length s)%nat.
Proof.
  induction s as [|c t IH]; simpl; [lia|].
  destruct (is_space c); simpl; lia.
Qed.

Lemma rstrip_length (s : string) : (String.length (rstrip s) <= String.length s)%nat.
Proof.
  induction s as [|c t IH]; [simpl; lia|]. cbn [rstrip].
  destruct (rstrip t) as [|d t'].
  - destruct (is_space c); simpl; lia.
  - simpl in *. lia.
Qed.

Lemma strip_length (s : string) : (String.length (strip s) <= String.length s)%nat.
Proof.
  unfold strip. pose proof (rstrip_length (lstrip s)). pose proof (lstrip_length s).
  lia.
Qed.

Lemma rstrip_cons (c : ascii) (t : string) :
  is_space c = false -> rstrip (String c t) = String c (rstrip t).
Proof. intros H. cbn [rstrip]. destruct (rstrip t); [now rewrite H|reflexivity]. Qed.

Lemma rstrip_app_keep (a b : string) (c : ascii) :
  last_char a = Some c -> is_space c = false -> rstrip (a ++ b) = a ++ rstrip b.
Proof.
  revert c. induction a as [|x a IH]; intros c Hl Hc; [discriminate|].
  destruct a as [|y a].
  - simpl in Hl. injection Hl as <-. cbn [append]. now apply rstrip_cons.
  - change ((String x (String y a)) ++ b) with (String x (String y a ++ b)).
    cbn [rstrip]. rewrite (IH c Hl Hc). reflexivity.
Qed.

Lemma strip_keep (c z : ascii) (a b : string) :
  is_space c = false -> last_char (String c a) = Some z -> is_space z = false ->
  strip (String c a ++ b) = String c a ++ rstrip b.
Proof.
  intros Hc Hl Hz. unfold strip.
  change (lstrip (String c a ++ b)) with (lstrip (String c (a ++ b))).
  cbn [lstrip]. rewrite Hc.
  change (String c (a ++ b)) with (String c a ++ b).
  exact (rstrip_app_keep _ _ z Hl Hz).
Qed.

Lemma last_char_some (c : ascii) (s : string) : exists z, last_char (String c s) = Some z.
Proof.
  revert c. induction s as [|y s IH]; intros c; [now exists c|].
  destruct (IH y) as [z Hz]. exists z. exact Hz.
Qed.

Lemma space_lower (c : ascii) : is_space c = true -> lower_char c = c.
Proof.
  destruct c as [[] [] [] [] [] [] [] []]; vm_compute; intros H;
    try discriminate; reflexivity.
Qed.

Lemma spaces_lower (s : string) : all_chars is_space s = true -> lower s = s.
Proof.
  induction s as [|c t IH]; simpl; [reflexivity|]. intros H.
  apply andb_prop in H. destruct H as [Hc Ht]. now rewrite (space_lower c Hc), IH.
Qed.

Lemma sep_lower (c : ascii) : Re.is_sep c = true -> lower_char c = c.
Proof.
  destruct c as [[] [] [] [] [] [] [] []]; vm_compute; intros H;
    try discriminate; reflexivity.
Qed.

Lemma lower_char_digit (c : ascii) : is_digit (lower_char c) = is_digit c.
Proof. destruct c as [[] [] [] [] [] [] [] []]; reflexivity. Qed.

Lemma stops_lower (s : string) : stops is_digit s -> stops is_digit (lower s).
Proof. destruct s as [|c t]; simpl; [trivial|]. now rewrite lower_char_digit. Qed.

Lemma split_lacks (c : ascii) (s : string) :
  lacks c s = true -> split c s = [s].
Proof.
  unfold lacks. induction s as [|d t IH]; simpl; [reflexivity|]. intros H.
  apply andb_prop in H. destruct H as [Hd Ht]. apply negb_true_iff in Hd.
  now rewrite Hd, (IH Ht).
Qed.

Lemma split_app (c : ascii) (a t : string) :
  lacks c a = true -> split c (a ++ String c t) = a :: split c t.
Proof.
  unfold lacks. induction a as [|d a IH]; simpl; intros H.
  - now rewrite Ascii.eqb_refl.
  - apply andb_prop in H. destruct H as [Hd Ha]. apply negb_true_iff in Hd.
    now rewrite Hd, (IH Ha).
Qed.

Lemma split_join (c : ascii) (l : list string) :
  l <> [] -> Forall (fun s => lacks c s = true) l ->
  split c (join (String c EmptyString) l) = l.
Proof.
  intros Hne H. induction H as [|x l Hx Hl IH]; [contradiction|].
  destruct l as [|y l].
  - simpl. now apply split_lacks.
  - change (join (String c EmptyString) (x :: y :: l))
      with (x ++ String c EmptyString ++ join (String c EmptyString) (y :: l)).
    cbn [append]. rewrite (split_app c x _ Hx), IH; [reflexivity|discriminate].
Qed.

Lemma split_parts_lack (c : ascii) (s : string) :
  Forall (fun p => lacks c p = true) (split c s).
Proof.
  induction s as [|d t IH]; simpl; [repeat constructor|].
  destruct (Ascii.eqb d c) eqn:Hd.
  - constructor; [reflexivity|exact IH].
  - destruct (split c t) as [|l ls].
    + constructor; [|constructor]. unfold lacks. simpl. now rewrite Hd.
    + inversion IH as [|? ? Hl Hls]; subst. constructor; [|exact Hls].
      unfold lacks in *. simpl. now rewrite Hd, Hl.
Qed.

Lemma split_nonempty (c : ascii) (s : string) : split c s <> [].
Proof.
  destruct s as [|d t]; simpl; [discriminate|].
  destruct (Ascii.eqb d c); [discriminate|].
  destruct (split c t); discriminate.
Qed.

Lemma split_last_part (c : ascii) (a e : string) :
  lacks c e = true ->
  exists front, front <> [] /\ split c (a ++ String c e) = List.app front [e].
Proof.
  intros He. induction a as [|d a [front [Hne E]]].
  - exists [EmptyString]. split; [discriminate|].
    simpl. now rewrite Ascii.eqb_refl, (split_lacks c e He).
  - cbn [append split]. rewrite E. destruct (Ascii.eqb d c).
    + exists (EmptyString :: front). split; [discriminate|reflexivity].
    + destruct front as [|l fr]; [contradiction|].
      exists (String d l :: fr). split; [discriminate|reflexivity].
Qed.

Lemma filter_all {A} (f : A -> bool) (l : list A) :
  (forall x, In x l -> f x = true) -> filter f l = l.
Proof.
  induction l as [|a l IH]; intros H; simpl; [reflexivity|].
  rewrite (H a (or_introl eq_refl)), IH; [reflexivity|].
  intros x Hx. apply H. now right.
Qed.

Lemma filter_snoc {A} (f : A -> bool) (l : list A) (a : A) :
  filter f (List.app l [a]) = List.app (filter f l) (if f a then [a] else []).
Proof.
  induction l as [|x l IH]; simpl; [reflexivity|].
  rewrite IH. destruct (f x); reflexivity.
Qed.

Lemma map_fixed {A} (f g : A -> A) (l : list A) :
  (forall x, f (g x) = g x) -> map f (map g l) = map g l.
Proof.
  intros H. induction l as [|a l IH]; simpl; [reflexivity|]. now rewrite H, IH.
Qed.

Lemma last_snoc {A} (l : list A) (a d : A) : List.last (List.app l [a]) d = a.
Proof.
  induction l as [|x l IH]; [reflexivity|].
  simpl. destruct (List.app l [a]) eqn:E; [destruct l; discriminate|exact IH].
Qed.

Lemma last_in {A} (l : list A) (d : A) : l <> [] -> In (List.last l d) l.
Proof.
  induction l as [|x l IH]; [contradiction|]. intros _.
  destruct l as [|y l]; [now left|]. right. apply IH. discriminate.
Qed.

End TextFacts.

(** ** Papers that pass the validation *)

Section ValidationFurther.

Import QuestionPaperGenerator.

Lemma sum_marks_from (paper : list Question.t) :
  forall acc,
    fold_left (fun acc q => (acc + Question.marks q)%Z) paper acc
    = (acc + sum_marks paper)%Z.
Proof.
  unfold sum_marks. induction paper as [|q paper IH]; intros acc; simpl; [lia|].
  rewrite IH, (IH (Question.marks q)). lia.
Qed.

Lemma sum_marks_cons (q : Question.t) (paper : list Question.t) :
  sum_marks (q :: paper) = (Question.marks q + sum_marks paper)%Z.
Proof. unfold sum_marks at 1. simpl. apply sum_marks_from. Qed.

Lemma sum_marks_all (m : Z) (paper : list Question.t) :
  Forall (fun q => Question.marks q = m) paper ->
  sum_marks paper = (Z.of_nat (List.length paper) * m)%Z.
Proof.
  induction 1 as [|q paper Hq _ IH]; [reflexivity|].
  rewrite sum_marks_cons, IH, Hq. simpl List.length. lia.
Qed.

Lemma limits_consistent (t : TestType) :
  total (question_limits t)
  = (count (question_limits t) * marks_each (question_limits t))%Z.
Proof. destruct t; reflexivity. Qed.

Lemma validation_returns (qp : GeneratedQuestionPaper.t)
  (request : QuestionGenerationRequest.t) (logs : list log_record) :
  _validate_question_paper qp request = inr logs ->
  let cfg := question_limits (QuestionGenerationRequest.test_type request) in
  Z.of_nat (List.length (GeneratedQuestionPaper.paper qp)) = count cfg
  /\ Forall (fun q => Question.marks q = marks_each cfg)
            (GeneratedQuestionPaper.paper qp).
Proof.
  intros H cfg.
  assert (Hn : ~ deviates cfg (GeneratedQuestionPaper.paper qp)).
  { intros Hd. apply validate_raises_iff in Hd. destruct Hd as [msg Hm].
    rewrite Hm in H. discriminate. }
  split.
  - destruct (Z.eq_dec (Z.of_nat (List.length (GeneratedQuestionPaper.paper qp)))
                (count cfg)) as [E|E]; [exact E|].
    exfalso. apply Hn. left. exact E.
  - apply check_each_marks_none.
    destruct (check_each_marks cfg (GeneratedQuestionPaper.paper qp)) as [e|] eqn:E;
      [|reflexivity].
    exfalso. apply Hn. right. left. apply not_all_marks.
    intros Hall. apply check_each_marks_none in Hall. congruence.
Qed.

(** X1.  The validation returns exactly for the papers that have the number
    of questions of the profile, each question with the marks per
    question of the profile: the check of the total adds nothing to
    these two. *)
Theorem validation_passes_iff (qp : GeneratedQuestionPaper.t)
  (request : QuestionGenerationRequest.t) :
  let cfg := question_limits (QuestionGenerationRequest.test_type request) in
  let paper := GeneratedQuestionPaper.paper qp in
  (exists logs, _validate_question_paper qp request = inr logs) <->
  (Z.of_nat (List.length paper) = count cfg
   /\ Forall (fun q => Question.marks q = marks_each cfg) paper).
Proof.
  intros cfg paper. split.
  - intros [logs H]. exact (validation_returns qp request logs H).
  - intros [Hc Hall].
    assert (Hn : ~ deviates cfg paper).
    { intros [H|[[q [Hin Hq]]|H]].
      - contradiction.
      - rewrite Forall_forall in Hall. apply Hq, Hall, Hin.
      - apply H. rewrite (sum_marks_all _ _ Hall), Hc. subst cfg.
        symmetry. apply limits_consistent. }
    rewrite (validate_no_coverage qp request Hn). eexists. reflexivity.
Qed.

Lemma all_items_forall {A} (f : json -> option A) (P : A -> Prop) (l : list json) :
  (forall v a, f v = Some a -> P a) ->
  forall r, Pydantic.all_items f l = Some r -> Forall P r.
Proof.
  intros Hf. induction l as [|v l IH]; simpl; intros r H.
  - injection H as <-. constructor.
  - destruct (f v) as [a|] eqn:Ea; [|discriminate].
    destruct (Pydantic.all_items f l) as [ar|]; [|discriminate].
    injection H as <-. constructor; [eapply Hf; eassumption|now apply IH].
Qed.

Lemma all_items_length {A} (f : json -> option A) (l : list json) :
  forall r, Pydantic.all_items f l = Some r -> List.length r = List.length l.
Proof.
  induction l as [|v l IH]; simpl; intros r H.
  - injection H as <-. reflexivity.
  - destruct (f v) as [a|]; [|discriminate].
    destruct (Pydantic.all_items f l) as [ar|]; [|discriminate].
    injection H as <-. simpl. f_equal. now apply IH.
Qed.

Lemma int_range_bounds (py : Pydantic.scalars) (lo hi : option Z) (v : json) (z : Z) :
  Pydantic.int_range py lo hi v = Some z ->
  (forall l, lo = Some l -> (l <= z)%Z) /\ (forall h, hi = Some h -> (z <= h)%Z).
Proof.
  unfold Pydantic.int_range. destruct (Pydantic.as_int py v) as [z'|]; [|discriminate].
  destruct lo as [l|], hi as [h|]; intros H;
    match type of H with (if ?b then _ else _) = _ => destruct b eqn:Eb end;
    try discriminate; injection H as <-;
    split; intros x Hx; try discriminate; injection Hx as <-;
    apply andb_prop in Eb; destruct Eb; lia.
Qed.

Lemma str_min_length_bound (py : Pydantic.scalars) (n : nat) (v : json) (s : string) :
  Pydantic.str_min_length py n v = Some s -> (n <= String.length s)%nat.
Proof.
  unfold Pydantic.str_min_length. destruct (Pydantic.as_str py v) as [s'|]; [|discriminate].
  destruct (Nat.leb_spec n (String.length s')) as [Hle|Hle]; [|discriminate].
  intros Hr. injection Hr as <-. assumption.
Qed.

Lemma required_some {A} (f : json -> option A) (k : string) (d : Dict.t json) (a : A) :
  Pydantic.required f k d = Some a -> exists v, Dict.get k d = Some v /\ f v = Some a.
Proof.
  unfold Pydantic.required. destruct (Dict.get k d) as [v|]; [|discriminate].
  intros H. exists v. split; [reflexivity|exact H].
Qed.

Lemma list_min_items_some {A} (f : json -> option A) (n : nat) (v : json) (r : list A) :
  Pydantic.list_min_items f n v = Some r ->
  exists l, v = JArr l /\ (n <= List.length l)%nat /\ Pydantic.all_items f l = Some r.
Proof.
  unfold Pydantic.list_min_items. destruct v; try discriminate.
  destruct (Nat.leb_spec n (List.length items)) as [Hle|Hle]; [|discriminate].
  intros Hr. exists items. repeat split; assumption.
Qed.

Lemma part_validate_bounds (py : Pydantic.scalars) (v : json) (p : QuestionPart.t) :
  QuestionPart.validate py v = Some p -> part_in_bounds p.
Proof.
  unfold QuestionPart.validate. destruct v; try discriminate.
  destruct (Pydantic.optional _ "label" items) as [l|]; [|discriminate].
  destruct (Pydantic.required _ "marks" items) as [m|] eqn:Em; [|discriminate].
  destruct (Pydantic.required _ "text" items) as [x|] eqn:Ex; [|discriminate].
  destruct (Pydantic.required _ "module" items) as [ms|]; [|discriminate].
  intros H. injection H as <-. unfold part_in_bounds. simpl.
  apply required_some in Em. destruct Em as [vm [_ Em]].
  apply int_range_bounds in Em. destruct Em as [Hlo Hhi].
  apply required_some in Ex. destruct Ex as [vx [_ Ex]].
  apply str_min_length_bound in Ex.
  pose proof (Hlo _ eq_refl). pose proof (Hhi _ eq_refl). split; [lia|assumption].
Qed.

Lemma question_validate_bounds (py : Pydantic.scalars) (v : json) (q : Question.t) :
  Question.validate py v = Some q -> question_in_bounds q.
Proof.
  unfold Question.validate. destruct v; try discriminate.
  destruct (Pydantic.required _ "q_no" items) as [n|] eqn:En; [|discriminate].
  destruct (Pydantic.required _ "marks" items) as [m|] eqn:Em; [|discriminate].
  destruct (Pydantic.required _ "parts" items) as [ps|] eqn:Ep; [|discriminate].
  destruct (Pydantic.optional _ "instructions" items) as [ins|]; [|discriminate].
  intros H. injection H as <-. unfold question_in_bounds. simpl.
  apply required_some in En. destruct En as [vn [_ En]].
  apply int_range_bounds in En. destruct En as [Hn _].
  apply required_some in Em. destruct Em as [vm [_ Em]].
  apply int_range_bounds in Em. destruct Em as [Hlo Hhi].
  apply required_some in Ep. destruct Ep as [vp [_ Ep]].
  apply list_min_items_some in Ep. destruct Ep as [l [_ [Hlen Hall]]].
  pose proof (Hn _ eq_refl). pose proof (Hlo _ eq_refl). pose proof (Hhi _ eq_refl).
  repeat split; try lia.
  - apply all_items_length in Hall. destruct ps; [simpl in Hall; lia|discriminate].
  - eapply all_items_forall; [|exact Hall]. apply part_validate_bounds.
Qed.

(** Whatever values the scalar validators accept, a paper that the
    models construct is within their bounds. *)
Lemma paper_validate_bounds (py : Pydantic.scalars)
  (parsed_data : Dict.t json) (qp : GeneratedQuestionPaper.t) :
  GeneratedQuestionPaper.validate py parsed_data = Some qp -> paper_in_bounds qp.
Proof.
  unfold GeneratedQuestionPaper.validate.
  destruct (Pydantic.required _ "metadata" parsed_data) as [m|] eqn:Em; [|discriminate].
  destruct (Pydantic.required _ "paper" parsed_data) as [p|] eqn:Ep; [|discriminate].
  destruct (Pydantic.required _ "validation" parsed_data) as [v|]; [|discriminate].
  intros H. injection H as <-. unfold paper_in_bounds. simpl.
  apply required_some in Em. destruct Em as [vm [_ Em]].
  unfold QuestionPaperMetadata.validate in Em. destruct vm; try discriminate.
  destruct (Pydantic.required _ "title" items) as [ti|] eqn:Eti; [|discriminate].
  destruct (Pydantic.required _ "test_type" items) as [ty|]; [|discriminate].
  destruct (Pydantic.required _ "modules" items) as [ms|] eqn:Ems; [|discriminate].
  destruct (Pydantic.required _ "total_marks" items) as [tm|] eqn:Etm; [|discriminate].
  destruct (Pydantic.optional _ "notes" items) as [n|]; [|discriminate].
  injection Em as <-. simpl.
  apply required_some in Eti. destruct Eti as [v1 [_ Eti]].
  apply str_min_length_bound in Eti.
  apply required_some in Ems. destruct Ems as [v2 [_ Ems]].
  apply list_min_items_some in Ems. destruct Ems as [l [_ [Hlen Hall]]].
  apply all_items_length in Hall.
  apply required_some in Etm. destruct Etm as [v3 [_ Etm]].
  apply int_range_bounds in Etm. destruct Etm as [Hlo _].
  pose proof (Hlo _ eq_refl).
  apply required_some in Ep. destruct Ep as [v4 [_ Ep]].
  apply list_min_items_some in Ep. destruct Ep as [lp [_ [_ Hp]]].
  repeat split.
  - destruct ti; [simpl in Eti; lia|discriminate].
  - destruct ms; [simpl in Hall; lia|discriminate].
  - assumption.
  - eapply all_items_forall; [|exact Hp]. apply question_validate_bounds.
Qed.

Lemma sum_marks_le (paper : list Question.t) :
  Forall (fun q => (Question.marks q <= 10)%Z) paper ->
  (sum_marks paper <= 10 * Z.of_nat (List.length paper))%Z.
Proof.
  induction 1 as [|q paper Hq _ IH]; [simpl; unfold sum_marks; simpl; lia|].
  rewrite sum_marks_cons. simpl List.length. lia.
Qed.

Lemma full_marks (paper : list Question.t) :
  Forall (fun q => (Question.marks q <= 10)%Z) paper ->
  sum_marks paper = (10 * Z.of_nat (List.length paper))%Z ->
  Forall (fun q => Question.marks q = 10%Z) paper.
Proof.
  induction 1 as [|q paper Hq Hall IH]; intros Hs; [constructor|].
  rewrite sum_marks_cons in Hs. simpl List.length in Hs.
  pose proof (sum_marks_le paper Hall).
  constructor; [lia|apply IH; lia].
Qed.

End ValidationFurther.

(** ** Papers that the models construct *)

Section ConstructedPapers.

Import QuestionPaperGenerator.

Lemma marks_each_ten (t : TestType) : marks_each (question_limits t) = 10%Z.
Proof. destruct t; reflexivity. Qed.

Lemma bounds_marks_le (paper : list Question.t) :
  Forall question_in_bounds paper ->
  Forall (fun q => (Question.marks q <= 10)%Z) paper.
Proof.
  intros H. eapply Forall_impl; [|exact H].
  intros q [_ [Hm _]]. lia.
Qed.

(** X2.  For a paper that the models constructed, the check of the marks of
    each question never raises: a paper of the right number of
    questions and the right total has the right marks in every
    question, since no question has more than 10 marks.  The
    validation of such a paper raises with one of the two other
    messages only. *)
Theorem constructed_paper_errors (py : Pydantic.scalars)
  (parsed_data : Dict.t json) (qp : GeneratedQuestionPaper.t)
  (request : QuestionGenerationRequest.t) (msg : string) :
  GeneratedQuestionPaper.validate py parsed_data = Some qp ->
  _validate_question_paper qp request = inl msg ->
  let cfg := question_limits (QuestionGenerationRequest.test_type request) in
  let paper := GeneratedQuestionPaper.paper qp in
  msg = "Expected " ++ str_of_int (count cfg) ++ " questions, got "
        ++ str_of_int (Z.of_nat (List.length paper))
  \/ msg = "Expected " ++ str_of_int (total cfg) ++ " total marks, got "
           ++ str_of_int (sum_marks paper).
Proof.
  intros Hc Hv cfg paper. unfold _validate_question_paper in Hv.
  fold cfg in Hv. fold paper in Hv.
  destruct (Z.eqb_spec (Z.of_nat (List.length paper)) (count cfg)) as [En|En];
    cbn [negb] in Hv; [|injection Hv as <-; left; reflexivity].
  destruct (Z.eqb_spec (sum_marks paper) (total cfg)) as [Et|Et];
    cbn [negb] in Hv; [|injection Hv as <-; right; reflexivity].
  exfalso.
  apply paper_validate_bounds in Hc. destruct Hc as [_ [_ [_ Hb]]].
  fold paper in Hb. apply bounds_marks_le in Hb.
  assert (Hall : Forall (fun q => Question.marks q = marks_each cfg) paper).
  { unfold cfg. rewrite marks_each_ten. apply full_marks; [exact Hb|].
    rewrite Et. unfold cfg. rewrite limits_consistent, marks_each_ten.
    fold cfg. rewrite <- En. lia. }
  apply check_each_marks_none in Hall. rewrite Hall in Hv. discriminate.
Qed.

Lemma constructed_paper_errors_witness :
  "Expected 5 questions, got 1"
  = "Expected " ++ str_of_int 5 ++ " questions, got " ++ str_of_int 1
  \/ "Expected 5 questions, got 1"
     = "Expected " ++ str_of_int 50 ++ " total marks, got " ++ str_of_int 10.
Proof.
  exact (constructed_paper_errors Pydantic.strict
           (create_fallback_data (example_runtime EmptyString [] (inl EmptyString))
              example_request decoded_sparse_question)
           one_default_question_paper example_request
           "Expected 5 questions, got 1" eq_refl eq_refl).
Defined.

(** What the pipeline returns is a paper that the models constructed
    and the validation accepted. *)
Lemma pipeline_paper (rt : runtime) (request : QuestionGenerationRequest.t)
  (qp : GeneratedQuestionPaper.t) :
  generation_pipeline rt request = inr qp ->
  let cfg := question_limits (QuestionGenerationRequest.test_type request) in
  Z.of_nat (List.length (GeneratedQuestionPaper.paper qp)) = count cfg
  /\ Forall (fun q => Question.marks q = marks_each cfg)
            (GeneratedQuestionPaper.paper qp)
  /\ sum_marks (GeneratedQuestionPaper.paper qp) = total cfg
  /\ paper_in_bounds qp.
Proof.
  intros Ep cfg. unfold generation_pipeline in Ep.
  destruct (_generate_with_ollama rt _ _) as [e|raw]; [discriminate|].
  unfold _parse_and_validate_response, parse_and_validate_body in Ep.
  destruct (materialize_paper rt raw request) as [e|qp'] eqn:Em;
    [destruct e; discriminate|].
  destruct (_validate_question_paper qp' request) as [e|logs] eqn:Ev;
    [discriminate|].
  injection Ep as <-.
  assert (Hb : paper_in_bounds qp').
  { unfold materialize_paper in Em.
    destruct (_ || _); [discriminate|].
    destruct (json_loads rt _) as [e|d]; [discriminate|].
    destruct (nonempty _); [discriminate|].
    destruct (GeneratedQuestionPaper.validate _ _) as [x|] eqn:Ex; [|discriminate].
    injection Em as <-. eapply paper_validate_bounds. exact Ex. }
  destruct (validation_returns qp' request logs Ev) as [Hn Hall].
  split; [exact Hn|]. split; [exact Hall|]. split; [|exact Hb].
  rewrite (sum_marks_all _ _ Hall), Hn. symmetry. apply limits_consistent.
Qed.

(** X3.  A response with [success = True] carries a paper that the models
    constructed and the validation accepted: it has the number of
    questions of the profile of the request, each with the marks per
    question of the profile, the total of the profile, and it is
    within the bounds of the models. *)
Theorem successful_response_paper (rt : runtime) (start_time end_time : float)
  (request : QuestionGenerationRequest.t) :
  let r := generate_question_paper rt start_time end_time request in
  let cfg := question_limits (QuestionGenerationRequest.test_type request) in
  QuestionGenerationResponse.success r = true ->
  exists qp,
    QuestionGenerationResponse.question_paper r = Some qp
    /\ QuestionGenerationResponse.message r = "Question paper generated successfully"
    /\ Z.of_nat (List.length (GeneratedQuestionPaper.paper qp)) = count cfg
    /\ Forall (fun q => Question.marks q = marks_each cfg)
              (GeneratedQuestionPaper.paper qp)
    /\ sum_marks (GeneratedQuestionPaper.paper qp) = total cfg
    /\ paper_in_bounds qp.
Proof.
  intros r cfg. subst r. unfold generate_question_paper.
  destruct (generation_pipeline rt request) as [e|qp] eqn:Ep; simpl;
    [discriminate|]. intros _.
  exists qp. split; [reflexivity|]. split; [reflexivity|].
  exact (pipeline_paper rt request qp Ep).
Qed.

Lemma successful_response_paper_witness :
  exists qp,
    QuestionGenerationResponse.question_paper
      (generate_question_paper runtime_five_sparse_questions
         1.5%float 2.75%float example_request) = Some qp
    /\ QuestionGenerationResponse.message
         (generate_question_paper runtime_five_sparse_questions
            1.5%float 2.75%float example_request)
       = "Question paper generated successfully"
    /\ Z.of_nat (List.length (GeneratedQuestionPaper.paper qp)) = 5%Z
    /\ Forall (fun q => Question.marks q = 10%Z) (GeneratedQuestionPaper.paper qp)
    /\ sum_marks (GeneratedQuestionPaper.paper qp) = 50%Z
    /\ paper_in_bounds qp.
Proof.
  exact (successful_response_paper runtime_five_sparse_questions
           1.5%float 2.75%float example_request ltac:(vm_compute; reflexivity)).
Defined.

End ConstructedPapers.

(** ** The slice of the reply *)

Section ReplySlice.

Import QuestionPaperGenerator.

Lemma slice_object (pre mid post : string) :
  lacks "{" pre = true -> lacks "}" post = true ->
  forall raw, raw = pre ++ "{" ++ mid ++ "}" ++ post ->
  find "{" raw = Z.of_nat (String.length pre)
  /\ rfind "}" raw = Z.of_nat (String.length pre + 1 + String.length mid)
  /\ slice raw (find "{" raw) (rfind "}" raw + 1) = "{" ++ mid ++ "}".
Proof.
  intros Hpre Hpost raw Hraw.
  assert (Ef : find "{" raw = Z.of_nat (String.length pre)).
  { rewrite Hraw. change ("{" ++ mid ++ "}" ++ post)
      with (String "{" (mid ++ "}" ++ post)). now apply find_app. }
  assert (Er : rfind "}" raw
               = Z.of_nat (String.length pre + 1 + String.length mid)).
  { rewrite Hraw.
    replace (pre ++ "{" ++ mid ++ "}" ++ post)
      with ((pre ++ "{" ++ mid) ++ String "}" post).
    - rewrite (rfind_app "}" _ post Hpost), !str_length_app. simpl. f_equal. lia.
    - rewrite !str_app_assoc. reflexivity. }
  split; [exact Ef|]. split; [exact Er|].
  rewrite Ef, Er. unfold slice. rewrite Hraw.
  rewrite Nat2Z.id.
  replace (Z.to_nat (Z.of_nat (String.length pre + 1 + String.length mid) + 1
                     - Z.of_nat (String.length pre)))
    with (String.length ("{" ++ mid ++ "}")).
  - rewrite substring_skip.
    replace ("{" ++ mid ++ "}" ++ post) with (("{" ++ mid ++ "}") ++ post).
    + apply substring_prefix.
    + rewrite !str_app_assoc. reflexivity.
  - rewrite !str_length_app. simpl. lia.
Qed.

Lemma materialize_slice (rt : runtime) (request : QuestionGenerationRequest.t)
  (raw raw' : string) :
  find "{" raw <> (-1)%Z -> rfind "}" raw <> (-1)%Z ->
  find "{" raw' <> (-1)%Z -> rfind "}" raw' <> (-1)%Z ->
  slice raw (find "{" raw) (rfind "}" raw + 1)
  = slice raw' (find "{" raw') (rfind "}" raw' + 1) ->
  materialize_paper rt raw request = materialize_paper rt raw' request.
Proof.
  intros H1 H2 H3 H4 E. unfold materialize_paper.
  destruct (Z.eqb_spec (find "{" raw) (-1)); [contradiction|].
  destruct (Z.eqb_spec (rfind "}" raw + 1) 0); [lia|].
  destruct (Z.eqb_spec (find "{" raw') (-1)); [contradiction|].
  destruct (Z.eqb_spec (rfind "}" raw' + 1) 0); [lia|].
  cbn [orb]. now rewrite E.
Qed.

(** X4.  Text around the object is ignored: a reply that has text without
    opening brace before the object and text without closing brace
    after it gives the result of the object alone. *)
Theorem reply_prose_ignored (rt : runtime) (request : QuestionGenerationRequest.t)
  (pre mid post : string) :
  lacks "{" pre = true -> lacks "}" post = true ->
  _parse_and_validate_response rt (pre ++ "{" ++ mid ++ "}" ++ post) request
  = _parse_and_validate_response rt ("{" ++ mid ++ "}") request.
Proof.
  intros Hpre Hpost.
  destruct (slice_object pre mid post Hpre Hpost _ eq_refl) as [Ef [Er Es]].
  assert (Halone : "{" ++ mid ++ "}" = EmptyString ++ "{" ++ mid ++ "}" ++ EmptyString)
    by reflexivity.
  destruct (slice_object EmptyString mid EmptyString eq_refl eq_refl _ Halone)
    as [Ef' [Er' Es']].
  unfold _parse_and_validate_response, parse_and_validate_body.
  rewrite (materialize_slice rt request
             (pre ++ "{" ++ mid ++ "}" ++ post) ("{" ++ mid ++ "}")).
  - reflexivity.
  - rewrite Ef. lia.
  - rewrite Er. lia.
  - rewrite Ef'. simpl. lia.
  - rewrite Er'. lia.
  - now rewrite Es, Es'.
Qed.

Lemma reply_prose_ignored_witness :
  _parse_and_validate_response
    (example_runtime reply_paper_null decoded_paper_null (inl EmptyString))
    ("Here is the paper: " ++ "{" ++ "}, {" ++ "}" ++ " Good luck!") example_request
  = _parse_and_validate_response
      (example_runtime reply_paper_null decoded_paper_null (inl EmptyString))
      ("{" ++ "}, {" ++ "}") example_request.
Proof.
  exact (reply_prose_ignored
           (example_runtime reply_paper_null decoded_paper_null (inl EmptyString))
           example_request "Here is the paper: " "}, {" " Good luck!"
           eq_refl eq_refl).
Defined.

Lemma no_object_raises (rt : runtime) (request : QuestionGenerationRequest.t)
  (raw : string) :
  lacks "{" raw = true \/ lacks "}" raw = true ->
  _parse_and_validate_response rt raw request
  = inl "Response validation failed: No valid JSON found in response".
Proof.
  intros H. unfold _parse_and_validate_response, parse_and_validate_body,
    materialize_paper.
  destruct H as [H|H].
  - rewrite (find_lacks _ _ H). reflexivity.
  - rewrite (rfind_lacks _ _ H). cbn. now rewrite orb_true_r.
Qed.

(** X5.  A reply in which no opening brace occurs, or no closing brace, is
    not decoded at all: [_parse_and_validate_response] raises with the
    message of the missing object, and the request that got this reply
    from the completion client ends in the failure response with that
    message. *)
Theorem reply_without_object (rt : runtime) (request : QuestionGenerationRequest.t)
  (raw : string) :
  lacks "{" raw = true \/ lacks "}" raw = true ->
  _parse_and_validate_response rt raw request
  = inl "Response validation failed: No valid JSON found in response"
  /\ (forall start_time end_time,
        generate_completion rt (_create_generation_prompt request)
          system_message 0.3%float 4000%Z = inr raw ->
        generate_question_paper rt start_time end_time request
        = failure_response
            "Response validation failed: No valid JSON found in response"
            start_time end_time).
Proof.
  intros H. split; [now apply no_object_raises|].
  intros start_time end_time Hc.
  unfold generate_question_paper, generation_pipeline, _generate_with_ollama.
  rewrite Hc. rewrite no_object_raises; [reflexivity|].
  unfold lacks in *. destruct H as [H|H]; [left|right]; now apply all_chars_strip.
Qed.

Lemma reply_without_object_witness :
  _parse_and_validate_response
    (example_runtime EmptyString [] (inr " I cannot write this paper. "))
    " I cannot write this paper. " example_request
  = inl "Response validation failed: No valid JSON found in response"
  /\ generate_question_paper
       (example_runtime EmptyString [] (inr " I cannot write this paper. "))
       1.5%float 2.75%float example_request
     = failure_response
         "Response validation failed: No valid JSON found in response"
         1.5%float 2.75%float.
Proof.
  destruct (reply_without_object
              (example_runtime EmptyString [] (inr " I cannot write this paper. "))
              example_request " I cannot write this paper. "
              (or_introl eq_refl)) as [H1 H2].
  split; [exact H1|exact (H2 1.5%float 2.75%float eq_refl)].
Defined.

(** X6.  When [paper] is present and is no list, the repair changes nothing,
    not even in [metadata] and [validation], and no paper is
    constructed: [_parse_and_validate_response] raises with the text of
    the validation error of the reply as it was decoded. *)
Theorem paper_not_a_list (rt : runtime) (request : QuestionGenerationRequest.t)
  (raw_response : string) (parsed_data : Dict.t json) (v : json) :
  find "{" raw_response <> (-1)%Z ->
  rfind "}" raw_response <> (-1)%Z ->
  json_loads rt (slice raw_response (find "{" raw_response)
                   (rfind "}" raw_response + 1)) = inr parsed_data ->
  Forall (fun field => Dict.mem field parsed_data = true) required_fields ->
  Dict.get "paper" parsed_data = Some v -> is_list v = false ->
  create_fallback_data rt request parsed_data = parsed_data
  /\ GeneratedQuestionPaper.validate (pydantic rt) parsed_data = None
  /\ _parse_and_validate_response rt raw_response request
     = inl ("Response validation failed: " ++ validation_error_str rt parsed_data).
Proof.
  intros Hf Hr Hj Hreq Hp Hl.
  assert (E1 : create_fallback_data rt request parsed_data = parsed_data).
  { unfold create_fallback_data. rewrite Hp. destruct v; try reflexivity.
    discriminate. }
  assert (E2 : GeneratedQuestionPaper.validate (pydantic rt) parsed_data = None).
  { unfold GeneratedQuestionPaper.validate.
    destruct (Pydantic.required _ "metadata" parsed_data); [|reflexivity].
    unfold Pydantic.required at 1. rewrite Hp.
    destruct v; try reflexivity. discriminate. }
  split; [exact E1|]. split; [exact E2|].
  unfold _parse_and_validate_response, parse_and_validate_body, materialize_paper.
  destruct (Z.eqb_spec (find "{" raw_response) (-1)); [contradiction|].
  destruct (Z.eqb_spec (rfind "}" raw_response + 1) 0); [lia|].
  cbn [orb]. rewrite Hj.
  assert (Hm : filter (fun field => negb (Dict.mem field parsed_data)) required_fields
               = []).
  { unfold required_fields in *.
    inversion Hreq as [|? ? H1 Hreq1]; subst.
    inversion Hreq1 as [|? ? H2 Hreq2]; subst.
    inversion Hreq2 as [|? ? H3 _]; subst.
    simpl. now rewrite H1, H2, H3. }
  rewrite Hm. cbn [nonempty]. rewrite E1, E2. reflexivity.
Qed.

Lemma paper_not_a_list_witness :
  create_fallback_data
    (example_runtime reply_paper_null decoded_paper_null (inl EmptyString))
    example_request decoded_paper_null = decoded_paper_null
  /\ GeneratedQuestionPaper.validate Pydantic.strict decoded_paper_null = None
  /\ _parse_and_validate_response
       (example_runtime reply_paper_null decoded_paper_null (inl EmptyString))
       reply_paper_null example_request
     = inl "Response validation failed: validation error for GeneratedQuestionPaper".
Proof.
  exact (paper_not_a_list
           (example_runtime reply_paper_null decoded_paper_null (inl EmptyString))
           example_request reply_paper_null decoded_paper_null JNull
           ltac:(vm_compute; discriminate) ltac:(vm_compute; discriminate)
           ltac:(vm_compute; reflexivity) ltac:(repeat constructor)
           eq_refl eq_refl).
Defined.

End ReplySlice.

(** ** The defaults of [metadata] and [validation] *)

Section RepairFurther.

Import QuestionPaperGenerator.

Lemma get_setdefault_kept {V} (k k' : string) (v x : V) (d : Dict.t V) :
  Dict.get k d = Some x -> Dict.get k (Dict.setdefault k' v d) = Some x.
Proof.
  intros H. destruct (string_dec k k') as [<-|Hk].
  - unfold Dict.setdefault, Dict.mem. now rewrite H.
  - now rewrite get_setdefault_other.
Qed.

(** X7.  When [paper] is a list, the repair leaves an object in the place of
    [metadata] and one in the place of [validation].  Each holds what
    the object of the reply held (nothing, when the reply had no object
    there), and the fields that were missing: the title made of the
    test type of the request, that test type, the modules of the
    request, the total of the profile and the note on the syllabus;
    the total of the profile and [True].  The other keys of the reply
    are as they were. *)
Theorem metadata_and_validation_defaults (rt : runtime)
  (request : QuestionGenerationRequest.t) (parsed_data : Dict.t json)
  (paper : list json) :
  Dict.get "paper" parsed_data = Some (JArr paper) ->
  let cfg := question_limits (QuestionGenerationRequest.test_type request) in
  let value := TestTypeEnum.value (QuestionGenerationRequest.test_type request) in
  let old_metadata := dict_or_empty "metadata" parsed_data in
  let old_validation := dict_or_empty "validation" parsed_data in
  let repaired := create_fallback_data rt request parsed_data in
  exists metadata validation,
    Dict.get "metadata" repaired = Some (JObj metadata)
    /\ Dict.get "validation" repaired = Some (JObj validation)
    /\ Dict.get "title" metadata
       = Some (Dict.get_or "title" (JStr (value ++ " Question Paper")) old_metadata)
    /\ Dict.get "test_type" metadata
       = Some (Dict.get_or "test_type" (JStr value) old_metadata)
    /\ Dict.get "modules" metadata
       = Some (Dict.get_or "modules"
                 (JArr (map JStr (QuestionGenerationRequest.modules request)))
                 old_metadata)
    /\ Dict.get "total_marks" metadata
       = Some (Dict.get_or "total_marks" (JInt (total cfg)) old_metadata)
    /\ Dict.get "notes" metadata
       = Some (Dict.get_or "notes" (JStr "Generated based on provided syllabus")
                 old_metadata)
    /\ (forall k x, Dict.get k old_metadata = Some x -> Dict.get k metadata = Some x)
    /\ Dict.get "total_marks_check" validation
       = Some (Dict.get_or "total_marks_check" (JInt (total cfg)) old_validation)
    /\ Dict.get "unique_questions" validation
       = Some (Dict.get_or "unique_questions" (JBool true) old_validation)
    /\ (forall k x, Dict.get k old_validation = Some x ->
                    Dict.get k validation = Some x)
    /\ (forall k, k <> "metadata" -> k <> "validation" -> k <> "paper" ->
                  Dict.get k repaired = Dict.get k parsed_data).
Proof.
  intros Hp cfg value old_metadata old_validation repaired.
  exists (default_metadata request cfg old_metadata),
         (default_validation cfg old_validation).
  assert (Ev : dict_or_empty "validation"
                 (Dict.set "metadata"
                    (JObj (default_metadata request cfg old_metadata)) parsed_data)
               = old_validation).
  { unfold old_validation, dict_or_empty. now dict_get. }
  unfold repaired, create_fallback_data. rewrite Hp. fold cfg. fold old_metadata.
  rewrite Ev.
  split; [now dict_get|]. split; [now dict_get|].
  unfold default_metadata, default_validation. fold value.
  repeat split; try (now dict_get).
  - intros k x H. now repeat apply get_setdefault_kept.
  - intros k x H. now repeat apply get_setdefault_kept.
  - intros k H1 H2 H3.
    rewrite !dict_get_set_other; [reflexivity| | |]; congruence.
Qed.

Lemma metadata_and_validation_defaults_witness :
  exists metadata validation,
    Dict.get "metadata"
      (create_fallback_data (example_runtime EmptyString [] (inl EmptyString))
         example_request decoded_sparse_question) = Some (JObj metadata)
    /\ Dict.get "validation"
         (create_fallback_data (example_runtime EmptyString [] (inl EmptyString))
            example_request decoded_sparse_question) = Some (JObj validation)
    /\ Dict.get "title" metadata = Some (JStr "CAT-1 Question Paper")
    /\ Dict.get "test_type" metadata = Some (JStr "CAT-1")
    /\ Dict.get "modules" metadata = Some (JArr [JStr "Module 2"; JStr "Module 3"])
    /\ Dict.get "total_marks" metadata = Some (JInt 50)
    /\ Dict.get "notes" metadata = Some (JStr "Generated based on provided syllabus")
    /\ Dict.get "total_marks_check" validation = Some (JInt 50)
    /\ Dict.get "unique_questions" validation = Some (JBool true).
Proof.
  destruct (metadata_and_validation_defaults
              (example_runtime EmptyString [] (inl EmptyString))
              example_request decoded_sparse_question
              [JObj [("parts", JArr [JObj []])]] eq_refl)
    as [m [v [H1 [H2 [H3 [H4 [H5 [H6 [H7 [_ [H8 [H9 _]]]]]]]]]]]].
  exists m, v. repeat split; assumption.
Defined.

End RepairFurther.

(** ** The repair applied twice *)

Section RepairTwice.

Import QuestionPaperGenerator.

Lemma dict_set_same {V} (k : string) (v : V) (d : Dict.t V) :
  Dict.get k d = Some v -> Dict.set k v d = d.
Proof.
  induction d as [|[k' v'] d IH]; simpl; [discriminate|].
  destruct (String.eqb k' k).
  - intros H. now injection H as ->.
  - intros H. now rewrite IH.
Qed.

Lemma setdefault_present {V} (k : string) (v x : V) (d : Dict.t V) :
  Dict.get k d = Some x -> Dict.setdefault k v d = d.
Proof. intros H. unfold Dict.setdefault, Dict.mem. now rewrite H. Qed.

Lemma default_metadata_twice (request : QuestionGenerationRequest.t)
  (cfg : test_config) (m : Dict.t json) :
  default_metadata request cfg (default_metadata request cfg m)
  = default_metadata request cfg m.
Proof.
  set (M := default_metadata request cfg m).
  assert (H1 : exists x, Dict.get "title" M = Some x)
    by (unfold M, default_metadata; dict_get; eauto).
  assert (H2 : exists x, Dict.get "test_type" M = Some x)
    by (unfold M, default_metadata; dict_get; eauto).
  assert (H3 : exists x, Dict.get "modules" M = Some x)
    by (unfold M, default_metadata; dict_get; eauto).
  assert (H4 : exists x, Dict.get "total_marks" M = Some x)
    by (unfold M, default_metadata; dict_get; eauto).
  assert (H5 : exists x, Dict.get "notes" M = Some x)
    by (unfold M, default_metadata; dict_get; eauto).
  destruct H1 as [x1 H1], H2 as [x2 H2], H3 as [x3 H3], H4 as [x4 H4],
    H5 as [x5 H5].
  unfold default_metadata.
  rewrite (setdefault_present "title" _ x1 M H1).
  rewrite (setdefault_present "test_type" _ x2 M H2).
  rewrite (setdefault_present "modules" _ x3 M H3).
  rewrite (setdefault_present "total_marks" _ x4 M H4).
  now rewrite (setdefault_present "notes" _ x5 M H5).
Qed.

Lemma default_validation_twice (cfg : test_config) (v : Dict.t json) :
  default_validation cfg (default_validation cfg v) = default_validation cfg v.
Proof.
  set (W := default_validation cfg v).
  assert (H1 : exists x, Dict.get "total_marks_check" W = Some x)
    by (unfold W, default_validation; dict_get; eauto).
  assert (H2 : exists x, Dict.get "unique_questions" W = Some x)
    by (unfold W, default_validation; dict_get; eauto).
  destruct H1 as [x1 H1], H2 as [x2 H2].
  unfold default_validation.
  rewrite (setdefault_present "total_marks_check" _ x1 W H1).
  now rewrite (setdefault_present "unique_questions" _ x2 W H2).
Qed.

Lemma default_part_twice (rt : runtime) (request : QuestionGenerationRequest.t)
  (cfg : test_config) (q q' : Dict.t json) (i j : nat) (p : json) :
  default_part rt request cfg q' i (default_part rt request cfg q j p)
  = default_part rt request cfg q j p.
Proof.
  destruct p as [| | | | | |p]; try reflexivity.
  unfold default_part at 2.
  match goal with |- default_part _ _ _ _ _ (JObj ?d) = _ => set (P := d) end.
  assert (H1 : exists x, Dict.get "label" P = Some x)
    by (unfold P; dict_get; eauto).
  assert (H2 : exists x, Dict.get "marks" P = Some x)
    by (unfold P; dict_get; eauto).
  assert (H3 : exists x, Dict.get "text" P = Some x)
    by (unfold P; dict_get; eauto).
  assert (H4 : exists x, Dict.get "module" P = Some x)
    by (unfold P; dict_get; eauto).
  destruct H1 as [x1 H1], H2 as [x2 H2], H3 as [x3 H3], H4 as [x4 H4].
  unfold default_part.
  rewrite (setdefault_present "label" _ x1 P H1).
  rewrite (setdefault_present "marks" _ x2 P H2).
  rewrite (setdefault_present "text" _ x3 P H3).
  now rewrite (setdefault_present "module" _ x4 P H4).
Qed.

Lemma default_question_twice (rt : runtime) (request : QuestionGenerationRequest.t)
  (cfg : test_config) (i j : nat) (q : json) :
  default_question rt request cfg i (default_question rt request cfg j q)
  = default_question rt request cfg j q.
Proof.
  destruct q as [| | | | | |q]; try reflexivity.
  rewrite (default_question_eq rt request cfg j q).
  set (Q := default_question_fields cfg j q).
  set (PS := map (default_part rt request cfg Q j) (parts_or_empty q)).
  set (Q' := Dict.set "parts" (JArr PS) Q).
  assert (Hparts : Dict.get "parts" Q' = Some (JArr PS))
    by (unfold Q'; now dict_get).
  assert (H1 : exists x, Dict.get "q_no" Q' = Some x).
  { unfold Q'. dict_get. unfold Q. rewrite default_question_fields_get by discriminate.
    dict_get. eauto. }
  assert (H2 : exists x, Dict.get "marks" Q' = Some x).
  { unfold Q'. dict_get. unfold Q. rewrite default_question_fields_get by discriminate.
    dict_get. eauto. }
  assert (H3 : exists x, Dict.get "instructions" Q' = Some x).
  { unfold Q'. dict_get. unfold Q. rewrite default_question_fields_get by discriminate.
    dict_get. eauto. }
  destruct H1 as [x1 H1], H2 as [x2 H2], H3 as [x3 H3].
  assert (Hf : default_question_fields cfg i Q' = Q').
  { unfold default_question_fields.
    rewrite (setdefault_present "q_no" _ x1 Q' H1).
    rewrite (setdefault_present "marks" _ x2 Q' H2).
    rewrite (setdefault_present "instructions" _ x3 Q' H3).
    now rewrite Hparts. }
  rewrite (default_question_eq rt request cfg i Q'), Hf.
  assert (Hp : parts_or_empty Q' = PS) by (unfold parts_or_empty; now rewrite Hparts).
  rewrite Hp. unfold PS at 1. rewrite map_fixed by (intros; apply default_part_twice).
  fold PS. f_equal. now apply dict_set_same.
Qed.

Lemma default_questions_twice (rt : runtime) (request : QuestionGenerationRequest.t)
  (cfg : test_config) (paper : list json) :
  forall i j,
    default_questions rt request cfg i (default_questions rt request cfg j paper)
    = default_questions rt request cfg j paper.
Proof.
  induction paper as [|q paper IH]; intros i j; simpl; [reflexivity|].
  now rewrite default_question_twice, IH.
Qed.

(** X8.  The repair only adds what is missing: applied to a reply that it
    has repaired, it changes nothing. *)
Theorem repair_twice (rt : runtime) (request : QuestionGenerationRequest.t)
  (parsed_data : Dict.t json) :
  create_fallback_data rt request (create_fallback_data rt request parsed_data)
  = create_fallback_data rt request parsed_data.
Proof.
  destruct (Dict.get "paper" parsed_data) as [v|] eqn:Hp.
  2:{ assert (E : create_fallback_data rt request parsed_data = parsed_data)
        by (unfold create_fallback_data; now rewrite Hp).
      now rewrite !E. }
  destruct (is_list v) eqn:Hl.
  2:{ assert (E : create_fallback_data rt request parsed_data = parsed_data)
        by (unfold create_fallback_data; rewrite Hp; destruct v;
            try reflexivity; discriminate).
      now rewrite !E. }
  destruct v as [| | | | |paper|]; try discriminate. clear Hl.
  set (cfg := question_limits (QuestionGenerationRequest.test_type request)).
  set (D := create_fallback_data rt request parsed_data).
  pose proof (fallback_paper rt request parsed_data paper Hp) as HP.
  fold cfg in HP. fold D in HP.
  set (M := default_metadata request cfg (dict_or_empty "metadata" parsed_data)).
  assert (HM : Dict.get "metadata" D = Some (JObj M)).
  { unfold D, create_fallback_data. rewrite Hp. fold cfg. now dict_get. }
  set (W := default_validation cfg
              (dict_or_empty "validation"
                 (Dict.set "metadata" (JObj M) parsed_data))).
  assert (HW : Dict.get "validation" D = Some (JObj W)).
  { unfold D, create_fallback_data. rewrite Hp. fold cfg. now dict_get. }
  unfold create_fallback_data at 1. rewrite HP. fold cfg.
  assert (E1 : dict_or_empty "metadata" D = M)
    by (unfold dict_or_empty; now rewrite HM).
  assert (EM : default_metadata request cfg M = M)
    by apply default_metadata_twice.
  rewrite E1, EM.
  rewrite (dict_set_same "metadata" (JObj M) D HM).
  assert (E2 : dict_or_empty "validation" D = W)
    by (unfold dict_or_empty; now rewrite HW).
  assert (EW : default_validation cfg W = W) by apply default_validation_twice.
  rewrite E2, EW.
  rewrite (dict_set_same "validation" (JObj W) D HW).
  rewrite default_questions_twice.
  now apply dict_set_same.
Qed.

End RepairTwice.

(** ** Lines that are headers *)

Section HeaderForms.

Import QuestionPaperGenerator.

Lemma word_letter (c : ascii) :
  lower_char c = "m"%char \/ lower_char c = "c"%char \/ lower_char c = "u"%char ->
  is_space c = false.
Proof.
  destruct c as [[] [] [] [] [] [] [] []]; vm_compute; intros [H|[H|H]];
    try discriminate; reflexivity.
Qed.

Lemma header_word_head (w : string) :
  header_word w -> exists c w', w = String c w' /\ is_space c = false.
Proof.
  intros H. destruct w as [|c w']; [destruct H as [H|[H|H]]; discriminate|].
  exists c, w'. split; [reflexivity|]. apply word_letter.
  destruct H as [H|[H|H]]; simpl in H; injection H as H _; auto.
Qed.

Lemma digits_head (d : string) :
  d <> EmptyString -> all_chars is_digit d = true ->
  exists x d', d = String x d' /\ is_digit x = true.
Proof.
  intros Hne Hd. destruct d as [|x d']; [contradiction|].
  simpl in Hd. apply andb_prop in Hd. destruct Hd. eauto.
Qed.

Lemma last_char_digits (a d : string) (z : ascii) :
  d <> EmptyString -> all_chars is_digit d = true ->
  last_char (a ++ d) = Some z -> is_space z = false.
Proof.
  intros Hne Hd Hl. destruct (digits_head d Hne Hd) as [x [d' [ -> Hx ]]].
  rewrite last_char_app in Hl. apply digit_not_space.
  exact (last_char_all is_digit _ z Hd Hl).
Qed.

Lemma word_num_digits (word ws d r : string) :
  all_chars is_space ws = true -> d <> EmptyString ->
  all_chars is_digit d = true -> stops is_digit r ->
  Compiled.match_word_num word (word ++ ws ++ d ++ r) = Some d.
Proof.
  intros Hws Hne Hd Hr. unfold Compiled.match_word_num.
  rewrite strip_prefix_app.
  destruct (digits_head d Hne Hd) as [x [d' [E Hx]]].
  rewrite (span_app is_space ws (d ++ r) Hws)
    by (rewrite E; simpl; now apply digit_not_space).
  cbn [snd]. unfold Compiled.digits_after.
  rewrite (span_app is_digit d r Hd Hr).
  apply truthy_true in Hne. now rewrite Hne.
Qed.

Lemma header_word_number (w ws d r : string) :
  header_word w -> all_chars is_space ws = true -> d <> EmptyString ->
  all_chars is_digit d = true -> stops is_digit r ->
  Compiled.first_header_number (lower w ++ ws ++ d ++ r) = Some d.
Proof.
  intros Hw Hws Hne Hd Hr. unfold Compiled.first_header_number.
  destruct Hw as [ -> | [ -> | -> ] ].
  - now rewrite word_num_digits.
  - change (Compiled.match_word_num "module" ("chapter" ++ ws ++ d ++ r))
      with (@None string).
    change (Compiled.match_module_sep_num ("chapter" ++ ws ++ d ++ r))
      with (@None string).
    now rewrite word_num_digits.
  - change (Compiled.match_word_num "module" ("unit" ++ ws ++ d ++ r))
      with (@None string).
    change (Compiled.match_module_sep_num ("unit" ++ ws ++ d ++ r))
      with (@None string).
    change (Compiled.match_word_num "chapter" ("unit" ++ ws ++ d ++ r))
      with (@None string).
    now rewrite word_num_digits.
Qed.

(** X9.  A line made of the word [module], [chapter] or [unit] in any letter
    case, white space or none, a number, and a rest that does not go on
    with a digit, is a header with this number: whatever the state of
    the parser, the line closes the open module and opens the module
    [Module] with the number, be the word [chapter] or [unit]. *)
Theorem word_headers (st : parse_state) (w ws d rest : string) :
  header_word w -> all_chars is_space ws = true -> d <> EmptyString ->
  all_chars is_digit d = true -> stops is_digit rest ->
  let line := w ++ ws ++ d ++ rest in
  header_number line = Some d
  /\ parse_line st line
     = {| modules := save_current st;
          current_module := Some ("Module " ++ d);
          current_content := [w ++ ws ++ d ++ rstrip rest] |}.
Proof.
  intros Hw Hws Hne Hd Hr line.
  destruct (header_word_head w Hw) as [c [w' [Ew Hc]]].
  assert (Es : strip line = w ++ ws ++ d ++ rstrip rest).
  { unfold line. rewrite <- !str_app_assoc.
    destruct (last_char_some c (w' ++ ws ++ d)) as [z Hz].
    assert (Ez : (w ++ ws) ++ d = String c (w' ++ ws ++ d))
      by (rewrite Ew, str_app_assoc; reflexivity).
    rewrite Ez. rewrite (strip_keep c z _ rest Hc Hz); [reflexivity|].
    change (String c (w' ++ ws ++ d)) with (String c w' ++ ws ++ d) in Hz.
    rewrite <- str_app_assoc in Hz. exact (last_char_digits _ d z Hne Hd Hz). }
  assert (Hh : header_number line = Some d).
  { unfold header_number. rewrite Es, first_match_eq, !lower_app.
    rewrite (spaces_lower ws Hws), (digits_lower d Hd).
    apply header_word_number; try assumption.
    now apply stops_lower, stops_rstrip. }
  split; [exact Hh|]. rewrite (parse_line_header st line d Hh). now rewrite Es.
Qed.

Lemma word_headers_witness :
  header_number ("CHAPTER" ++ "  " ++ "12" ++ ": Timers ") = Some "12"
  /\ parse_line (fold_left parse_line ["Module 1"; "GPIO"] parse_init)
       ("CHAPTER" ++ "  " ++ "12" ++ ": Timers ")
     = {| modules := [("Module 1", text_of_lines ["Module 1"; "GPIO"])];
          current_module := Some "Module 12";
          current_content := ["CHAPTER  12: Timers"] |}.
Proof.
  exact (word_headers (fold_left parse_line ["Module 1"; "GPIO"] parse_init)
           "CHAPTER" "  " "12" ": Timers "
           (or_intror (or_introl eq_refl)) eq_refl ltac:(discriminate) eq_refl
           eq_refl).
Defined.

Lemma digit_not_word (x : ascii) (t : string) :
  is_digit x = true ->
  Compiled.match_word_num "module" (String x t) = None
  /\ Compiled.match_module_sep_num (String x t) = None
  /\ Compiled.match_word_num "chapter" (String x t) = None
  /\ Compiled.match_word_num "unit" (String x t) = None.
Proof.
  intros Hx. unfold Compiled.match_word_num, Compiled.match_module_sep_num.
  cbn [Compiled.strip_prefix].
  destruct x as [[] [] [] [] [] [] [] []]; try discriminate; repeat split.
Qed.

(** X10.  A line made of a number, white space or none, one of the
    characters [:], [.] and [-], and any rest is a header with this
    number: an item of a numbered list, or a date, closes the open
    module and opens the module [Module] with the number. *)
Theorem numbered_line_headers (st : parse_state) (d ws : string) (sep : ascii)
  (rest : string) :
  d <> EmptyString -> all_chars is_digit d = true ->
  all_chars is_space ws = true -> Re.is_sep sep = true ->
  let line := d ++ ws ++ String sep rest in
  header_number line = Some d
  /\ parse_line st line
     = {| modules := save_current st;
          current_module := Some ("Module " ++ d);
          current_content := [d ++ ws ++ String sep (rstrip rest)] |}.
Proof.
  intros Hne Hd Hws Hsep line.
  destruct (digits_head d Hne Hd) as [x [d' [Ed Hx]]].
  assert (Es : strip line = d ++ ws ++ String sep (rstrip rest)).
  { unfold line.
    assert (E : d ++ ws ++ String sep rest
                = String x (d' ++ ws ++ String sep EmptyString) ++ rest).
    { rewrite Ed. cbn [append]. f_equal. rewrite !str_app_assoc. reflexivity. }
    rewrite E.
    destruct (last_char_some x (d' ++ ws ++ String sep EmptyString)) as [z Hz].
    rewrite (strip_keep x z _ rest (digit_not_space x Hx) Hz).
    - rewrite Ed. cbn [append]. f_equal. rewrite !str_app_assoc. reflexivity.
    - change (String x (d' ++ ws ++ String sep EmptyString))
        with (String x d' ++ ws ++ String sep EmptyString) in Hz.
      rewrite <- str_app_assoc, last_char_app in Hz. simpl in Hz.
      injection Hz as <-. now apply sep_not_space. }
  assert (Hh : header_number line = Some d).
  { unfold header_number. rewrite Es, first_match_eq, !lower_app.
    rewrite (spaces_lower ws Hws), (digits_lower d Hd).
    cbn [lower]. rewrite (sep_lower sep Hsep).
    unfold Compiled.first_header_number.
    destruct (digit_not_word x (d' ++ ws ++ String sep (lower (rstrip rest))) Hx)
      as [H1 [H2 [H3 H4]]].
    rewrite Ed. cbn [append]. rewrite H1, H2, H3, H4.
    change (String x (d' ++ ws ++ String sep (lower (rstrip rest))))
      with (String x d' ++ ws ++ String sep (lower (rstrip rest))).
    rewrite <- Ed. unfold Compiled.match_num_sep.
    assert (Hst : stops is_digit (ws ++ String sep (lower (rstrip rest)))).
    { destruct ws as [|y ws']; simpl.
      - now apply sep_not_digit.
      - simpl in Hws. apply andb_prop in Hws. destruct Hws as [Hy _].
        now apply space_not_digit. }
    rewrite (span_app is_digit d _ Hd Hst).
    apply truthy_true in Hne. rewrite Hne.
    rewrite (span_app is_space ws _ Hws) by (simpl; now apply sep_not_space).
    cbn [snd]. now rewrite Hsep. }
  split; [exact Hh|]. rewrite (parse_line_header st line d Hh). now rewrite Es.
Qed.

Lemma numbered_line_headers_witness :
  header_number ("3" ++ "" ++ String "." " Interrupts and timers") = Some "3"
  /\ parse_line (fold_left parse_line ["Module 1"; "Topics:"] parse_init)
       ("3" ++ "" ++ String "." " Interrupts and timers")
     = {| modules := [("Module 1", text_of_lines ["Module 1"; "Topics:"])];
          current_module := Some "Module 3";
          current_content := ["3. Interrupts and timers"] |}.
Proof.
  exact (numbered_line_headers
           (fold_left parse_line ["Module 1"; "Topics:"] parse_init)
           "3" "" "." " Interrupts and timers"
           ltac:(discriminate) eq_refl eq_refl eq_refl).
Defined.

End HeaderForms.

(** ** The module map of any text *)

Section ModuleMaps.

Import QuestionPaperGenerator.

Lemma digits_after_number (s d : string) :
  Compiled.digits_after s = Some d -> is_number d.
Proof.
  unfold Compiled.digits_after. destruct (span is_digit s) as [a r] eqn:E.
  destruct (truthy a) eqn:Ha; [|discriminate]. intros H. injection H as <-.
  apply span_spec in E. destruct E as [_ [Hd _]].
  split; [now apply truthy_true|exact Hd].
Qed.

Lemma word_num_number (word s d : string) :
  Compiled.match_word_num word s = Some d -> is_number d.
Proof.
  unfold Compiled.match_word_num. destruct (strip_prefix word s); [|discriminate].
  apply digits_after_number.
Qed.

Lemma first_header_number_number (s d : string) :
  Compiled.first_header_number s = Some d -> is_number d.
Proof.
  unfold Compiled.first_header_number.
  destruct (Compiled.match_word_num "module" s) as [n|] eqn:E1.
  { intros H. injection H as <-. eapply word_num_number; eassumption. }
  destruct (Compiled.match_module_sep_num s) as [n|] eqn:E2.
  { intros H. injection H as <-. unfold Compiled.match_module_sep_num in E2.
    destruct (strip_prefix "module" s); [|discriminate].
    eapply digits_after_number; eassumption. }
  destruct (Compiled.match_word_num "chapter" s) as [n|] eqn:E3.
  { intros H. injection H as <-. eapply word_num_number; eassumption. }
  destruct (Compiled.match_word_num "unit" s) as [n|] eqn:E4.
  { intros H. injection H as <-. eapply word_num_number; eassumption. }
  unfold Compiled.match_num_sep. destruct (span is_digit s) as [a r] eqn:E.
  destruct (truthy a) eqn:Ha; [|discriminate].
  destruct (snd (span is_space r)) as [|c t]; [discriminate|].
  destruct (Re.is_sep c); [|discriminate]. intros H. injection H as <-.
  apply span_spec in E. destruct E as [_ [Hd _]].
  split; [now apply truthy_true|exact Hd].
Qed.

Lemma header_number_number (line d : string) :
  header_number line = Some d -> is_number d.
Proof.
  unfold header_number. rewrite first_match_eq. apply first_header_number_number.
Qed.

(** The lines of any text are some lines without header followed by
    blocks. *)
Lemma lines_as_blocks (lines : list string) :
  exists pre blocks,
    lines = List.app pre (flat_map block_lines blocks)
    /\ Forall not_header pre /\ Forall well_formed blocks.
Proof.
  induction lines as [|line lines [pre [blocks [E [Hpre Hb]]]]].
  - exists [], []. repeat split; constructor.
  - destruct (header_number line) as [n|] eqn:Hn.
    + exists [], ((line, pre) :: blocks). repeat split.
      * rewrite E. reflexivity.
      * constructor.
      * constructor; [|exact Hb]. split; [simpl; congruence|exact Hpre].
    + exists (line :: pre), blocks. repeat split.
      * simpl. now rewrite E.
      * constructor; assumption.
      * exact Hb.
Qed.

Lemma module_map_entry (syllabus_text k v : string) :
  In (k, v) (_parse_all_modules_from_syllabus syllabus_text) ->
  exists n header body,
    k = "Module " ++ n /\ is_number n
    /\ In header (split nl syllabus_text)
    /\ header_number header = Some n
    /\ incl body (split nl syllabus_text)
    /\ Forall not_header body
    /\ v = join NL (strip header :: kept_lines body).
Proof.
  unfold _parse_all_modules_from_syllabus.
  destruct (lines_as_blocks (split nl syllabus_text))
    as [pre [blocks [E [Hpre Hb]]]].
  rewrite E, (parse_lines_blocks pre blocks Hpre Hb). intros Hin.
  destruct (stored_entries_last blocks k v Hin) as [[h body] [Hlast [Hk Hv]]].
  destruct Hlast as [before [after [Eb _]]].
  assert (Hwf : well_formed (h, body)).
  { rewrite Forall_forall in Hb. apply Hb. rewrite Eb. apply in_or_app.
    right. left. reflexivity. }
  destruct Hwf as [Hh Hbody]. simpl in Hh, Hbody.
  destruct (header_number h) as [n|] eqn:Hn; [|contradiction].
  assert (Hsub : incl (block_lines (h, body))
                   (List.app pre (flat_map block_lines blocks))).
  { intros x Hx. apply in_or_app. right. apply in_flat_map.
    exists (h, body). split; [|exact Hx].
    rewrite Eb. apply in_or_app. right. left. reflexivity. }
  exists n, h, body.
  split; [rewrite <- Hk; unfold block_label; simpl; now rewrite Hn|].
  split; [exact (header_number_number h n Hn)|].
  split; [apply Hsub; left; reflexivity|].
  split; [exact Hn|].
  split; [intros x Hx; apply Hsub; right; exact Hx|].
  split; [exact Hbody|].
  rewrite <- Hv. reflexivity.
Qed.

Lemma module_map_nodup (syllabus_text : string) :
  NoDup (Dict.keys (_parse_all_modules_from_syllabus syllabus_text)).
Proof.
  unfold _parse_all_modules_from_syllabus.
  destruct (lines_as_blocks (split nl syllabus_text))
    as [pre [blocks [E [Hpre Hb]]]].
  rewrite E, (parse_lines_blocks pre blocks Hpre Hb). apply stored_keys_nodup.
Qed.

(** X11.  The module map of any syllabus text.  No label occurs twice.  Every
    label is [Module] and a number, whatever the word of the header
    was.  Every content starts with a header line that carries the
    number of the label, stripped, and goes on with lines of the text
    that are neither blank nor headers, each stripped. *)
Theorem module_map_shape (syllabus_text : string) :
  let result := _parse_all_modules_from_syllabus syllabus_text in
  NoDup (Dict.keys result)
  /\ forall k v, In (k, v) result ->
       Dict.get k result = Some v
       /\ exists n header body,
            k = "Module " ++ n /\ is_number n
            /\ In header (split nl syllabus_text)
            /\ header_number header = Some n
            /\ incl body (split nl syllabus_text)
            /\ Forall not_header body
            /\ v = join NL (strip header :: kept_lines body).
Proof.
  intros result. pose proof (module_map_nodup syllabus_text) as Hnd.
  split; [exact Hnd|]. intros k v Hin. split.
  - now apply dict_get_in.
  - now apply module_map_entry.
Qed.

Lemma search_digits_spec (s : string) :
  match Compiled.search_digits s with
  | None => no_digit s = true
  | Some d =>
      exists pre post,
        s = pre ++ d ++ post /\ no_digit pre = true /\ is_number d
        /\ stops is_digit post
  end.
Proof.
  unfold no_digit. induction s as [|c t IH]; [reflexivity|].
  cbn [Compiled.search_digits]. destruct (is_digit c) eqn:Hc.
  - destruct (span is_digit (String c t)) as [a r] eqn:E.
    pose proof (span_spec _ _ _ _ E) as [Es [Ha Hr]].
    exists EmptyString, r. cbn [fst]. repeat split; try assumption.
    simpl in E. rewrite Hc in E. destruct (span is_digit t).
    injection E as <- _. discriminate.
  - destruct (Compiled.search_digits t) as [d|].
    + destruct IH as [pre [post [Es [Hp [Hd Hpost]]]]].
      exists (String c pre), post. repeat split; try apply Hd; try assumption.
      * simpl. now rewrite Es.
      * simpl. now rewrite Hc.
    + simpl. now rewrite Hc.
Qed.

Lemma label_number (d : string) :
  is_number d -> _extract_module_number ("Module " ++ d) = Some d.
Proof.
  intros [Hne Hd]. rewrite extract_module_number_eq. cbn.
  destruct d as [|x d']; [contradiction|].
  pose proof Hd as Hx. simpl in Hx. apply andb_prop in Hx. destruct Hx as [Hx _].
  cbn [Compiled.search_digits]. rewrite Hx.
  now rewrite (span_all is_digit _ Hd).
Qed.

(** X12.  [_extract_module_number] returns the first number of the label, as
    it is written: the digits after the longest prefix without digit,
    up to the first character that is no digit.  It returns [None]
    exactly when the label has no digit.  The number of a label
    [Module] and a number is that number. *)
Theorem extract_module_number_spec (module_name : string) :
  match _extract_module_number module_name with
  | None => no_digit module_name = true
  | Some d =>
      exists pre post,
        module_name = pre ++ d ++ post /\ no_digit pre = true /\ is_number d
        /\ stops is_digit post
  end
  /\ (no_digit module_name = true -> _extract_module_number module_name = None)
  /\ (forall d, is_number d -> module_name = "Module " ++ d ->
                _extract_module_number module_name = Some d).
Proof.
  rewrite extract_module_number_eq. split; [apply search_digits_spec|]. split.
  - unfold no_digit. induction module_name as [|c t IH]; [reflexivity|].
    simpl. intros H. apply andb_prop in H. destruct H as [Hc Ht].
    apply negb_true_iff in Hc. rewrite Hc. now apply IH.
  - intros d Hd ->. rewrite <- extract_module_number_eq. now apply label_number.
Qed.

End ModuleMaps.

(** ** What the parser does not see *)

Section ParserInvariance.

Import QuestionPaperGenerator.

Lemma header_number_strip (line : string) :
  header_number (strip line) = header_number line.
Proof. unfold header_number. now rewrite strip_twice. Qed.

Lemma parse_line_strip (st : parse_state) (line : string) :
  parse_line st (strip line) = parse_line st line.
Proof. unfold parse_line. now rewrite strip_twice. Qed.

Lemma fold_kept_lines (lines : list string) :
  forall st,
    fold_left parse_line (kept_lines lines) st = fold_left parse_line lines st.
Proof.
  unfold kept_lines. induction lines as [|l lines IH]; intros st; [reflexivity|].
  simpl. destruct (truthy (strip l)) eqn:Ht.
  - simpl. now rewrite parse_line_strip, IH.
  - now rewrite IH, (parse_line_blank st l Ht).
Qed.

Lemma kept_lines_twice (lines : list string) :
  kept_lines (kept_lines lines) = kept_lines lines.
Proof.
  unfold kept_lines. induction lines as [|l lines IH]; [reflexivity|].
  simpl. destruct (truthy (strip l)) eqn:Ht; [|exact IH].
  simpl. rewrite strip_twice, Ht. now rewrite IH.
Qed.

(** X13.  The module map depends on the lines of the text that are not blank
    only, each stripped: blank lines and the white space around a line
    never matter, and two texts with the same such lines have the same
    module map. *)
Theorem parser_sees_kept_lines (syllabus_text other_text : string) :
  _parse_all_modules_from_syllabus syllabus_text
  = parse_lines (kept_lines (split nl syllabus_text))
  /\ (kept_lines (split nl syllabus_text) = kept_lines (split nl other_text) ->
      _parse_all_modules_from_syllabus syllabus_text
      = _parse_all_modules_from_syllabus other_text).
Proof.
  assert (H : forall t, _parse_all_modules_from_syllabus t
                        = parse_lines (kept_lines (split nl t))).
  { intros t. unfold _parse_all_modules_from_syllabus, parse_lines.
    now rewrite fold_kept_lines. }
  split; [apply H|]. intros E. now rewrite (H syllabus_text), (H other_text), E.
Qed.

Lemma kept_lines_lack (c : ascii) (lines : list string) :
  Forall (fun l => lacks c l = true) lines ->
  Forall (fun l => lacks c l = true) (kept_lines lines).
Proof.
  unfold kept_lines. induction 1 as [|l lines Hl _ IH]; [constructor|].
  simpl. destruct (truthy (strip l)); [|exact IH].
  constructor; [|exact IH]. unfold lacks in *. now apply all_chars_strip.
Qed.

Lemma kept_lines_not_header (lines : list string) :
  Forall not_header lines -> Forall not_header (kept_lines lines).
Proof.
  unfold kept_lines. induction 1 as [|l lines Hl _ IH]; [constructor|].
  simpl. destruct (truthy (strip l)); [|exact IH].
  constructor; [|exact IH]. unfold not_header. now rewrite header_number_strip.
Qed.

(** X14.  Every content of a module map is a syllabus of its own module:
    parsed by itself, the content of a label gives the map of this one
    label with the same content. *)
Theorem content_parses_to_itself (syllabus_text k v : string) :
  In (k, v) (_parse_all_modules_from_syllabus syllabus_text) ->
  _parse_all_modules_from_syllabus v = [(k, v)].
Proof.
  intros Hin.
  destruct (module_map_entry syllabus_text k v Hin)
    as [n [h [body [Hk [_ [Hh [Hn [Hbody [Hnot Hv]]]]]]]]].
  pose proof (split_parts_lack nl syllabus_text) as Hlack.
  rewrite Forall_forall in Hlack.
  assert (Hlines : split nl v = strip h :: kept_lines body).
  { rewrite Hv. apply (split_join nl); [discriminate|]. constructor.
    - unfold lacks. apply all_chars_strip. exact (Hlack h Hh).
    - apply kept_lines_lack. apply Forall_forall. intros l Hl.
      apply Hlack, Hbody, Hl. }
  unfold _parse_all_modules_from_syllabus. rewrite Hlines.
  replace (strip h :: kept_lines body)
    with (List.app [] (flat_map block_lines [(strip h, kept_lines body)]))
    by (cbn [flat_map List.app]; unfold block_lines; cbn [fst snd];
        now rewrite app_nil_r).
  rewrite parse_lines_blocks.
  - cbn [fold_left]. unfold store, block_label, block_content. cbn [fst snd Dict.set].
    rewrite header_number_strip, Hn, strip_twice, kept_lines_twice.
    now rewrite <- Hk, <- Hv.
  - constructor.
  - constructor; [|constructor]. split; cbn [fst snd].
    + rewrite header_number_strip, Hn. discriminate.
    + now apply kept_lines_not_header.
Qed.

Lemma content_parses_to_itself_witness :
  _parse_all_modules_from_syllabus (text_of_lines ["Module 1: Basics"; "LED interfacing"])
  = [("Module 1", text_of_lines ["Module 1: Basics"; "LED interfacing"])].
Proof.
  exact (content_parses_to_itself syllabus_two_modules "Module 1"
           (text_of_lines ["Module 1: Basics"; "LED interfacing"])
           (or_introl eq_refl)).
Defined.

End ParserInvariance.

(** ** The selector in closed form *)

Section SelectorFurther.

Import QuestionPaperGenerator.

Lemma select_fold_content (all_modules : Dict.t string) (selected : list string) :
  forall acc,
    fst (fold_left (select_module all_modules) selected acc)
    = List.app (fst acc)
        (flat_map (selected_section all_modules)
           (filter (resolves all_modules) selected)).
Proof.
  induction selected as [|m selected IH]; intros acc; simpl.
  - now rewrite app_nil_r.
  - rewrite IH. unfold select_module, resolves, selected_section.
    destruct (resolve all_modules m) as [content|] eqn:E; simpl; [|reflexivity].
    now rewrite E, <- app_assoc.
Qed.

Lemma strict_is_no_error (selected found available : list string)
  (result : string) :
  strict_content selected found result
  <> _create_error_response selected available.
Proof.
  intros H. apply (f_equal (String.get 1)) in H.
  unfold strict_content, _create_error_response, text_of_lines in H.
  cbn [join append NL String.get] in H. discriminate.
Qed.

Lemma select_content_closed (all_modules : Dict.t string)
  (selected_modules : list string) :
  select_content all_modules selected_modules
  = if negb (nonempty (filter (resolves all_modules) selected_modules))
    then _create_error_response selected_modules (Dict.keys all_modules)
    else strict_content selected_modules
           (filter (resolves all_modules) selected_modules)
           (join NL (flat_map (selected_section all_modules)
                       (filter (resolves all_modules) selected_modules))).
Proof.
  unfold select_content.
  pose proof (select_fold_found all_modules selected_modules ([], [])) as Hs.
  pose proof (select_fold_content all_modules selected_modules ([], [])) as Hc.
  destruct (fold_left (select_module all_modules) selected_modules ([], []))
    as [sc fm]. simpl in Hs, Hc. subst sc fm. reflexivity.
Qed.

(** X15.  The result of the selector in closed form.  The labels that
    resolve are taken in the order of the request, each as often as it
    is requested, and each adds its delimiter line, its content and an
    empty line.  A label that does not resolve is left out without any
    notice as long as another one resolves: the error payload is
    returned only when none does. *)
Theorem selector_result (all_modules : Dict.t string)
  (selected_modules : list string) :
  let found := filter (resolves all_modules) selected_modules in
  (found = [] ->
   select_content all_modules selected_modules
   = _create_error_response selected_modules (Dict.keys all_modules))
  /\ (found <> [] ->
      select_content all_modules selected_modules
      = strict_content selected_modules found
          (join NL (flat_map (selected_section all_modules) found))
      /\ select_content all_modules selected_modules
         <> _create_error_response selected_modules (Dict.keys all_modules)).
Proof.
  intros found. pose proof (select_content_closed all_modules selected_modules) as E.
  fold found in E. split.
  - intros Hf. rewrite E, Hf. reflexivity.
  - intros Hf. rewrite E. destruct found as [|m found']; [contradiction|].
    cbn [nonempty negb]. split; [reflexivity|apply strict_is_no_error].
Qed.

Lemma is_label_number (m : string) :
  is_label m -> exists d, is_number d /\ m = "Module " ++ d.
Proof.
  intros [n [Hn ->]]. exists (str_of_int n). split; [|reflexivity].
  destruct (small_numeral n Hn) as [Hd [x [r [E _]]]].
  split; [rewrite E; discriminate|exact Hd].
Qed.

Lemma module_map_key (syllabus_text key : string) :
  In key (Dict.keys (_parse_all_modules_from_syllabus syllabus_text)) ->
  exists n, key = "Module " ++ n /\ is_number n.
Proof.
  unfold Dict.keys. intros H. apply in_map_iff in H.
  destruct H as [[k v] [<- Hin]].
  destruct (module_map_entry syllabus_text k v Hin) as [n [_ [_ [Hk [Hn _]]]]].
  exists n. split; assumption.
Qed.

Lemma resolve_label (syllabus_text d : string) :
  is_number d ->
  resolve (_parse_all_modules_from_syllabus syllabus_text) ("Module " ++ d)
  = Dict.get ("Module " ++ d) (_parse_all_modules_from_syllabus syllabus_text).
Proof.
  intros Hd. set (all := _parse_all_modules_from_syllabus syllabus_text).
  unfold resolve.
  destruct (Dict.mem ("Module " ++ d) all) eqn:Hm; [reflexivity|].
  rewrite (label_number d Hd).
  assert (Ht : truthy d = true) by (apply truthy_true; apply Hd).
  rewrite Ht.
  assert (Hnone : List.find (same_number d) (Dict.keys all) = None).
  { apply find_none_iff. intros key Hk.
    destruct (module_map_key syllabus_text key Hk) as [n [-> Hn]].
    unfold same_number. rewrite (label_number n Hn).
    destruct (String.eqb_spec n d) as [->|]; [|reflexivity].
    apply dict_mem_keys in Hk. fold all in Hk. congruence. }
  rewrite Hnone. unfold Dict.mem in Hm.
  destruct (Dict.get ("Module " ++ d) all); [discriminate|reflexivity].
Qed.

(** X16.  For the labels that a request holds, [Module N], and the module
    map of any syllabus, the selection by number finds nothing that the
    selection by label does not find: a label resolves exactly when it
    is a label of the map, and the selector answers with the error
    payload exactly when no requested label is one.  A header
    [Module 03] is therefore never selected by the request of
    [Module 3]. *)
Theorem selection_by_label_only (syllabus_text : string)
  (selected_modules : list string) :
  Forall is_label selected_modules ->
  let all_modules := _parse_all_modules_from_syllabus syllabus_text in
  (forall m, In m selected_modules ->
             resolve all_modules m = Dict.get m all_modules)
  /\ (_extract_module_content syllabus_text selected_modules
      = _create_error_response selected_modules (Dict.keys all_modules)
      <-> forall m, In m selected_modules -> Dict.mem m all_modules = false).
Proof.
  intros Hl all_modules.
  assert (Hr : forall m, In m selected_modules ->
                 resolve all_modules m = Dict.get m all_modules).
  { intros m Hin. rewrite Forall_forall in Hl.
    destruct (is_label_number m (Hl m Hin)) as [d [Hd ->]].
    now apply resolve_label. }
  split; [exact Hr|].
  assert (Hf : filter (resolves all_modules) selected_modules = []
               <-> forall m, In m selected_modules -> Dict.mem m all_modules = false).
  { split.
    - intros Hnil m Hin.
      destruct (Dict.mem m all_modules) eqn:Hm; [|reflexivity].
      assert (Hin' : In m (filter (resolves all_modules) selected_modules)).
      { apply filter_In. split; [exact Hin|].
        unfold resolves. rewrite (Hr m Hin). unfold Dict.mem in Hm.
        destruct (Dict.get m all_modules); [reflexivity|discriminate]. }
      rewrite Hnil in Hin'. contradiction.
    - intros Hnone.
      destruct (filter (resolves all_modules) selected_modules) as [|m l] eqn:E;
        [reflexivity|].
      assert (Hin : In m (filter (resolves all_modules) selected_modules))
        by (rewrite E; left; reflexivity).
      apply filter_In in Hin. destruct Hin as [Hin Hres].
      unfold resolves in Hres. rewrite (Hr m Hin) in Hres.
      specialize (Hnone m Hin). unfold Dict.mem in Hnone.
      destruct (Dict.get m all_modules); discriminate. }
  unfold _extract_module_content. fold all_modules.
  rewrite select_content_closed. split.
  - intros H. apply Hf.
    destruct (filter (resolves all_modules) selected_modules); [reflexivity|].
    cbn [nonempty negb] in H. exfalso. exact (strict_is_no_error _ _ _ _ H).
  - intros H. apply Hf in H. rewrite H. reflexivity.
Qed.

Lemma selection_by_label_only_witness :
  resolve
    (_parse_all_modules_from_syllabus
       (text_of_lines ["Module 03: Timers"; "Timer modes"])) "Module 3" = None
  /\ _extract_module_content
       (text_of_lines ["Module 03: Timers"; "Timer modes"]) ["Module 3"]
     = _create_error_response ["Module 3"] ["Module 03"].
Proof.
  destruct (selection_by_label_only
              (text_of_lines ["Module 03: Timers"; "Timer modes"]) ["Module 3"])
    as [H1 H2].
  - repeat constructor. exists 3%Z. split; [lia|reflexivity].
  - split.
    + rewrite (H1 "Module 3" (or_introl eq_refl)). reflexivity.
    + apply (proj2 H2). intros m [<-|[]]. reflexivity.
Defined.

End SelectorFurther.

(** ** Labels validated again *)

Section RequestFurther.

Import QuestionGenerationRequest.

Lemma label_normal (m : string) :
  is_label m ->
  strip m = m /\ truthy m = true /\ normalize_module m = inr m.
Proof.
  intros [n [Hn ->]].
  change ("Module " ++ str_of_int n) with ("Module" ++ " " ++ str_of_int n).
  split; [now apply strip_word_numeral|]. split; [reflexivity|].
  rewrite normalize_module_eq. unfold Compiled.normalize.
  change (Compiled.match_digits_only ("Module" ++ " " ++ str_of_int n)) with false.
  rewrite sub_word_numeral; try assumption; try reflexivity; try discriminate.
  now rewrite label_accepted.
Qed.

Lemma loop_on_labels (v : list string) :
  Forall is_label v ->
  forall acc, validate_modules_loop v acc = inr (List.app acc v).
Proof.
  induction 1 as [|m v Hm _ IH]; intros acc; simpl.
  - now rewrite app_nil_r.
  - destruct (label_normal m Hm) as [Es [Ht En]].
    rewrite Es, Ht, En. cbn [negb]. rewrite IH, <- app_assoc. reflexivity.
Qed.

(** X17.  The validation of the modules of a request changes nothing in a
    list that it has returned: the labels of a request are accepted as
    they are when they are validated again. *)
Theorem validate_modules_twice (v validated_modules : list string) :
  validate_modules v = inr validated_modules ->
  validate_modules validated_modules = inr validated_modules.
Proof.
  unfold validate_modules. intros H.
  destruct (validate_modules_loop v []) as [e|out] eqn:El; [discriminate|].
  destruct (nonempty out) eqn:Hne; [|discriminate].
  cbn [negb] in H. injection H as <-.
  destruct (validate_modules_loop_labels v [] out (Forall_nil _) El) as [Hl _].
  rewrite (loop_on_labels out Hl []). cbn [List.app]. now rewrite Hne.
Qed.

Lemma validate_modules_twice_witness :
  validate_modules ["Module 3"; "Module 10"] = inr ["Module 3"; "Module 10"].
Proof.
  exact (validate_modules_twice [" module   3"; "10 "] ["Module 3"; "Module 10"]
           eq_refl).
Defined.

Lemma numeral_strip (n : nat) :
  strip (str_of_int (Z.of_nat n)) = str_of_int (Z.of_nat n).
Proof.
  destruct (nat_numeral_digits n) as [Hd Hne].
  destruct (str_of_int (Z.of_nat n)) as [|x d] eqn:E; [contradiction|].
  pose proof Hd as Hx. simpl in Hx. apply andb_prop in Hx. destruct Hx as [Hx _].
  unfold strip. cbn [lstrip]. rewrite (digit_not_space x Hx).
  apply rstrip_id. intros c Hc. apply digit_not_space.
  exact (last_char_all is_digit _ c Hd Hc).
Qed.

Lemma numeral_label_range (n : nat) :
  Compiled.match_module_1_10 ("Module " ++ str_of_int (Z.of_nat n)) = true ->
  (1 <= n <= 10)%nat.
Proof.
  intros H. destruct (nat_numeral_digits n) as [Hd Hne].
  destruct (match_module_1_10_spec _ H)
    as [ws [k [tail [E [Hws [Hsp [Hk Ht]]]]]]].
  change ("Module " ++ str_of_int (Z.of_nat n))
    with ("Module" ++ String " " (str_of_int (Z.of_nat n))) in E.
  assert (E' : String " " (str_of_int (Z.of_nat n)) = ws ++ str_of_int k ++ tail).
  { clear -E. cbn [append] in E. now injection E. }
  destruct (small_numeral k Hk) as [Hkd [y [b [Ek Hy]]]].
  destruct (str_of_int (Z.of_nat n)) as [|x a] eqn:En; [contradiction|].
  pose proof Hd as Hx. simpl in Hx. apply andb_prop in Hx. destruct Hx as [Hx _].
  rewrite Ek in E'. cbn [append] in E'.
  destruct (one_space ws a (b ++ tail) x y Hsp Hws Hx Hy E') as [_ E2].
  assert (Etail : tail = EmptyString).
  { destruct (at_dollar_cases tail Ht) as [ -> | -> ]; [reflexivity|].
    exfalso. rewrite E2 in Hd.
    change (String y (b ++ String nl EmptyString))
      with (String y b ++ String nl EmptyString) in Hd.
    rewrite all_chars_app in Hd. apply andb_prop in Hd. destruct Hd as [_ Hd].
    discriminate. }
  rewrite Etail, str_app_nil_r, <- Ek in E2. rewrite <- En in E2.
  apply str_of_int_inj in E2. lia.
Qed.

(** X18.  A label that is a number alone, written without sign, is accepted
    exactly when the number is from 1 to 10; any other number is
    rejected with the message that names it. *)
Theorem number_labels (n : nat) :
  validate_modules [str_of_int (Z.of_nat n)]
  = if ((1 <=? n) && (n <=? 10))%nat
    then inr ["Module " ++ str_of_int (Z.of_nat n)]
    else inl ("Invalid module: " ++ str_of_int (Z.of_nat n)
              ++ ". Must be Module 1 through Module 10").
Proof.
  destruct (nat_numeral_digits n) as [Hd Hne].
  unfold validate_modules. cbn [validate_modules_loop].
  rewrite numeral_strip. apply truthy_true in Hne. rewrite Hne. cbn [negb].
  rewrite normalize_module_eq. unfold Compiled.normalize.
  assert (Ho : Compiled.match_digits_only (str_of_int (Z.of_nat n)) = true).
  { unfold Compiled.match_digits_only. rewrite (span_all is_digit _ Hd).
    now rewrite Hne. }
  rewrite Ho.
  destruct ((1 <=? n) && (n <=? 10))%nat eqn:Hr.
  - apply andb_prop in Hr. destruct Hr as [H1 H2].
    apply Nat.leb_le in H1. apply Nat.leb_le in H2.
    rewrite label_accepted by lia. reflexivity.
  - destruct (Compiled.match_module_1_10 ("Module " ++ str_of_int (Z.of_nat n)))
      eqn:Hm; [|reflexivity].
    apply numeral_label_range in Hm. exfalso.
    apply andb_false_iff in Hr. destruct Hr as [Hr|Hr];
      apply Nat.leb_gt in Hr; lia.
Qed.

End RequestFurther.

(** ** The requests of the notes parser and of the summarizer *)

Section ContentRequests.

Lemma check_content_accepts (max_length : Z) (v c : string) :
  check_content max_length v = inr c ->
  c = strip v /\ c <> EmptyString
  /\ (1 <= Z.of_nat (String.length v) <= max_length)%Z.
Proof.
  unfold check_content, validate_content.
  destruct (Z.ltb_spec (Z.of_nat (String.length v)) 1) as [H1|H1]; [discriminate|].
  destruct (Z.ltb_spec max_length (Z.of_nat (String.length v))) as [H2|H2];
    [discriminate|].
  destruct (truthy (strip v)) eqn:Ht; [|discriminate]. cbn [negb].
  intros E. injection E as <-. split; [reflexivity|].
  split; [now apply truthy_true|lia].
Qed.

Lemma check_content_twice (max_length : Z) (v c : string) :
  check_content max_length v = inr c -> check_content max_length c = inr c.
Proof.
  intros Hc. destruct (check_content_accepts _ _ _ Hc) as [-> [Hne Hlen]].
  unfold check_content, validate_content. rewrite strip_twice.
  pose proof (strip_length v) as Hs.
  assert (Hpos : (0 < String.length (strip v))%nat)
    by (destruct (strip v); [contradiction|simpl; lia]).
  destruct (Z.ltb_spec (Z.of_nat (String.length (strip v))) 1) as [H1|H1]; [lia|].
  destruct (Z.ltb_spec max_length (Z.of_nat (String.length (strip v)))) as [H2|H2];
    [lia|].
  apply truthy_true in Hne. now rewrite Hne.
Qed.

(** X19.  The content of a request of the notes parser that is constructed is
    the given content stripped of the white space around it; it is not
    empty, and the given content, white space included, was not longer
    than 50000 characters.  The other fields are the given ones, and
    the content of the request is accepted unchanged when a request is
    constructed from it again. *)
Theorem notes_request_content (content : string) (file_format : option FileFormat)
  (extract_keywords extract_concepts extract_questions : bool)
  (request : NotesParseRequest.t) :
  NotesParseRequest.new content file_format extract_keywords extract_concepts
    extract_questions = inr request ->
  request = NotesParseRequest.mk (strip content) file_format extract_keywords
              extract_concepts extract_questions
  /\ NotesParseRequest.content request <> EmptyString
  /\ strip (NotesParseRequest.content request) = NotesParseRequest.content request
  /\ (String.length (NotesParseRequest.content request)
      <= String.length content)%nat
  /\ (Z.of_nat (String.length content) <= 50000)%Z
  /\ NotesParseRequest.new (NotesParseRequest.content request) file_format
       extract_keywords extract_concepts extract_questions = inr request.
Proof.
  unfold NotesParseRequest.new.
  destruct (check_content 50000 content) as [e|c] eqn:Ec; [discriminate|].
  intros H. injection H as <-. simpl.
  destruct (check_content_accepts _ _ _ Ec) as [-> [Hne Hlen]].
  split; [reflexivity|]. split; [exact Hne|]. split; [apply strip_twice|].
  split; [apply strip_length|]. split; [lia|].
  now rewrite (check_content_twice _ _ _ Ec).
Qed.

Lemma notes_request_content_witness :
  NotesParseRequest.mk "Ohm's law" (Some TXT) true true false
  = NotesParseRequest.mk (strip "  Ohm's law ") (Some TXT) true true false
  /\ "Ohm's law" <> EmptyString
  /\ strip "Ohm's law" = "Ohm's law"
  /\ (String.length "Ohm's law" <= String.length "  Ohm's law ")%nat
  /\ (Z.of_nat (String.length "  Ohm's law ") <= 50000)%Z
  /\ NotesParseRequest.new "Ohm's law" (Some TXT) true true false
     = inr (NotesParseRequest.mk "Ohm's law" (Some TXT) true true false).
Proof.
  exact (notes_request_content "  Ohm's law " (Some TXT) true true false
           (NotesParseRequest.mk "Ohm's law" (Some TXT) true true false) eq_refl).
Defined.

(** X20.  A request of the summarizer is constructed exactly when the given
    content is from 1 to 100000 characters long and not made of white
    space only, the summary type is one of the four allowed types
    ([key_points] among them) and the maximum length is from 50 to
    2000; the request then holds the content stripped and the other
    arguments as they were given. *)
Theorem summarize_request_accepted (content summary_type : string) (max_length : Z)
  (focus_areas : option (list string)) (include_examples : bool)
  (request : SummarizeRequest.t) :
  SummarizeRequest.new content summary_type max_length focus_areas include_examples
  = inr request
  <-> ((1 <= Z.of_nat (String.length content) <= 100000)%Z
       /\ strip content <> EmptyString
       /\ In summary_type SummarizeRequest.allowed_types
       /\ (50 <= max_length <= 2000)%Z
       /\ request = SummarizeRequest.mk (strip content) summary_type max_length
                      focus_areas include_examples).
Proof.
  unfold SummarizeRequest.new, SummarizeRequest.check_summary_type,
    SummarizeRequest.validate_summary_type, SummarizeRequest.check_max_length.
  assert (Hin : existsb (String.eqb summary_type) SummarizeRequest.allowed_types = true
                <-> In summary_type SummarizeRequest.allowed_types).
  { rewrite existsb_exists. split.
    - intros [x [Hx E]]. apply String.eqb_eq in E. now subst.
    - intros H. exists summary_type. split; [exact H|apply String.eqb_refl]. }
  split.
  - destruct (check_content 100000 content) as [e|c] eqn:Ec; [discriminate|].
    destruct (check_content_accepts _ _ _ Ec) as [-> [Hne Hlen]].
    destruct (existsb (String.eqb summary_type) SummarizeRequest.allowed_types) eqn:Ee;
      cbn [negb]; [|discriminate].
    destruct (Z.ltb_spec max_length 50) as [H1|H1]; [discriminate|].
    destruct (Z.ltb_spec 2000 max_length) as [H2|H2]; [discriminate|].
    cbn [List.app]. intros Hr. injection Hr as <-.
    split; [exact Hlen|]. split; [exact Hne|]. split; [now apply Hin|].
    split; [lia|reflexivity].
  - intros [Hlen [Hne [Ht [Hm ->]]]].
    assert (Ec : check_content 100000 content = inr (strip content)).
    { unfold check_content, validate_content.
      destruct (Z.ltb_spec (Z.of_nat (String.length content)) 1) as [H1|H1]; [lia|].
      destruct (Z.ltb_spec 100000 (Z.of_nat (String.length content))) as [H2|H2];
        [lia|].
      apply truthy_true in Hne. now rewrite Hne. }
    rewrite Ec. apply Hin in Ht. rewrite Ht. cbn [negb].
    destruct (Z.ltb_spec max_length 50) as [H1|H1]; [lia|].
    destruct (Z.ltb_spec 2000 max_length) as [H2|H2]; [lia|]. reflexivity.
Qed.

End ContentRequests.

(** ** The endpoint *)

Section Endpoint.

Import QuestionPaperGenerator.
Import AcademicRouter.

Lemma of_value_value (t : TestType) :
  TestTypeEnum.of_value (TestTypeEnum.value t) = Some t.
Proof. destruct t; reflexivity. Qed.

Lemma of_value_some (s : string) (t : TestType) :
  TestTypeEnum.of_value s = Some t -> s = TestTypeEnum.value t.
Proof.
  unfold TestTypeEnum.of_value.
  destruct (String.eqb_spec s "CAT-1") as [->|_]; [intros H; now injection H as <-|].
  destruct (String.eqb_spec s "CAT-2") as [->|_]; [intros H; now injection H as <-|].
  destruct (String.eqb_spec s "FAT") as [->|_]; [intros H; now injection H as <-|].
  discriminate.
Qed.

(** What a request that is constructed holds. *)
Lemma request_fields (syllabus_text test_type : string) (modules : list string)
  (request : QuestionGenerationRequest.t) :
  QuestionGenerationRequest.new syllabus_text test_type modules = inr request ->
  QuestionGenerationRequest.syllabus_text request = syllabus_text
  /\ (10 <= String.length syllabus_text)%nat
  /\ TestTypeEnum.value (QuestionGenerationRequest.test_type request) = test_type
  /\ Forall is_label (QuestionGenerationRequest.modules request)
  /\ QuestionGenerationRequest.validate_modules modules
     = inr (QuestionGenerationRequest.modules request).
Proof.
  unfold QuestionGenerationRequest.new, QuestionGenerationRequest.check_syllabus_text,
    QuestionGenerationRequest.check_modules.
  destruct (TestTypeEnum.of_value test_type) as [ty|] eqn:Et.
  2:{ destruct (_ <? 1)%nat; [discriminate|].
      destruct (10 <? _)%nat; [discriminate|].
      destruct (QuestionGenerationRequest.validate_modules modules); discriminate. }
  destruct (List.length modules <? 1)%nat; [discriminate|].
  destruct (10 <? List.length modules)%nat; [discriminate|].
  destruct (QuestionGenerationRequest.validate_modules modules) as [e|ms] eqn:Ev;
    [discriminate|].
  destruct (Nat.ltb_spec (String.length syllabus_text) 10) as [Hs|Hs]; [discriminate|].
  intros H. injection H as <-. simpl.
  split; [reflexivity|]. split; [exact Hs|].
  split; [symmetry; now apply of_value_some|]. split; [|reflexivity].
  unfold QuestionGenerationRequest.validate_modules in Ev.
  destruct (QuestionGenerationRequest.validate_modules_loop modules [])
    as [e|out] eqn:El; [discriminate|].
  destruct (nonempty out); [|discriminate]. cbn [negb] in Ev. injection Ev as <-.
  exact (proj1 (validate_modules_loop_labels modules [] out (Forall_nil _) El)).
Qed.

(** X21.  A response of the endpoint, as opposed to an [HTTPException], is
    the response of the generator to a request that was constructed
    from the stripped syllabus, the test type and the labels of the
    form; it has [success = True] and carries a paper with the number
    of questions, the marks per question and the total of the profile
    of the test type. *)
Theorem endpoint_success (env : environment) (file : option upload)
  (syllabus_text : option string) (test_type modules : string)
  (result : QuestionGenerationResponse.t) :
  generate_question_paper_endpoint env file syllabus_text test_type modules
  = inr result ->
  exists request qp,
    result = generate_question_paper (generator env) (start_time env) (end_time env)
               request
    /\ syllabus_content file syllabus_text
       = inr (QuestionGenerationRequest.syllabus_text request)
    /\ (10 <= String.length (QuestionGenerationRequest.syllabus_text request))%nat
    /\ TestTypeEnum.value (QuestionGenerationRequest.test_type request) = test_type
    /\ QuestionGenerationRequest.validate_modules (modules_list modules)
       = inr (QuestionGenerationRequest.modules request)
    /\ Forall is_label (QuestionGenerationRequest.modules request)
    /\ QuestionGenerationResponse.success result = true
    /\ QuestionGenerationResponse.question_paper result = Some qp
    /\ let cfg := question_limits (QuestionGenerationRequest.test_type request) in
       Z.of_nat (List.length (GeneratedQuestionPaper.paper qp)) = count cfg
       /\ Forall (fun q => Question.marks q = marks_each cfg)
                 (GeneratedQuestionPaper.paper qp)
       /\ sum_marks (GeneratedQuestionPaper.paper qp) = total cfg
       /\ paper_in_bounds qp.
Proof.
  unfold generate_question_paper_endpoint, generate_question_paper_body.
  destruct (syllabus_content file syllabus_text) as [e|content] eqn:Ec;
    [destruct e; discriminate|].
  destruct (negb (truthy content) || (String.length content <? 10)%nat);
    [discriminate|].
  destruct (negb (existsb (String.eqb test_type) ["CAT-1"; "CAT-2"; "FAT"]));
    [discriminate|].
  destruct (negb (nonempty (modules_list modules))); [discriminate|].
  destruct (TestTypeEnum.of_value test_type) as [member|] eqn:Et; [|discriminate].
  destruct (QuestionGenerationRequest.new content (TestTypeEnum.value member)
              (modules_list modules)) as [errors|request] eqn:En; [discriminate|].
  destruct (QuestionGenerationResponse.success
              (generate_question_paper (generator env) (start_time env)
                 (end_time env) request)) eqn:Es; cbn [negb]; [|discriminate].
  intros H. injection H as <-.
  destruct (request_fields _ _ _ _ En) as [Hs [Hlen [Hv [Hl Hm]]]].
  unfold generate_question_paper in *.
  destruct (generation_pipeline (generator env) request) as [e|qp] eqn:Ep;
    [discriminate|].
  exists request, qp. rewrite Ep.
  split; [reflexivity|]. split; [now rewrite Hs|]. split; [now rewrite Hs|].
  split; [rewrite Hv; symmetry; now apply of_value_some|].
  split; [exact Hm|]. split; [exact Hl|]. split; [reflexivity|].
  split; [reflexivity|]. exact (pipeline_paper _ _ _ Ep).
Qed.

Lemma endpoint_success_witness :
  exists request qp,
    QuestionGenerationRequest.validate_modules ["module 2"; "3"]
    = inr (QuestionGenerationRequest.modules request)
    /\ QuestionGenerationRequest.syllabus_text request = "Microcontroller syllabus"
    /\ QuestionGenerationResponse.question_paper
         (generate_question_paper runtime_five_sparse_questions 1.5%float 2.75%float
            (QuestionGenerationRequest.mk "Microcontroller syllabus" CAT1
               ["Module 2"; "Module 3"])) = Some qp
    /\ Z.of_nat (List.length (GeneratedQuestionPaper.paper qp))
       = count (question_limits (QuestionGenerationRequest.test_type request)).
Proof.
  destruct (endpoint_success example_environment
              None (Some "  Microcontroller syllabus ") "CAT-1" " module 2, 3,"
              (generate_question_paper runtime_five_sparse_questions
                 1.5%float 2.75%float
                 (QuestionGenerationRequest.mk "Microcontroller syllabus" CAT1
                    ["Module 2"; "Module 3"]))
              ltac:(vm_compute; reflexivity))
    as [request [qp [_ [Hs [_ [_ [Hm [_ [_ [Hq [Hn _]]]]]]]]]]].
  exists request, qp. split; [exact Hm|]. split; [now injection Hs|].
  split; [exact Hq|exact Hn].
Defined.

(** X22.  An [HTTPException] of the endpoint has the status 400 with one of
    five details, the status 422 for a syllabus that is empty or
    shorter than 10 characters, or the status 500; with the status 500
    the detail is that of an exception other than [HTTPException], or
    the message of the failure response of the generator. *)
Theorem endpoint_failures (env : environment) (file : option upload)
  (syllabus_text : option string) (test_type modules : string)
  (e : HTTPException) :
  generate_question_paper_endpoint env file syllabus_text test_type modules
  = inl e ->
  (status_code e = 400%Z /\ In (detail e) statuses_400)
  \/ (status_code e = 422%Z /\ detail e = "Invalid syllabus content."
      /\ exists content,
           syllabus_content file syllabus_text = inr content
           /\ (String.length content < 10)%nat)
  \/ (status_code e = 500%Z
      /\ exists msg,
           detail e = "Processing failed: " ++ msg
           \/ detail e = "Generation failed: " ++ msg).
Proof.
  unfold generate_question_paper_endpoint, generate_question_paper_body.
  destruct (syllabus_content file syllabus_text) as [r|content] eqn:Ec.
  { unfold syllabus_content in Ec. destruct r as [e'|msg].
    - intros H. injection H as <-. left.
      destruct file as [f|].
      + destruct (negb (truthy (filename f)));
          [injection Ec as <-; split; [reflexivity|simpl; tauto]|].
        destruct (negb (existsb _ allowed_extensions));
          [injection Ec as <-; split; [reflexivity|simpl; tauto]|].
        destruct (extracted f); discriminate.
      + destruct syllabus_text as [text|];
          [destruct (truthy text); [discriminate|]|];
          injection Ec as <-; split; try reflexivity; simpl; tauto.
    - intros H. injection H as <-. right. right. split; [reflexivity|].
      exists msg. left. reflexivity. }
  destruct (negb (truthy content) || (String.length content <? 10)%nat) eqn:Hc.
  { intros H. injection H as <-. right. left.
    split; [reflexivity|]. split; [reflexivity|]. exists content.
    split; [reflexivity|]. apply orb_true_iff in Hc. destruct Hc as [Hc|Hc].
    - destruct content; [simpl; lia|discriminate].
    - now apply Nat.ltb_lt. }
  destruct (negb (existsb (String.eqb test_type) ["CAT-1"; "CAT-2"; "FAT"])).
  { intros H. injection H as <-. left. split; [reflexivity|simpl; tauto]. }
  destruct (negb (nonempty (modules_list modules))).
  { intros H. injection H as <-. left. split; [reflexivity|simpl; tauto]. }
  destruct (TestTypeEnum.of_value test_type) as [member|].
  2:{ intros H. injection H as <-. right. right. split; [reflexivity|].
      eexists. left. reflexivity. }
  destruct (QuestionGenerationRequest.new content (TestTypeEnum.value member)
              (modules_list modules)) as [errors|request].
  { intros H. injection H as <-. right. right. split; [reflexivity|].
    eexists. left. reflexivity. }
  unfold generate_question_paper.
  destruct (generation_pipeline (generator env) request) as [msg|qp];
    cbn [QuestionGenerationResponse.success negb QuestionGenerationResponse.message];
    [|discriminate].
  intros H. injection H as <-. right. right. split; [reflexivity|].
  exists msg. right. reflexivity.
Qed.

Lemma endpoint_failures_witness :
  generate_question_paper_endpoint example_environment
    None (Some " Timers  ") "CAT-1" "Module 1"
  = inl {| status_code := 422; detail := "Invalid syllabus content." |}
  /\ exists content,
       syllabus_content None (Some " Timers  ") = inr content
       /\ (String.length content < 10)%nat.
Proof.
  split; [reflexivity|].
  destruct (endpoint_failures example_environment
              None (Some " Timers  ") "CAT-1" "Module 1"
              {| status_code := 422; detail := "Invalid syllabus content." |}
              eq_refl) as [[H _]|[[_ [_ H]]|[H _]]].
  - discriminate H.
  - exact H.
  - discriminate H.
Defined.

Lemma loop_error (v : list string) :
  forall acc e,
    QuestionGenerationRequest.validate_modules_loop v acc = inl e ->
    exists m,
      In m v /\ truthy (strip m) = true
      /\ e = "Invalid module: " ++ strip m ++ ". Must be Module 1 through Module 10".
Proof.
  induction v as [|m v IH]; intros acc e; simpl; [discriminate|].
  destruct (truthy (strip m)) eqn:Ht; cbn [negb].
  - unfold QuestionGenerationRequest.normalize_module at 1.
    destruct (negb (Re.matches Re.module_1_10 _)).
    + intros H. injection H as <-. exists m. repeat split; auto.
    + intros H. destruct (IH _ _ H) as [m' [Hin [Hm He]]].
      exists m'. repeat split; auto.
  - intros H. destruct (IH _ _ H) as [m' [Hin [Hm He]]].
    exists m'. repeat split; auto.
Qed.

Lemma modules_list_entries (modules m : string) :
  In m (modules_list modules) -> strip m = m /\ truthy m = true.
Proof.
  unfold modules_list. intros H. apply filter_In in H. destruct H as [Hin Ht].
  apply in_map_iff in Hin. destruct Hin as [x [<- _]].
  split; [apply strip_twice|exact Ht].
Qed.

(** X23.  In the endpoint the construction of the request can fail on the
    modules only, and in two ways: more than 10 labels, or a label that
    is not valid.  Either is answered with the status 500, the detail
    being the text of the validation error; the syllabus and the test
    type have been checked before, and the validator's own message for
    an empty selection is never reached. *)
Theorem endpoint_module_errors (env : environment) (file : option upload)
  (syllabus_text : option string) (test_type modules content : string)
  (errors : list QuestionGenerationRequest.field_error) :
  syllabus_content file syllabus_text = inr content ->
  (10 <= String.length content)%nat ->
  In test_type ["CAT-1"; "CAT-2"; "FAT"] ->
  modules_list modules <> [] ->
  QuestionGenerationRequest.check_modules (modules_list modules) = inl errors ->
  generate_question_paper_endpoint env file syllabus_text test_type modules
  = inl {| status_code := 500;
           detail := "Processing failed: " ++ str_of_validation_error env errors |}
  /\ ((errors = [QuestionGenerationRequest.TooLong "modules" 10]
       /\ (10 < List.length (modules_list modules))%nat)
      \/ exists m,
           In m (modules_list modules)
           /\ errors
              = [QuestionGenerationRequest.ValueError "modules"
                   ("Invalid module: " ++ m
                    ++ ". Must be Module 1 through Module 10")]).
Proof.
  intros Hc Hlen Ht Hne He.
  assert (Hmember : exists member,
             TestTypeEnum.of_value test_type = Some member
             /\ TestTypeEnum.value member = test_type).
  { destruct Ht as [<-|[<-|[<-|[]]]];
      [exists CAT1|exists CAT2|exists FAT]; split; reflexivity. }
  destruct Hmember as [member [Hof Hval]].
  split.
  - unfold generate_question_paper_endpoint, generate_question_paper_body.
    rewrite Hc.
    assert (Htruthy : truthy content = true)
      by (destruct content; [simpl in Hlen; lia|reflexivity]).
    rewrite Htruthy. cbn [negb orb].
    destruct (Nat.ltb_spec (String.length content) 10) as [Hl|Hl]; [lia|].
    assert (Hex : existsb (String.eqb test_type) ["CAT-1"; "CAT-2"; "FAT"] = true).
    { apply existsb_exists. exists test_type. split; [exact Ht|apply String.eqb_refl]. }
    rewrite Hex. cbn [negb].
    destruct (modules_list modules) as [|m0 l0] eqn:Eml; [contradiction|].
    cbn [nonempty negb]. rewrite Hof, Hval.
    unfold QuestionGenerationRequest.new. rewrite Hof, He.
    unfold QuestionGenerationRequest.check_syllabus_text.
    destruct (Nat.ltb_spec (String.length content) 10) as [Hl'|Hl']; [lia|].
    reflexivity.
  - unfold QuestionGenerationRequest.check_modules in He.
    destruct (Nat.ltb_spec (List.length (modules_list modules)) 1) as [H1|H1].
    { destruct (modules_list modules); [contradiction|simpl in H1; lia]. }
    destruct (Nat.ltb_spec 10 (List.length (modules_list modules))) as [H2|H2].
    { injection He as <-. left. split; [reflexivity|exact H2]. }
    right.
    destruct (QuestionGenerationRequest.validate_modules (modules_list modules))
      as [e|ms] eqn:Ev; [|discriminate].
    injection He as <-.
    unfold QuestionGenerationRequest.validate_modules in Ev.
    destruct (QuestionGenerationRequest.validate_modules_loop
                (modules_list modules) []) as [e'|out] eqn:El.
    + injection Ev as <-.
      destruct (loop_error _ _ _ El) as [m [Hin [_ ->]]].
      exists m. split; [exact Hin|].
      now rewrite (proj1 (modules_list_entries modules m Hin)).
    + exfalso.
      destruct (validate_modules_loop_labels _ [] out (Forall_nil _) El) as [_ Hl].
      rewrite filter_all in Hl.
      * destruct out; [simpl in Hl; lia|discriminate].
      * intros x Hx. destruct (modules_list_entries modules x Hx) as [-> Hx'].
        exact Hx'.
Qed.

Lemma endpoint_module_errors_witness :
  generate_question_paper_endpoint example_environment
    None (Some " Microcontroller syllabus") "CAT-1" "Module 1, Module 11"
  = inl {| status_code := 500;
           detail := "Processing failed: 1 validation error for QuestionGenerationRequest" |}
  /\ QuestionGenerationRequest.check_modules ["Module 1"; "Module 11"]
     = inl [QuestionGenerationRequest.ValueError "modules"
              "Invalid module: Module 11. Must be Module 1 through Module 10"].
Proof.
  split; [|reflexivity].
  exact (proj1 (endpoint_module_errors example_environment
                  None (Some " Microcontroller syllabus") "CAT-1"
                  "Module 1, Module 11" "Microcontroller syllabus"
                  [QuestionGenerationRequest.ValueError "modules"
                     "Invalid module: Module 11. Must be Module 1 through Module 10"]
                  eq_refl ltac:(simpl; lia) (or_introl eq_refl)
                  ltac:(discriminate) eq_refl)).
Defined.

Lemma label_lacks_comma (m : string) : is_label m -> lacks "," m = true.
Proof.
  intros [n [Hn ->]]. destruct (small_numeral n Hn) as [Hd _].
  unfold lacks. rewrite all_chars_app. apply andb_true_iff. split; [reflexivity|].
  eapply all_chars_impl; [|exact Hd].
  intros c Hc. destruct c as [[] [] [] [] [] [] [] []]; try discriminate; reflexivity.
Qed.

Lemma labels_modules_list (labels : list string) :
  labels <> [] -> Forall is_label labels ->
  modules_list (join "," labels) = labels.
Proof.
  intros Hne Hl. unfold modules_list.
  rewrite (split_join "," labels Hne)
    by (eapply Forall_impl; [|exact Hl]; apply label_lacks_comma).
  assert (Hs : map strip labels = labels).
  { clear Hne. induction Hl as [|m l Hm _ IH]; [reflexivity|].
    simpl. now rewrite (proj1 (label_normal m Hm)), IH. }
  rewrite Hs. apply filter_all. intros x Hx. rewrite Forall_forall in Hl.
  exact (proj1 (proj2 (label_normal x (Hl x Hx)))).
Qed.

Lemma labels_request (content : string) (t : TestType) (labels : list string) :
  (10 <= String.length content)%nat ->
  labels <> [] -> (List.length labels <= 10)%nat -> Forall is_label labels ->
  QuestionGenerationRequest.new content (TestTypeEnum.value t) labels
  = inr (QuestionGenerationRequest.mk content t labels).
Proof.
  intros Hc Hne Hlen Hl.
  unfold QuestionGenerationRequest.new, QuestionGenerationRequest.check_modules,
    QuestionGenerationRequest.check_syllabus_text,
    QuestionGenerationRequest.validate_modules.
  rewrite of_value_value.
  destruct (Nat.ltb_spec (List.length labels) 1) as [H1|H1];
    [destruct labels; [contradiction|simpl in H1; lia]|].
  destruct (Nat.ltb_spec 10 (List.length labels)) as [H2|H2]; [lia|].
  rewrite (loop_on_labels labels Hl []). cbn [List.app].
  destruct labels as [|m l]; [contradiction|]. cbn [nonempty negb].
  destruct (Nat.ltb_spec (String.length content) 10) as [H3|H3]; [lia|].
  reflexivity.
Qed.

(** X24.  The labels of a request, joined by commas as the form sends them,
    come back as they are: for a text of at least 10 characters once
    stripped, a test type and from 1 to 10 labels [Module N], the
    endpoint constructs the request of exactly these labels and
    answers with what the generator makes of it. *)
Theorem labels_form (env : environment) (text : string) (t : TestType)
  (labels : list string) :
  (10 <= String.length (strip text))%nat ->
  labels <> [] -> (List.length labels <= 10)%nat -> Forall is_label labels ->
  let request := QuestionGenerationRequest.mk (strip text) t labels in
  let result :=
    generate_question_paper (generator env) (start_time env) (end_time env)
      request in
  modules_list (join "," labels) = labels
  /\ QuestionGenerationRequest.new (strip text) (TestTypeEnum.value t) labels
     = inr request
  /\ generate_question_paper_endpoint env None (Some text) (TestTypeEnum.value t)
       (join "," labels)
     = if QuestionGenerationResponse.success result then inr result
       else inl {| status_code := 500;
                   detail := QuestionGenerationResponse.message result |}.
Proof.
  intros Hc Hne Hlen Hl request result.
  pose proof (labels_modules_list labels Hne Hl) as Hm.
  pose proof (labels_request (strip text) t labels Hc Hne Hlen Hl) as Hn.
  split; [exact Hm|]. split; [exact Hn|].
  unfold generate_question_paper_endpoint, generate_question_paper_body,
    syllabus_content.
  assert (Ht : truthy text = true).
  { destruct text; [simpl in Hc; lia|reflexivity]. }
  rewrite Ht.
  assert (Hts : truthy (strip text) = true)
    by (destruct (strip text); [simpl in Hc; lia|reflexivity]).
  rewrite Hts. cbn [negb orb].
  destruct (Nat.ltb_spec (String.length (strip text)) 10) as [H1|H1]; [lia|].
  assert (Hex : existsb (String.eqb (TestTypeEnum.value t)) ["CAT-1"; "CAT-2"; "FAT"]
                = true) by (destruct t; reflexivity).
  rewrite Hex, Hm. cbn [negb].
  destruct labels as [|m l] eqn:El; [contradiction|]. cbn [nonempty negb].
  rewrite of_value_value, Hn. fold request. fold result.
  destruct (QuestionGenerationResponse.success result); reflexivity.
Qed.

Lemma labels_form_witness :
  modules_list (join "," ["Module 2"; "Module 3"]) = ["Module 2"; "Module 3"]
  /\ QuestionGenerationRequest.new (strip " Microcontroller syllabus ")
       (TestTypeEnum.value CAT1) ["Module 2"; "Module 3"]
     = inr (QuestionGenerationRequest.mk "Microcontroller syllabus" CAT1
              ["Module 2"; "Module 3"])
  /\ QuestionGenerationResponse.success
       (generate_question_paper runtime_five_sparse_questions 1.5%float 2.75%float
          (QuestionGenerationRequest.mk "Microcontroller syllabus" CAT1
             ["Module 2"; "Module 3"])) = true.
Proof.
  destruct (labels_form example_environment " Microcontroller syllabus " CAT1
              ["Module 2"; "Module 3"])
    as [H1 [H2 _]].
  - simpl. lia.
  - discriminate.
  - simpl. lia.
  - repeat constructor; [exists 2%Z|exists 3%Z]; split; try lia; reflexivity.
  - split; [exact H1|]. split; [exact H2|]. vm_compute. reflexivity.
Defined.

End Endpoint.

(** ** File names and extracted text *)

Section Files.

Import AcademicRouter.
Import PlausibleText.

Lemma lower_dot (c : ascii) : lower_char c = "."%char -> c = "."%char.
Proof.
  destruct c as [[] [] [] [] [] [] [] []]; vm_compute; intros H;
    try discriminate; reflexivity.
Qed.

Lemma lower_lacks_dot (s : string) : lacks "." s = true -> lacks "." (lower s) = true.
Proof.
  unfold lacks. induction s as [|c t IH]; simpl; [reflexivity|]. intros H.
  apply andb_prop in H. destruct H as [Hc Ht]. rewrite (IH Ht), andb_true_r.
  apply negb_true_iff. apply negb_true_iff in Hc.
  destruct (Ascii.eqb_spec (lower_char c) ".") as [E|]; [|reflexivity].
  apply lower_dot in E. subst c. discriminate.
Qed.

(** X25.  The extension of a file name is the text after its last dot, in
    lower case, and the whole name in lower case when the name has no
    dot, so that a file named [PDF] has the extension [pdf].  An
    extension never has a dot. *)
Theorem file_extension (filename : string) :
  lacks "." (file_ext filename) = true
  /\ (lacks "." filename = true -> file_ext filename = lower filename)
  /\ (forall base extension,
         filename = base ++ "." ++ extension -> lacks "." extension = true ->
         file_ext filename = lower extension).
Proof.
  unfold file_ext. split; [|split].
  - pose proof (split_parts_lack "." (lower filename)) as H.
    rewrite Forall_forall in H. apply H. apply last_in. apply split_nonempty.
  - intros H. now rewrite (split_lacks "." _ (lower_lacks_dot _ H)).
  - intros base extension -> He.
    rewrite !lower_app. change (lower ".") with ".".
    change ("." ++ lower extension) with (String "." (lower extension)).
    destruct (split_last_part "." (lower base) (lower extension)
                (lower_lacks_dot _ He)) as [front [_ E]].
    rewrite E. apply last_snoc.
Qed.

Lemma findall_no_letter (s : string) :
  all_chars (fun c => negb (is_ascii_letter c)) s = true ->
  forall fuel, findall_fuel fuel word s = [].
Proof.
  induction s as [|c t IH]; intros H fuel; destruct fuel as [|fuel];
    try reflexivity.
  simpl in H. apply andb_prop in H. destruct H as [Hc Ht].
  apply negb_true_iff in Hc. cbn [findall_fuel].
  assert (E : Re.match_ word (String c t) = None).
  { unfold Re.match_, word. cbn [Re.seq Re.run]. now rewrite Hc. }
  rewrite E. now apply IH.
Qed.

(** X26.  The test of plausibility sees the text stripped of the white space
    around it only.  It refuses every text of fewer than 15 characters
    once stripped, and, whatever its length and its letters, every text
    in which no letter from [a] to [z] or [A] to [Z] occurs. *)
Theorem plausible_text (text : string) :
  _is_plausible_text (strip text) = _is_plausible_text text
  /\ ((String.length (strip text) < 15)%nat -> _is_plausible_text text = false)
  /\ (all_chars (fun c => negb (is_ascii_letter c)) text = true ->
      _is_plausible_text text = false).
Proof.
  split; [|split].
  - unfold _is_plausible_text. rewrite strip_twice.
    destruct (truthy (strip text)) eqn:Hs.
    + destruct text as [|c t]; [discriminate|reflexivity].
    + apply Bool.not_true_iff_false in Hs.
      assert (E : strip text = EmptyString).
      { destruct (strip text); [reflexivity|]. exfalso. now apply Hs. }
      rewrite E. cbn. destruct (truthy text); reflexivity.
  - intros H. unfold _is_plausible_text. destruct (truthy text); [|reflexivity].
    cbn [negb]. apply Nat.ltb_lt in H. now rewrite H.
  - intros H. unfold _is_plausible_text. destruct (truthy text); [|reflexivity].
    cbn [negb]. destruct (_ <? 15)%nat; [reflexivity|].
    destruct (_ <? 5)%nat; [reflexivity|].
    unfold findall. rewrite findall_no_letter; [reflexivity|].
    now apply all_chars_strip.
Qed.

End Files.

(** ** The extraction by paragraphs *)

Section Paragraphs.

Import QuestionPaperGenerator.
Import ParagraphAnalysis.

Lemma first_mentioned_in (nums : list string) (p : string) (ms : list string) :
  forall i m, first_mentioned nums p i ms = Some m -> In m ms.
Proof.
  induction ms as [|x ms IH]; intros i m; simpl; [discriminate|].
  destruct (mentions (nth i nums EmptyString) p).
  - intros H. injection H as <-. now left.
  - intros H. right. exact (IH _ _ H).
Qed.

Lemma get_or_some_if_nonempty (k : string) (d : Dict.t (list string))
  (l : list string) :
  Dict.get k d = some_if_nonempty l -> Dict.get_or k [] d = l.
Proof.
  unfold Dict.get_or. intros ->. destruct l; reflexivity.
Qed.

Lemma collected (selected_modules paragraphs : list string) (k : string) :
  Dict.get k (collect selected_modules paragraphs)
  = some_if_nonempty (filter (given_to selected_modules k) paragraphs).
Proof.
  unfold collect. rewrite <- (List.rev_involutive paragraphs).
  induction (List.rev paragraphs) as [|p ps IH]; [reflexivity|].
  simpl List.rev. rewrite fold_left_app, filter_snoc. cbn [fold_left].
  set (d := fold_left (add_paragraph selected_modules
                         (selected_numbers selected_modules)) (List.rev ps) []) in *.
  unfold add_paragraph at 1. unfold given_to at 2.
  destruct (first_mentioned _ (lower p) 0 selected_modules) as [m|].
  - destruct (String.eqb_spec m k) as [->|Hne].
    + rewrite dict_get_set_same, (get_or_some_if_nonempty _ _ _ IH).
      destruct (filter _ (List.rev ps)); reflexivity.
    + rewrite dict_get_set_other by congruence.
      now rewrite IH, app_nil_r.
  - now rewrite IH, app_nil_r.
Qed.

Lemma collected_key (selected_modules paragraphs : list string) (k : string) :
  In k (Dict.keys (collect selected_modules paragraphs)) -> In k selected_modules.
Proof.
  intros Hk. apply dict_mem_keys in Hk. unfold Dict.mem in Hk.
  rewrite collected in Hk.
  destruct (filter (given_to selected_modules k) paragraphs) as [|p l] eqn:E;
    [discriminate|].
  assert (Hin : In p (filter (given_to selected_modules k) paragraphs))
    by (rewrite E; now left).
  apply filter_In in Hin. destruct Hin as [_ Hg]. unfold given_to in Hg.
  destruct (first_mentioned _ (lower p) 0 selected_modules) as [m|] eqn:Em;
    [|discriminate].
  apply String.eqb_eq in Hg. subst m. exact (first_mentioned_in _ _ _ _ _ Em).
Qed.

Lemma selected_numbers_app (a b : list string) :
  selected_numbers (List.app a b)
  = List.app (selected_numbers a) (selected_numbers b).
Proof. unfold selected_numbers. apply flat_map_app. Qed.

Lemma selected_numbers_length (ms : list string) :
  Forall has_number ms -> List.length (selected_numbers ms) = List.length ms.
Proof.
  induction 1 as [|m ms Hm _ IH]; [reflexivity|].
  unfold has_number, _extract_module_number in Hm.
  cbn [selected_numbers flat_map].
  destruct (Re.search Re.digits m); [|contradiction].
  cbn [List.app List.length]. f_equal. exact IH.
Qed.

(** When every label has a number, the label of index [i] is tested
    with its own number. *)
Lemma first_mentioned_numbered (p : string) (ms : list string) :
  Forall has_number ms ->
  forall before,
    Forall has_number before ->
    first_mentioned (selected_numbers (List.app before ms)) (lower p)
      (List.length before) ms
    = List.find (fun label => mentions_number_of label p) ms.
Proof.
  induction 1 as [|m ms Hm _ IH]; intros before Hb; [reflexivity|].
  cbn [first_mentioned List.find].
  pose proof Hm as Hm'. unfold has_number in Hm'.
  unfold mentions_number_of at 1.
  destruct (_extract_module_number m) as [d|] eqn:Ed; [|contradiction].
  assert (En : nth (List.length before)
                 (selected_numbers (List.app before (m :: ms))) EmptyString = d).
  { rewrite selected_numbers_app, app_nth2;
      rewrite (selected_numbers_length before Hb); [|lia].
    rewrite Nat.sub_diag. cbn [selected_numbers flat_map].
    unfold _extract_module_number in Ed.
    destruct (Re.search Re.digits m); [|discriminate].
    now injection Ed. }
  rewrite En.
  destruct (mentions d (lower p)); [reflexivity|].
  specialize (IH (List.app before [m])).
  rewrite <- app_assoc, length_app in IH. cbn [List.app List.length] in IH.
  rewrite Nat.add_1_r in IH. apply IH.
  apply Forall_app. split; [exact Hb|]. constructor; [exact Hm|constructor].
Qed.

Lemma first_mentioned_own (p : string) (ms : list string) :
  Forall has_number ms ->
  first_mentioned (selected_numbers ms) (lower p) 0 ms
  = List.find (fun label => mentions_number_of label p) ms.
Proof. intros H. exact (first_mentioned_numbered p ms H [] (Forall_nil _)). Qed.

Lemma given_to_numbered (selected_modules : list string) (k p : string) :
  Forall has_number selected_modules ->
  given_to selected_modules k p = first_to_be_mentioned selected_modules k p.
Proof.
  intros H. unfold given_to, first_to_be_mentioned.
  now rewrite (first_mentioned_own p selected_modules H).
Qed.

(** A label without number takes the number of the label after it. *)
Lemma collect_shifted (label other d p : string) (rest : list string) :
  _extract_module_number label = None ->
  _extract_module_number other = Some d ->
  mentions d (lower p) = true ->
  collect (label :: other :: rest) [p] = [(label, [p])].
Proof.
  intros Hl Ho Hm. unfold collect. cbn [fold_left]. unfold add_paragraph.
  cbn [selected_numbers flat_map first_mentioned].
  unfold _extract_module_number in Hl, Ho.
  destruct (Re.search Re.digits label); [discriminate|].
  destruct (Re.search Re.digits other); [|discriminate].
  injection Ho as Ho. cbn [List.app nth]. rewrite Ho, Hm. reflexivity.
Qed.

(** X27.  When every label of the request has a number, the paragraphs that
    the analysis keeps for a label are exactly the paragraphs of the
    text, in their order, for which this label is the first label of
    the request whose number they mention; a label without such
    paragraph has no entry, and every label that has an entry is a
    label of the request.  The condition is needed: the numbers are
    collected from the labels that have one and paired with the labels
    by position, so that a label without number takes the number of
    the label after it, and a paragraph that mentions that number is
    kept for the label without number. *)
Theorem paragraph_attribution (syllabus_text : string)
  (selected_modules : list string) :
  let found := collect selected_modules (paragraphs syllabus_text) in
  (Forall has_number selected_modules ->
   (forall k,
       Dict.get k found
       = some_if_nonempty
           (filter (first_to_be_mentioned selected_modules k)
              (paragraphs syllabus_text)))
   /\ (forall k, In k (Dict.keys found) -> In k selected_modules))
  /\ (forall label other d p rest,
         _extract_module_number label = None ->
         _extract_module_number other = Some d ->
         mentions d (lower p) = true ->
         mentions_number_of label p = false
         /\ mentions_number_of other p = true
         /\ collect (label :: other :: rest) [p] = [(label, [p])]).
Proof.
  intros found. split.
  - intros Hn. split.
    + intros k. unfold found. rewrite collected. f_equal.
      apply filter_ext. intros p. now apply given_to_numbered.
    + intros k Hk. exact (collected_key _ _ k Hk).
  - intros label other d p rest Hl Ho Hm. split; [|split].
    + unfold mentions_number_of. now rewrite Hl.
    + unfold mentions_number_of. now rewrite Ho.
    + now apply (collect_shifted label other d).
Qed.

Lemma paragraph_attribution_witness :
  Dict.get "Module 2"
    (collect ["Module 1"; "Module 2"]
       (paragraphs
          (text_of_lines ["Unit 2: Timers"; EmptyString;
                          "Module 1 and module 2 at a glance"; EmptyString;
                          "Timer modes of unit 2"])))
  = Some ["Unit 2: Timers"; "Timer modes of unit 2"]
  /\ collect ["Intro"; "Module 2"] ["Module 2: Timers"]
     = [("Intro", ["Module 2: Timers"])].
Proof.
  split.
  - exact (proj1 (proj1 (paragraph_attribution
                           (text_of_lines ["Unit 2: Timers"; EmptyString;
                                           "Module 1 and module 2 at a glance";
                                           EmptyString; "Timer modes of unit 2"])
                           ["Module 1"; "Module 2"])
                    ltac:(repeat constructor; discriminate)) "Module 2").
  - exact (proj2 (proj2 (proj2 (paragraph_attribution EmptyString [])
                           "Intro" "Module 2" "2" "Module 2: Timers" []
                           eq_refl eq_refl eq_refl))).
Defined.

Lemma result_lines_nonempty (upper : string -> string) (selected_modules : list string)
  (d : Dict.t (list string)) (k : string) (ps : list string) :
  In k selected_modules -> Dict.get k d = Some ps ->
  result_lines upper selected_modules d <> [].
Proof.
  unfold result_lines. induction selected_modules as [|m ms IH]; [contradiction|].
  intros [->|Hin] Hg; simpl.
  - rewrite Hg. discriminate.
  - destruct (Dict.get m d); [discriminate|]. simpl. now apply IH.
Qed.

Lemma strict_filter_not_minimal (selected_modules : list string) (content : string) :
  strict_filter selected_modules content
  <> _create_minimal_module_content selected_modules.
Proof.
  intros H. apply (f_equal (String.get 0)) in H.
  unfold strict_filter, _create_minimal_module_content, text_of_lines in H.
  cbn [join append String.get] in H. discriminate.
Qed.

Lemma find_none_all {A} (f : A -> bool) (l : list A) :
  List.find f l = None <-> forall a, In a l -> f a = false.
Proof.
  split.
  - intros H a Ha. exact (find_none f l H a Ha).
  - induction l as [|x l IH]; [reflexivity|]. intros H. simpl.
    rewrite (H x (or_introl eq_refl)). apply IH. intros a Ha. apply H. now right.
Qed.

(** No paragraph is kept exactly when the loop over the labels stops
    at no label, for any paragraph. *)
Lemma nothing_collected (selected_modules paragraphs : list string) :
  collect selected_modules paragraphs = []
  <-> forall p, In p paragraphs ->
        first_mentioned (selected_numbers selected_modules) (lower p) 0
          selected_modules = None.
Proof.
  split.
  - intros H p Hp.
    destruct (first_mentioned (selected_numbers selected_modules) (lower p) 0
                selected_modules) as [m|] eqn:Em; [|reflexivity].
    exfalso.
    assert (Hg : Dict.get m (collect selected_modules paragraphs) = None)
      by now rewrite H.
    rewrite collected in Hg.
    assert (Hin : In p (filter (given_to selected_modules m) paragraphs)).
    { apply filter_In. split; [exact Hp|]. unfold given_to.
      rewrite Em. apply String.eqb_refl. }
    destruct (filter (given_to selected_modules m) paragraphs);
      [contradiction|discriminate].
  - intros H.
    destruct (collect selected_modules paragraphs) as [|[k ps] rest] eqn:E;
      [reflexivity|]. exfalso.
    assert (Hg : Dict.get k (collect selected_modules paragraphs) = Some ps)
      by (rewrite E; simpl; now rewrite String.eqb_refl).
    rewrite collected in Hg.
    destruct (filter (given_to selected_modules k) paragraphs)
      as [|p l] eqn:Ef; [discriminate|].
    assert (Hp : In p (filter (given_to selected_modules k) paragraphs))
      by (rewrite Ef; now left).
    apply filter_In in Hp. destruct Hp as [Hp Hgv]. unfold given_to in Hgv.
    now rewrite (H p Hp) in Hgv.
Qed.

(** X28.  The analysis answers with the minimal content when it has kept no
    paragraph, and otherwise with the filter text made of the sections
    of the labels that have paragraphs, in the order of the request:
    the list of these sections is never empty, so the second test of
    the method never fails.  When every label of the request has a
    number, the answer is the minimal content exactly when no
    paragraph of the text mentions the number of a requested label. *)
Theorem paragraph_analysis_result (upper : string -> string)
  (syllabus_text : string) (selected_modules : list string) :
  let found := collect selected_modules (paragraphs syllabus_text) in
  (found = [] ->
   _extract_by_paragraph_analysis upper syllabus_text selected_modules
   = _create_minimal_module_content selected_modules)
  /\ (found <> [] ->
      result_lines upper selected_modules found <> []
      /\ _extract_by_paragraph_analysis upper syllabus_text selected_modules
         = strict_filter selected_modules
             (join NL (result_lines upper selected_modules found))
      /\ _extract_by_paragraph_analysis upper syllabus_text selected_modules
         <> _create_minimal_module_content selected_modules)
  /\ (Forall has_number selected_modules ->
      (_extract_by_paragraph_analysis upper syllabus_text selected_modules
       = _create_minimal_module_content selected_modules
       <-> forall p label,
             In p (paragraphs syllabus_text) -> In label selected_modules ->
             mentions_number_of label p = false)).
Proof.
  intros found.
  assert (H1 : found = [] ->
               _extract_by_paragraph_analysis upper syllabus_text selected_modules
               = _create_minimal_module_content selected_modules).
  { intros H. unfold _extract_by_paragraph_analysis. fold found. now rewrite H. }
  assert (H2 : found <> [] ->
      result_lines upper selected_modules found <> []
      /\ _extract_by_paragraph_analysis upper syllabus_text selected_modules
         = strict_filter selected_modules
             (join NL (result_lines upper selected_modules found))
      /\ _extract_by_paragraph_analysis upper syllabus_text selected_modules
         <> _create_minimal_module_content selected_modules).
  { intros H.
    assert (Hr : result_lines upper selected_modules found <> []).
    { destruct found as [|[k ps] rest] eqn:E; [contradiction|].
      assert (Hk : In k (Dict.keys found)) by (rewrite E; now left).
      assert (Hin : In k selected_modules) by exact (collected_key _ _ k Hk).
      rewrite <- E. apply (result_lines_nonempty upper _ found k ps Hin).
      rewrite E. simpl. now rewrite String.eqb_refl. }
    split; [exact Hr|].
    assert (E : _extract_by_paragraph_analysis upper syllabus_text selected_modules
                = strict_filter selected_modules
                    (join NL (result_lines upper selected_modules found))).
    { unfold _extract_by_paragraph_analysis. fold found.
      destruct found; [contradiction|]. cbn [nonempty].
      destruct (result_lines upper selected_modules _); [contradiction|reflexivity]. }
    split; [exact E|]. rewrite E. apply strict_filter_not_minimal. }
  split; [exact H1|]. split; [exact H2|].
  intros Hn.
  assert (Hiff : found = [] <->
                 forall p label,
                   In p (paragraphs syllabus_text) -> In label selected_modules ->
                   mentions_number_of label p = false).
  { unfold found. rewrite nothing_collected. split.
    - intros H p label Hp Hl. specialize (H p Hp).
      rewrite (first_mentioned_own p selected_modules Hn) in H.
      exact (proj1 (find_none_all _ _) H label Hl).
    - intros H p Hp.
      rewrite (first_mentioned_own p selected_modules Hn).
      apply find_none_all. intros label Hl. exact (H p label Hp Hl). }
  rewrite <- Hiff. split.
  - intros E. destruct found as [|e l] eqn:Ef; [reflexivity|]. exfalso.
    assert (Hne : e :: l <> []) by discriminate.
    destruct (H2 Hne) as [_ [_ Hd]]. exact (Hd E).
  - exact H1.
Qed.

Lemma paragraph_analysis_result_witness :
  _extract_by_paragraph_analysis (fun s => s) "Unit 9 is about motors" ["Module 2"]
  = _create_minimal_module_content ["Module 2"].
Proof.
  apply (proj2 (proj2 (paragraph_analysis_result (fun s => s)
                         "Unit 9 is about motors" ["Module 2"]))).
  - repeat constructor; discriminate.
  - intros p label [<-|[]] [<-|[]]. reflexivity.
Defined.

Lemma startswith_prefix (a b s : string) :
  PyText.startswith (a ++ b) s = true -> PyText.startswith a s = true.
Proof.
  revert s. induction a as [|c a IH]; intros s; simpl; [reflexivity|].
  destruct s as [|d s]; [discriminate|]. intros H.
  apply andb_prop in H. destruct H as [Hc Ha]. now rewrite Hc, (IH s Ha).
Qed.

Lemma contains_prefix (a b s : string) :
  PyText.contains (a ++ b) s = true -> PyText.contains a s = true.
Proof.
  induction s as [|d s IH]; simpl.
  - rewrite !orb_false_r. apply startswith_prefix.
  - intros H. apply orb_true_iff in H. apply orb_true_iff. destruct H as [H|H].
    + left. eapply startswith_prefix. exact H.
    + right. now apply IH.
Qed.

(** X29.  A label is matched by the text of its number, not by the number: a
    paragraph that names a module whose number goes on after the
    number of the first requested label, as [Module 10] does after
    [Module 1], is given to this label. *)
Theorem paragraph_of_longer_number (module d more paragraph : string)
  (rest : list string) :
  _extract_module_number module = Some d ->
  PyText.contains ("module " ++ d ++ more) (lower paragraph) = true ->
  first_mentioned (selected_numbers (module :: rest)) (lower paragraph) 0
    (module :: rest) = Some module
  /\ given_to (module :: rest) module paragraph = true
  /\ Dict.get module (collect (module :: rest) [paragraph]) = Some [paragraph].
Proof.
  intros Hn Hc.
  assert (Hf : first_mentioned (selected_numbers (module :: rest)) (lower paragraph)
                 0 (module :: rest) = Some module).
  { cbn [first_mentioned selected_numbers flat_map].
    unfold _extract_module_number in Hn.
    destruct (Re.search Re.digits module) as [m|]; [|discriminate].
    injection Hn as ->. cbn [List.app nth]. unfold mentions.
    rewrite <- str_app_assoc in Hc. now rewrite (contains_prefix _ _ _ Hc). }
  assert (Hg : given_to (module :: rest) module paragraph = true).
  { unfold given_to. rewrite Hf. apply String.eqb_refl. }
  split; [exact Hf|]. split; [exact Hg|].
  rewrite collected. cbn [filter]. now rewrite Hg.
Qed.

Lemma paragraph_of_longer_number_witness :
  first_mentioned (selected_numbers ["Module 1"; "Module 10"])
    (lower "Module 10: Serial port") 0 ["Module 1"; "Module 10"] = Some "Module 1"
  /\ given_to ["Module 1"; "Module 10"] "Module 1" "Module 10: Serial port" = true
  /\ Dict.get "Module 1"
       (collect ["Module 1"; "Module 10"] ["Module 10: Serial port"])
     = Some ["Module 10: Serial port"].
Proof.
  exact (paragraph_of_longer_number "Module 1" "1" "0" "Module 10: Serial port"
           ["Module 10"] eq_refl eq_refl).
Defined.

End Paragraphs.

(** ** The completion clients *)

Section Clients.

(** X30.  The completion of the hybrid client.  Both providers are asked
    with the same messages, limit and temperature, each for its own
    default model, and the second one only matters when the first one
    raises or answers without content.  A completion that is returned
    has no white space around it, so that stripping it again changes
    nothing; and when both providers fail, the exception raised is
    that of the second: the failure of the first is not reported. *)
Theorem hybrid_completion (self : HybridClient.t) (prompt : string)
  (system_message : option string) (temperature : float) (max_tokens : Z) :
  let request default_model :=
    {| OpenAIClient.model := default_model;
       OpenAIClient.messages := OpenAIClient.chat_messages prompt system_message;
       OpenAIClient.max_tokens := max_tokens;
       OpenAIClient.temperature := temperature |} in
  let first :=
    OpenAIClient.create (HybridClient.openrouter_client self)
      (request (OpenAIClient.default_model (HybridClient.openrouter_client self))) in
  let second :=
    OpenAIClient.create (HybridClient.ollama_client self)
      (request (OpenAIClient.default_model (HybridClient.ollama_client self))) in
  let result :=
    HybridClient.generate_completion self prompt system_message temperature
      max_tokens in
  (forall content, first = inr (Some content) -> result = inr (strip content))
  /\ ((forall content, first <> inr (Some content)) ->
      result = match second with
               | inr (Some content) => inr (strip content)
               | inr None =>
                   inl ("OpenAI API error: " ++ OpenAIClient.none_has_no_strip)
               | inl e2 => inl ("OpenAI API error: " ++ e2)
               end)
  /\ (forall completion, result = inr completion -> strip completion = completion).
Proof.
  intros request first second result.
  unfold result, HybridClient.generate_completion,
    OpenAIClient.generate_completion.
  cbn [OpenAIClient.or_default]. fold (request
    (OpenAIClient.default_model (HybridClient.openrouter_client self))).
  fold (request (OpenAIClient.default_model (HybridClient.ollama_client self))).
  fold first. fold second.
  split; [|split].
  - intros content ->. reflexivity.
  - intros H. destruct first as [e|[c|]]; [|exfalso; now apply (H c)|];
      destruct second as [e2|[c2|]]; reflexivity.
  - intros completion.
    destruct first as [e|[c|]].
    + destruct second as [e2|[c2|]]; try discriminate.
      intros E. injection E as <-. apply strip_twice.
    + intros E. injection E as <-. apply strip_twice.
    + destruct second as [e2|[c2|]]; try discriminate.
      intros E. injection E as <-. apply strip_twice.
Qed.

End Clients.
